(** * Clippy AI: the command router and the model client

    A shallow embedding of [app/shared/command.ts] (class
    [CommandProcessor]) and [app/shared/llm.ts] (function [chat]), with the
    properties of the command-routing specification stated and proved over
    it.

    - JavaScript strings are sequences of UTF-16 code units ([jsstring]).
    - JavaScript numbers are IEEE 754 binary64 values (primitive [float]).
    - [async] functions are run to completion: a computation yields the
      ordered list of host calls it made and either a value or a thrown
      error ([Eff]).
    - What the host provides (the model client seen from the router,
      [window.open], [navigator.clipboard], the [Function] constructor,
      [String.prototype.toLowerCase], number formatting, [fetch]) is a
      record of functions, and every theorem quantifies over it.
    - What [Function] does with arithmetic is ECMAScript; [Engine] models
      that part of it and refines any host with it. *)

From Stdlib Require Import List Bool NArith ZArith Lia String Ascii.
From Stdlib Require Import Floats.PrimFloat Floats.SpecFloat Floats.FloatOps.
From Stdlib Require Import Numbers.Cyclic.Int63.Uint63.
From Stdlib Require Import Numbers.DecimalString Numbers.DecimalN.
Import ListNotations.

Set Implicit Arguments.
Set Warnings "-register-all".

(* ------------------------------------------------------------------ *)
(** * JavaScript strings and completions *)

Module Js.

Definition codeunit := N.
Definition jsstring := list codeunit.

(** An ASCII literal of the source as code units. *)
Definition lit (s : string) : jsstring :=
  List.map N_of_ascii (list_ascii_of_string s).

Definition unitEqb (a b : codeunit) : bool := N.eqb a b.

Fixpoint strEqb (a b : jsstring) : bool :=
  match a, b with
  | [], [] => true
  | x :: a', y :: b' => unitEqb x y && strEqb a' b'
  | _, _ => false
  end.

Definition isEmpty (s : jsstring) : bool :=
  match s with [] => true | _ :: _ => false end.

(** WhiteSpace and LineTerminator code points of ECMAScript: what
    [String.prototype.trim] strips and what [\s] matches. *)
Definition isWhiteSpace (c : codeunit) : bool :=
  ((9 <=? c) && (c <=? 13) || (c =? 32) || (c =? 160) || (c =? 5760)
   || (8192 <=? c) && (c <=? 8202)
   || (c =? 8232) || (c =? 8233) || (c =? 8239) || (c =? 8287)
   || (c =? 12288) || (c =? 65279))%N.

Fixpoint trimStart (s : jsstring) : jsstring :=
  match s with
  | [] => []
  | c :: rest => if isWhiteSpace c then trimStart rest else s
  end.

Definition trimEnd (s : jsstring) : jsstring := rev (trimStart (rev s)).

(** [s.trim()] *)
Definition trim (s : jsstring) : jsstring := trimEnd (trimStart s).

(** [s.startsWith(p)] *)
Fixpoint startsWith (p s : jsstring) : bool :=
  match p, s with
  | [], _ => true
  | x :: p', y :: s' => unitEqb x y && startsWith p' s'
  | _ :: _, [] => false
  end.

(** [s.slice(1)] *)
Definition slice1 (s : jsstring) : jsstring := tl s.

(** [s.split(sep)] for a separator of one code unit: never empty. *)
Fixpoint split (sep : codeunit) (s : jsstring) : list jsstring :=
  match s with
  | [] => [[]]
  | c :: rest =>
      if unitEqb c sep then [] :: split sep rest
      else match split sep rest with
           | [] => [[c]]
           | w :: ws => (c :: w) :: ws
           end
  end.

(** [xs.join(sep)] *)
Fixpoint join (sep : jsstring) (xs : list jsstring) : jsstring :=
  match xs with
  | [] => []
  | [x] => x
  | x :: rest => x ++ sep ++ join sep rest
  end.

(** [hay.includes(needle)] *)
Fixpoint includes (needle hay : jsstring) : bool :=
  startsWith needle hay ||
  match hay with
  | [] => false
  | _ :: rest => includes needle rest
  end.

(** Truthiness of a string: [""] is falsy. *)
Definition truthyStr (s : jsstring) : bool := negb (isEmpty s).

(** Truthiness of an optional property: [undefined] and [""] are falsy. *)
Definition truthyOpt (o : option jsstring) : bool :=
  match o with Some s => truthyStr s | None => false end.

(** The decimal digits of a non-negative integer. *)
Definition decimal (n : N) : jsstring :=
  lit (NilEmpty.string_of_uint (N.to_uint n)).

(** A thrown value.  What the host functions and the two modules throw
    are [Error] objects, and a handler reads nothing of them but
    [message]. *)
Record JsError := mkError { message : jsstring }.

Inductive Completion (A : Type) : Type :=
| Normal (a : A)
| Throw (e : JsError).
Arguments Normal {A} a.
Arguments Throw {A} e.

Definition isNormal {A} (c : Completion A) : bool :=
  match c with Normal _ => true | Throw _ => false end.

(** A JavaScript number is a binary64 value. *)
Definition isFinite (x : float) : bool := negb (PrimFloat.is_nan x || PrimFloat.is_infinity x).

Definition numberOfZ (z : Z) : float := of_uint63 (Uint63.of_Z z).

End Js.

(* ------------------------------------------------------------------ *)
(** * The model client: [app/shared/llm.ts] *)

Module Llm.
Import Js.

Inductive LLMRole := RoleSystem | RoleUser | RoleAssistant.

Record LLMMessage := mkMessage { role : LLMRole; content : jsstring }.

Record ChatOptions := mkOptions {
  temperature : option float;
  maxTokens : option N;
  signal : bool;                      (* an AbortSignal was passed *)
  modelOverride : option jsstring
}.

(** [opts = {}], the default of [chat]'s third parameter. *)
Definition noOptions : ChatOptions := mkOptions None None false None.

(** A value produced by [response.json()]. *)
Inductive Json :=
| JNull
| JBool (b : bool)
| JNumber (x : float)
| JString (s : jsstring)
| JArray (xs : list Json)
| JObject (fields : list (jsstring * Json)).

Inductive PropKey := Named (name : jsstring) | Index (i : nat).

Fixpoint lookupField (name : jsstring) (fields : list (jsstring * Json)) : option Json :=
  match fields with
  | [] => None
  | (k, v) :: rest => if strEqb k name then Some v else lookupField name rest
  end.

(** [v[key]] on a value that is neither [null] nor [undefined]; [None] is
    [undefined].  The names the source reads ([choices], [message],
    [content], [error]) are no property of an array, a string, a number or
    a boolean, own or inherited. *)
Definition getProp (v : Json) (key : PropKey) : option Json :=
  match v, key with
  | JObject fields, Named name => lookupField name fields
  | JObject fields, Index i => lookupField (decimal (N.of_nat i)) fields
  | JArray xs, Index i => nth_error xs i
  | JString s, Index i => option_map (fun c => JString [c]) (nth_error s i)
  | _, _ => None
  end.

(** Optional chaining, [v?.key]. *)
Definition optChain (v : option Json) (key : PropKey) : option Json :=
  match v with
  | None | Some JNull => None
  | Some x => getProp x key
  end.

(** Nullish coalescing, [v ?? d]. *)
Definition nullish (v : option Json) (d : Json) : Json :=
  match v with
  | None | Some JNull => d
  | Some x => x
  end.

Definition truthy (v : option Json) : bool :=
  match v with
  | None | Some JNull => false
  | Some (JBool b) => b
  | Some (JNumber x) => negb (PrimFloat.is_zero x || PrimFloat.is_nan x)
  | Some (JString s) => truthyStr s
  | Some (JArray _) | Some (JObject _) => true
  end.

Record Response := mkResponse {
  ok : bool;
  status : N;
  statusText : jsstring;
  json : Completion Json;             (* outcome of [response.json()] *)
  text : Completion jsstring          (* outcome of [response.text()] *)
}.

Record RequestBody := mkBody {
  model : jsstring;
  body_temperature : float;
  max_tokens : option N;
  messages : list LLMMessage
}.

Record Request := mkRequest {
  url : jsstring;
  authorization : jsstring;
  body : RequestBody
}.

(** The environment of the module: the two build-time variables, the
    network, and the two conversions of a JSON value to text. *)
Record Host := mkHost {
  VITE_OPENAI_API_KEY : option jsstring;
  VITE_OPENAI_MODEL : option jsstring;
  fetch : Request -> Completion Response;
  jsonStringify : Json -> jsstring;    (* [JSON.stringify(v)] *)
  toText : Json -> jsstring            (* [String(v)] of a value that is no string *)
}.

Definition bindC {A B} (c : Completion A) (k : A -> Completion B) : Completion B :=
  match c with
  | Normal a => k a
  | Throw e => Throw e
  end.

Notation "x <- c ;; k" := (bindC c (fun x => k))
  (at level 61, c at next level, right associativity).

Section Client.
Variable h : Host.

Definition API_KEY : option jsstring := VITE_OPENAI_API_KEY h.

Definition DEFAULT_MODEL : jsstring :=
  match VITE_OPENAI_MODEL h with
  | Some m => if truthyStr m then m else lit "gpt-4o-mini"
  | None => lit "gpt-4o-mini"
  end.

Definition API_URL : jsstring := lit "https://api.openai.com/v1/chat/completions".

Definition missingKeyError : JsError :=
  mkError (lit "Missing VITE_OPENAI_API_KEY. Add it to your .env file (see .env.example).").

Definition assertApiKey : Completion unit :=
  if truthyOpt API_KEY then Normal tt else Throw missingKeyError.

Definition payloadMessages (system : jsstring) (msgs : list LLMMessage) : list LLMMessage :=
  (if truthyStr system then [mkMessage RoleSystem system] else []) ++ msgs.

(** The request [chat] hands to [fetch]. *)
Definition chatRequest (system : jsstring) (msgs : list LLMMessage)
    (opts : ChatOptions) : Request :=
  let model :=
    match modelOverride opts with
    | Some m => if truthyStr m then m else DEFAULT_MODEL
    | None => DEFAULT_MODEL
    end in
  let temperature :=
    match temperature opts with
    | Some t => t
    | None => 0x1.6666666666666p-1%float            (* 0.7 *)
    end in
  mkRequest API_URL
    (lit "Bearer " ++ match API_KEY with Some k => k | None => lit "undefined" end)
    (mkBody model temperature (maxTokens opts) (payloadMessages system msgs)).

(** [${v}] in a template literal: a string is spliced in as it is, any
    other value is converted by [String]. *)
Definition interpolate (v : Json) : jsstring :=
  match v with
  | JString s => s
  | other => toText h other
  end.

(** [detail] of the failure branch, with the separator in front of it. *)
Definition dash : jsstring := [32; 226; 8364; 8220; 32]%N.

Definition errorDetail (response : Response) : Completion jsstring :=
  match json response with
  | Normal j =>
      let m := optChain (optChain (Some j) (Named (lit "error"))) (Named (lit "message")) in
      if truthy m then Normal (dash ++ interpolate (nullish m JNull))
      else
        let d := jsonStringify h j in
        Normal (if truthyStr d then dash ++ d else [])
  | Throw _ =>
      d <- text response ;;
      Normal (if truthyStr d then dash ++ d else [])
  end.

Definition emptyResponseError : JsError := mkError (lit "Empty response from model.").

(** [data?.choices?.[0]?.message?.content] *)
Definition generatedContent (data : Json) : option Json :=
  optChain
    (optChain
       (optChain (optChain (Some data) (Named (lit "choices"))) (Index 0))
       (Named (lit "message")))
    (Named (lit "content")).

(** [chat(system, messages, opts)].  The timer that aborts the request
    after 60 s has no effect on the value computed and is left out; an
    aborted request is a [fetch] that throws. *)
Definition chat (system : jsstring) (msgs : list LLMMessage)
    (opts : ChatOptions) : Completion jsstring :=
  _ <- assertApiKey ;;
  response <- fetch h (chatRequest system msgs opts) ;;
  if negb (ok response) then
    detail <- errorDetail response ;;
    Throw (mkError (lit "OpenAI " ++ decimal (status response) ++ lit " "
                      ++ statusText response ++ detail))
  else
    data <- json response ;;
    match nullish (generatedContent data) (JString []) with
    | JString s =>
        if strEqb (trim s) [] then Throw emptyResponseError
        else Normal (trim s)
    | _ => Throw emptyResponseError
    end.

(** [oneShot(system, userText, opts)] *)
Definition oneShot (system userText : jsstring) (opts : ChatOptions) : Completion jsstring :=
  chat system [mkMessage RoleUser userText] opts.

End Client.

End Llm.

(* ------------------------------------------------------------------ *)
(** * The command router: [app/shared/command.ts] *)

Module Command.
Import Js.

Definition LLMMessage := Llm.LLMMessage.

Record CommandResult := mkResult {
  isCommand : bool;
  response : option jsstring;
  error : option jsstring;
  shouldContinueToLLM : option bool;
  clipboardContent : option jsstring
}.

Record ChatContext := mkContext {
  system : jsstring;
  history : list LLMMessage
}.

(** What [Function(src)()] can return: [typeof] tells numbers from the
    rest (a regular-expression literal is the rest the whitelist leaves). *)
Inductive JsValue := VNumber (x : float) | VOther.

(** [navigator.clipboard] as the router meets it. *)
Inductive ClipboardApi :=
| NavigatorUndefined                       (* reading [navigator] throws *)
| ClipboardUnavailable                     (* [clipboard] or [readText] missing *)
| ClipboardReadText (outcome : Completion jsstring).

(** Everything the router calls and does not define. *)
Record Host := mkHost {
  chat : jsstring -> list LLMMessage -> Completion jsstring;   (* [./llm] *)
  windowOpen : jsstring -> jsstring -> Completion unit;        (* [window.open] *)
  clipboard : ClipboardApi;
  evalFunction : jsstring -> Completion JsValue;               (* [Function(src)()] *)
  toLowerCase : jsstring -> jsstring;
  numberToString : float -> jsstring                           (* [`${x}`] *)
}.

(** The host calls a run makes, in order. *)
Inductive Event :=
| ChatCall (system : jsstring) (messages : list LLMMessage)
| WindowOpen (url target : jsstring)
| ClipboardRead
| FunctionEval (src : jsstring).

Definition Eff (A : Type) : Type := (list Event * Completion A)%type.

Definition ret {A} (a : A) : Eff A := ([], Normal a).

Definition throw {A} (e : JsError) : Eff A := ([], Throw e).

Definition bind {A B} (m : Eff A) (k : A -> Eff B) : Eff B :=
  match m with
  | (t, Normal a) => let (t', r) := k a in (t ++ t', r)
  | (t, Throw e) => (t, Throw e)
  end.

(** One host call: it is logged, and its outcome is the computation's. *)
Definition perform {A} (ev : Event) (outcome : Completion A) : Eff A :=
  ([ev], outcome).

(** [try { m } catch (e) { handler e }] *)
Definition tryCatch {A} (m : Eff A) (handler : JsError -> Eff A) : Eff A :=
  match m with
  | (t, Normal a) => (t, Normal a)
  | (t, Throw e) => let (t', r) := handler e in (t ++ t', r)
  end.

Notation "x <- c ;; k" := (bind c (fun x => k))
  (at level 61, c at next level, right associativity).

Definition trace {A} (m : Eff A) : list Event := fst m.
Definition outcome {A} (m : Eff A) : Completion A := snd m.

Definition isChatCall (ev : Event) : bool :=
  match ev with ChatCall _ _ => true | _ => false end.

(** Number of model-client calls of a run. *)
Definition chatCalls {A} (m : Eff A) : nat :=
  List.length (List.filter isChatCall (trace m)).

Definition notCommand : CommandResult := mkResult false None None None None.

Definition errorResult (msg : jsstring) : CommandResult :=
  mkResult true None (Some msg) None None.

Definition responseResult (msg : jsstring) : CommandResult :=
  mkResult true (Some msg) None None None.

Definition nl : jsstring := [10%N].
Definition quote : jsstring := [34%N].
Definition backtick : jsstring := [96%N].

Definition crossMark : jsstring := [10060%N].                 (* U+274C *)
Definition checkMark : jsstring := [9989%N].                  (* U+2705 *)
Definition abacus : jsstring := [55358; 56814]%N.             (* U+1F9EE *)
Definition clipboardSign : jsstring := [55357; 56523]%N.      (* U+1F4CB *)
Definition robot : jsstring := [55358; 56598]%N.              (* U+1F916 *)
Definition globe : jsstring := [55356; 57104]%N.              (* U+1F310 *)
Definition questionMark : jsstring := [10067%N].              (* U+2753 *)
Definition speech : jsstring := [55357; 56492]%N.             (* U+1F4AC *)

Definition helpText : jsstring :=
  lit "**" ++ robot ++ lit " Clippy AI Commands:**" ++ nl ++ nl
  ++ globe ++ lit " " ++ backtick ++ lit "/open <url>" ++ backtick
  ++ lit " - Open a website" ++ nl
  ++ lit "   Example: " ++ backtick ++ lit "/open https://google.com" ++ backtick ++ nl ++ nl
  ++ clipboardSign ++ lit " " ++ backtick ++ lit "/clipboard" ++ backtick
  ++ lit " - Summarize clipboard content" ++ nl
  ++ lit "   Example: " ++ backtick ++ lit "/clipboard" ++ backtick ++ nl ++ nl
  ++ abacus ++ lit " " ++ backtick ++ lit "/calc <expression>" ++ backtick
  ++ lit " - Calculate math" ++ nl
  ++ lit "   Example: " ++ backtick ++ lit "/calc 2 + 2 * 3" ++ backtick ++ nl ++ nl
  ++ questionMark ++ lit " " ++ backtick ++ lit "/help" ++ backtick
  ++ lit " - Show this help" ++ nl ++ nl
  ++ speech ++ lit " **Just type normally for AI chat!**".

(** [/^[0-9+\-*/().\s]+$/.test(expression)] *)
Definition allowedUnit (c : codeunit) : bool :=
  ((48 <=? c) && (c <=? 57) || (c =? 43) || (c =? 45) || (c =? 42)
   || (c =? 47) || (c =? 40) || (c =? 41) || (c =? 46))%N
  || isWhiteSpace c.

Definition whitelisted (expression : jsstring) : bool :=
  negb (isEmpty expression) && forallb allowedUnit expression.

(** The source text handed to [Function]. *)
Definition functionBody (expression : jsstring) : jsstring :=
  quote ++ lit "use strict" ++ quote ++ lit "; return (" ++ expression ++ lit ")".

Definition summaryPrompt (clipboardText : jsstring) : jsstring :=
  lit "Please provide a concise summary of this clipboard content:" ++ nl ++ nl
  ++ clipboardText.

Definition summarizingNotice : jsstring :=
  clipboardSign ++ lit " **Summarizing clipboard content...**".

Definition hasProtocol (url : jsstring) : bool :=
  startsWith (lit "http://") url || startsWith (lit "https://") url.

(** [`${o}`] of an optional string property. *)
Definition render (o : option jsstring) : jsstring :=
  match o with Some s => s | None => lit "undefined" end.

Section Processor.
Variable h : Host.

Definition showHelp : CommandResult := responseResult helpText.

Definition openWebsite (args : list jsstring) : Eff CommandResult :=
  match args with
  | [] => ret (errorResult (lit "Please provide a URL. Example: /open https://google.com"))
  | _ :: _ =>
      let url := join (lit " ") args in
      let url := if negb (hasProtocol url) then lit "https://" ++ url else url in
      tryCatch
        (_ <- perform (WindowOpen url (lit "_blank")) (windowOpen h url (lit "_blank")) ;;
         ret (responseResult (checkMark ++ lit " Opened: " ++ url)))
        (fun e => ret (errorResult (lit "Failed to open URL: " ++ message e)))
  end.

Definition calculate (args : list jsstring) : Eff CommandResult :=
  match args with
  | [] => ret (errorResult (lit "Please provide a math expression. Example: /calc 2 + 2"))
  | _ :: _ =>
      let expression := join (lit " ") args in
      tryCatch
        (if negb (whitelisted expression)
         then throw (mkError (lit "Invalid characters in expression"))
         else
           result <- perform (FunctionEval (functionBody expression))
                             (evalFunction h (functionBody expression)) ;;
           match result with
           | VNumber x =>
               if isFinite x
               then ret (responseResult
                           (abacus ++ lit " **" ++ expression ++ lit "** = **"
                              ++ numberToString h x ++ lit "**"))
               else throw (mkError (lit "Invalid calculation result"))
           | VOther => throw (mkError (lit "Invalid calculation result"))
           end)
        (fun _ => ret (errorResult
                         (lit "Invalid math expression: " ++ quote ++ expression ++ quote)))
  end.

Definition summarizeClipboard : Eff CommandResult :=
  tryCatch
    (match clipboard h with
     | NavigatorUndefined => throw (mkError (lit "navigator is not defined"))
     | ClipboardUnavailable =>
         ret (errorResult
                (lit "Clipboard access not available. Try copying text and asking me to summarize it directly."))
     | ClipboardReadText out =>
         clipboardText <- perform ClipboardRead out ;;
         if negb (truthyStr clipboardText) || (List.length (trim clipboardText) =? 0)%nat
         then ret (errorResult (lit "Clipboard is empty or contains no text"))
         else ret (mkResult true (Some summarizingNotice) None (Some true)
                            (Some clipboardText))
     end)
    (fun _ => ret (errorResult
                     (lit "Clipboard access denied. Try copying text and asking me to summarize it directly."))).

(** The [switch] of [processInput]. *)
Definition dispatch (command : jsstring) (args : list jsstring) : Eff CommandResult :=
  if strEqb command (lit "help") then ret showHelp
  else if strEqb command (lit "open") then openWebsite args
  else if strEqb command (lit "calc") || strEqb command (lit "calculate") then calculate args
  else if strEqb command (lit "clipboard") then summarizeClipboard
  else ret (errorResult (lit "Unknown command: /" ++ command
                           ++ lit ". Type /help for available commands.")).

Definition processInput (input : jsstring) : Eff CommandResult :=
  let trimmed := trim input in
  if negb (startsWith (lit "/") trimmed) then ret notCommand
  else
    let parts := split 32%N (slice1 trimmed) in
    let command := toLowerCase h (hd [] parts) in
    let args := tl parts in
    tryCatch (dispatch command args)
             (fun e => ret (errorResult (lit "Command error: " ++ message e))).

(** [await chat(system, messages)] *)
Definition callChat (system : jsstring) (messages : list LLMMessage) : Eff jsstring :=
  perform (ChatCall system messages) (chat h system messages).

Definition runCommandOrChat (input : jsstring) (ctx : ChatContext) : Eff jsstring :=
  commandResult <- processInput input ;;
  if negb (isCommand commandResult) then
    callChat (system ctx) (history ctx ++ [Llm.mkMessage Llm.RoleUser input])
  else if truthyOpt (error commandResult) then
    ret (crossMark ++ lit " " ++ render (error commandResult))
  else if match shouldContinueToLLM commandResult with Some b => b | None => false end
          && truthyOpt (clipboardContent commandResult) then
    let prompt := summaryPrompt (render (clipboardContent commandResult)) in
    summary <- callChat (system ctx) [Llm.mkMessage Llm.RoleUser prompt] ;;
    ret (render (response commandResult) ++ nl ++ nl ++ summary)
  else
    ret (if truthyOpt (response commandResult)
         then render (response commandResult)
         else lit "Command executed successfully.").

End Processor.

(** The router over the real model client of [llm.ts]. *)
Definition withModelClient (lh : Llm.Host) (h : Host) : Host :=
  mkHost (fun system messages => Llm.chat lh system messages Llm.noOptions)
         (windowOpen h) (clipboard h) (evalFunction h) (toLowerCase h)
         (numberToString h).

End Command.

(* ------------------------------------------------------------------ *)
(** * Digits, and the law of [toLowerCase]

    What is asked of the host's [toLowerCase] on ASCII text. *)

Module SpecArith.
Import Js.

Definition isDigit (c : codeunit) : bool := ((48 <=? c) && (c <=? 57))%N.

Definition isAscii (c : codeunit) : bool := (c <? 128)%N.

Definition asciiLower (c : codeunit) : codeunit :=
  if ((65 <=? c) && (c <=? 90))%N then (c + 32)%N else c.

(** On text of ASCII characters [toLowerCase] maps [A-Z] to [a-z] and
    keeps the rest; elsewhere it follows the Unicode case mappings, which
    are not modelled. *)
Definition AsciiLowerCase (h : Command.Host) : Prop :=
  forall s, forallb isAscii s = true ->
    Command.toLowerCase h s = List.map asciiLower s.

End SpecArith.

(* ------------------------------------------------------------------ *)
(** * Vocabulary of the statements *)

Module Spec.
Import Js.

(** The input begins with the sigil once trimmed. *)
Definition isCommandInput (input : jsstring) : bool :=
  startsWith (lit "/") (trim input).

(** [parts] of [processInput]. *)
Definition commandParts (input : jsstring) : list jsstring :=
  split 32%N (slice1 (trim input)).

(** [command] of [processInput]. *)
Definition commandToken (h : Command.Host) (input : jsstring) : jsstring :=
  Command.toLowerCase h (hd [] (commandParts input)).

(** [args] of [processInput]. *)
Definition commandArgs (input : jsstring) : list jsstring :=
  tl (commandParts input).

Definition knownCommand (command : jsstring) : bool :=
  strEqb command (lit "help") || strEqb command (lit "open")
  || strEqb command (lit "calc") || strEqb command (lit "calculate")
  || strEqb command (lit "clipboard").

(** The whitelist as the specification spells it, [[0-9+\-*/(). ]]: of
    white space, the plain space only. *)
Definition claimedAllowedUnit (c : codeunit) : bool :=
  ((48 <=? c) && (c <=? 57) || (c =? 43) || (c =? 45) || (c =? 42)
   || (c =? 47) || (c =? 40) || (c =? 41) || (c =? 46) || (c =? 32))%N.

(** A scheme as the specification's sentence on [/open] reads it, the
    way a URI spells one: a letter, then letters, digits, [+], [-] or [.],
    up to a colon.  [ftp://host], [mailto:me] and [HTTP://HOST] have one,
    [example.com] has none. *)
Definition isSchemeLetter (c : codeunit) : bool :=
  ((65 <=? c) && (c <=? 90) || (97 <=? c) && (c <=? 122))%N.

Definition isSchemeUnit (c : codeunit) : bool :=
  (isSchemeLetter c || (48 <=? c) && (c <=? 57) || (c =? 43) || (c =? 45) || (c =? 46))%N.

Fixpoint schemeEnds (s : jsstring) : bool :=
  match s with
  | [] => false
  | c :: rest => if (c =? 58)%N then true else isSchemeUnit c && schemeEnds rest
  end.

Definition claimedHasScheme (s : jsstring) : bool :=
  match s with
  | [] => false
  | c :: rest => isSchemeLetter c && schemeEnds rest
  end.

(** [url] as [openWebsite] passes it to [window.open]. *)
Definition normalizedUrl (args : list jsstring) : jsstring :=
  let joined := join (lit " ") args in
  if Command.hasProtocol joined then joined else lit "https://" ++ joined.

Definition userMessage (text : jsstring) : Llm.LLMMessage :=
  Llm.mkMessage Llm.RoleUser text.

Definition unknownCommandText (command : jsstring) : jsstring :=
  lit "Unknown command: /" ++ command ++ lit ". Type /help for available commands.".

Definition invalidExpressionText (expression : jsstring) : jsstring :=
  lit "Invalid math expression: " ++ Command.quote ++ expression ++ Command.quote.

Definition calcResponseText (h : Command.Host) (expression : jsstring) (x : float) : jsstring :=
  Command.abacus ++ lit " **" ++ expression ++ lit "** = **"
  ++ Command.numberToString h x ++ lit "**".

End Spec.

(* ------------------------------------------------------------------ *)
(** * The engine behind [Function], on arithmetic

    [calculate] hands [functionBody expression] to [Function] and calls
    the result.  What happens then is ECMAScript, run by the engine of the
    renderer; this module gives the part of it that arithmetic needs.

    The expression is read from left to right into numeric literals, the
    punctuators [+ - * / ( )] and white space.  The body is strict code, so
    a literal with a leading zero ([010], [08]) is a syntax error, and so
    are [++] and [--], which nothing written with these characters can
    follow or precede lawfully.  The tokens, between the parentheses of
    [return (...)], are parsed as sums of products of signed primaries and
    evaluated in binary64; when they do not parse, the body is either
    refused or calls a number as a function, and throws.  A text with a
    comment, a regular expression, [**] or a lone dot is beyond this model
    and left to the host it refines.  Numbers are printed by the engine
    too. *)

Module Engine.
Import Js.
Import SpecArith.

Definition isLineTerminator (c : codeunit) : bool :=
  ((c =? 10) || (c =? 13) || (c =? 8232) || (c =? 8233))%N.

Inductive Token :=
| TNum (x : float) | TPlus | TMinus | TStar | TSlash | TOpen | TClose.

Definition digitsValue (ds : list codeunit) : Z :=
  fold_left (fun acc c => (10 * acc + (Z.of_N c - 48))%Z) ds 0%Z.

(** The binary64 nearest to [p / q], ties to even; [p] and [q] are
    positive. *)
Definition nearest (p q : Z) : float :=
  SF2Prim (SFdiv prec emax (S754_finite false (Z.to_pos p) 0)
                           (S754_finite false (Z.to_pos q) 0)).

(** The Number value of the literal [whole.fraction]: its decimal value,
    rounded to the nearest binary64. *)
Definition numericValue (whole fraction : list codeunit) : float :=
  match digitsValue (whole ++ fraction) with
  | Zpos m => nearest (Zpos m) (10 ^ Z.of_nat (List.length fraction))
  | _ => 0%float
  end.

Definition leadingZero (whole : list codeunit) : bool :=
  match whole with
  | d :: _ :: _ => (d =? 48)%N
  | _ => false
  end.

Inductive Scan :=
| Tokens (ts : list Token)
| Rejected                            (* a syntax error is certain *)
| Beyond.                             (* not modelled *)

Definition emit (t : Token) (after : Scan) : Scan :=
  match after with
  | Tokens ts => Tokens (t :: ts)
  | other => other
  end.

Definition emitAll (ts : list Token) (after : Scan) : Scan :=
  fold_right emit after ts.

Definition closeLiteral (whole fraction : list codeunit) (after : Scan) : Scan :=
  if leadingZero whole then Rejected
  else emit (TNum (numericValue whole fraction)) after.

(** Where the scanner stands: between two tokens, [operand] telling
    whether the last one ended an operand (a literal or a closing
    parenthesis), which makes a following [/] a division; or inside a
    literal, before or after its dot. *)
Inductive Mode :=
| Between (operand : bool)
| InWhole (whole : list codeunit)
| InFraction (whole fraction : list codeunit).

Fixpoint scan (mode : Mode) (s : jsstring) : Scan :=
  match s with
  | [] =>
      match mode with
      | Between _ => Tokens []
      | InWhole whole => closeLiteral whole [] (Tokens [])
      | InFraction whole fraction => closeLiteral whole fraction (Tokens [])
      end
  | c :: rest =>
      let next := hd 0%N rest in
      let between (operand : bool) : Scan :=
        if isDigit c then scan (InWhole [c]) rest
        else if (c =? 46)%N then
          (if isDigit next then scan (InFraction [] []) rest else Beyond)
        else if (c =? 43)%N then
          (if (next =? 43)%N then Rejected else emit TPlus (scan (Between false) rest))
        else if (c =? 45)%N then
          (if (next =? 45)%N then Rejected else emit TMinus (scan (Between false) rest))
        else if (c =? 42)%N then
          (if (next =? 42)%N then Beyond else emit TStar (scan (Between false) rest))
        else if (c =? 47)%N then
          (if operand && negb ((next =? 47) || (next =? 42))%N
           then emit TSlash (scan (Between false) rest)
           else Beyond)
        else if (c =? 40)%N then emit TOpen (scan (Between false) rest)
        else if (c =? 41)%N then emit TClose (scan (Between true) rest)
        else if isWhiteSpace c then scan (Between operand) rest
        else Beyond in
      match mode with
      | Between operand => between operand
      | InWhole whole =>
          if isDigit c then scan (InWhole (whole ++ [c])) rest
          else if (c =? 46)%N then scan (InFraction whole []) rest
          else closeLiteral whole [] (between true)
      | InFraction whole fraction =>
          if isDigit c then scan (InFraction whole (fraction ++ [c])) rest
          else closeLiteral whole fraction (between true)
      end
  end.

(** Recursive descent: sums of products of signed primaries, each level
    associating to the left. *)
Fixpoint parseUnary (fuel : nat) (ts : list Token) : option (float * list Token) :=
  match fuel with
  | O => None
  | S f =>
      match ts with
      | TNum x :: r => Some (x, r)
      | TMinus :: r =>
          match parseUnary f r with
          | Some (v, r') => Some (PrimFloat.opp v, r')
          | None => None
          end
      | TPlus :: r => parseUnary f r
      | TOpen :: r =>
          match parseSum f r with
          | Some (v, TClose :: r') => Some (v, r')
          | _ => None
          end
      | _ => None
      end
  end
with parseProductRest (fuel : nat) (acc : float) (ts : list Token)
    : option (float * list Token) :=
  match fuel with
  | O => None
  | S f =>
      match ts with
      | TStar :: r =>
          match parseUnary f r with
          | Some (v, r') => parseProductRest f (PrimFloat.mul acc v) r'
          | None => None
          end
      | TSlash :: r =>
          match parseUnary f r with
          | Some (v, r') => parseProductRest f (PrimFloat.div acc v) r'
          | None => None
          end
      | _ => Some (acc, ts)
      end
  end
with parseProduct (fuel : nat) (ts : list Token) : option (float * list Token) :=
  match fuel with
  | O => None
  | S f =>
      match parseUnary f ts with
      | Some (v, r) => parseProductRest f v r
      | None => None
      end
  end
with parseSumRest (fuel : nat) (acc : float) (ts : list Token)
    : option (float * list Token) :=
  match fuel with
  | O => None
  | S f =>
      match ts with
      | TPlus :: r =>
          match parseProduct f r with
          | Some (v, r') => parseSumRest f (PrimFloat.add acc v) r'
          | None => None
          end
      | TMinus :: r =>
          match parseProduct f r with
          | Some (v, r') => parseSumRest f (PrimFloat.sub acc v) r'
          | None => None
          end
      | _ => Some (acc, ts)
      end
  end
with parseSum (fuel : nat) (ts : list Token) : option (float * list Token) :=
  match fuel with
  | O => None
  | S f =>
      match parseProduct f ts with
      | Some (v, r) => parseSumRest f v r
      | None => None
      end
  end.

Inductive Verdict :=
| Returns (x : float)
| Throws
| Unmodelled.

(** [Function(`"use strict"; return (${expression})`)()].  Tokens that
    do not parse make the call throw, unless a line terminator stands
    among them: a semicolon may be inserted there, which is not
    modelled. *)
Definition evaluate (expression : jsstring) : Verdict :=
  match scan (Between false) expression with
  | Tokens ts =>
      match parseSum (4 * List.length ts + 12) (TOpen :: ts ++ [TClose]) with
      | Some (v, []) => Returns v
      | _ => if existsb isLineTerminator expression then Unmodelled else Throws
      end
  | Rejected => Throws
  | Beyond => Unmodelled
  end.

Definition bodyPrefix : jsstring :=
  Command.quote ++ lit "use strict" ++ Command.quote ++ lit "; return (".

(** The expression of a source of the shape [functionBody] gives it:
    the text between the prefix and the last parenthesis. *)
Definition expressionOf (source : jsstring) : option jsstring :=
  if startsWith bodyPrefix source && (last source 0 =? 41)%N
  then Some (removelast (skipn (List.length bodyPrefix) source))
  else None.

(** ** Printing a number: [`${x}`]

    The digits are the fewest that read back as [x]; of two candidates of
    that length, the closer to [x], and the even one at equal distance. *)

(** The binary64 nearest to [s * 10^t]. *)
Definition scaled (s t : Z) : float :=
  if (0 <=? t)%Z then nearest (s * 10 ^ t) 1 else nearest s (10 ^ (- t)).

Section Shortest.
Variable x : float.                   (* positive and finite *)
Variables P Q : Z.                    (* its value, [P / Q] *)

(** [n] with [10^(n-1) <= x < 10^n]. *)
Definition magnitude : Z :=
  let shift := if (Q <=? P)%Z then 0%Z else 340%Z in
  (Z.of_nat (List.length (decimal (Z.to_N (P * 10 ^ shift / Q)))) - shift)%Z.

(** The digits [s] and the exponent [n] of [x], looking for [k], [k + 1],
    ... digits. *)
Fixpoint shortest (fuel : nat) (k : Z) : Z * Z :=
  let t := (magnitude - k)%Z in
  let num := if (0 <=? t)%Z then P else (P * 10 ^ (- t))%Z in
  let den := if (0 <=? t)%Z then (Q * 10 ^ t)%Z else Q in
  let lo := (num / den)%Z in
  let hi := (lo + 1)%Z in
  let twice := (2 * (num mod den))%Z in
  let normal (s : Z) : Z * Z :=
    if (s =? 10 ^ k)%Z then ((10 ^ (k - 1))%Z, (magnitude + 1)%Z) else (s, magnitude) in
  match fuel with
  | O => normal lo
  | S f =>
      let okLo := PrimFloat.eqb (scaled lo t) x in
      let okHi := PrimFloat.eqb (scaled hi t) x in
      if okLo && okHi then
        normal (if ((den <? twice) || (den =? twice) && Z.odd lo)%Z then hi else lo)
      else if okLo then normal lo
      else if okHi then normal hi
      else shortest f (k + 1)%Z
  end.

End Shortest.

(** [digits] with the decimal point after the [n]-th: plain up to 21
    digits before the point and down to 6 zeros after it, with an exponent
    beyond. *)
Definition layout (digits : jsstring) (n : Z) : jsstring :=
  let k := Z.of_nat (List.length digits) in
  let exponent :=
    (if (0 <? n - 1)%Z then lit "+" else lit "-") ++ decimal (Z.to_N (Z.abs (n - 1))) in
  if ((k <=? n) && (n <=? 21))%Z then digits ++ repeat 48%N (Z.to_nat (n - k))
  else if ((0 <? n) && (n <=? 21))%Z then
    firstn (Z.to_nat n) digits ++ lit "." ++ skipn (Z.to_nat n) digits
  else if ((-6 <? n) && (n <=? 0))%Z then
    lit "0." ++ repeat 48%N (Z.to_nat (- n)) ++ digits
  else
    match digits with
    | [] => []
    | [d] => [d] ++ lit "e" ++ exponent
    | d :: rest => [d] ++ lit "." ++ rest ++ lit "e" ++ exponent
    end.

Definition numberToString (x : float) : jsstring :=
  match Prim2SF x with
  | S754_nan => lit "NaN"
  | S754_zero _ => lit "0"
  | S754_infinity s => (if s then lit "-" else []) ++ lit "Infinity"
  | S754_finite s m e =>
      let P := if (0 <=? e)%Z then (Zpos m * 2 ^ e)%Z else Zpos m in
      let Q := if (0 <=? e)%Z then 1%Z else (2 ^ (- e))%Z in
      let (digits, n) := shortest (PrimFloat.abs x) P Q 17 1 in
      (if s then lit "-" else []) ++ layout (decimal (Z.to_N digits)) n
  end.

Section Refinement.
Variable failure : jsstring -> JsError.     (* what [Function] throws on a source *)
Variable base : Command.Host.

Definition evalFunction (source : jsstring) : Completion Command.JsValue :=
  match expressionOf source with
  | Some expression =>
      match evaluate expression with
      | Returns x => Normal (Command.VNumber x)
      | Throws => Throw (failure source)
      | Unmodelled => Command.evalFunction base source
      end
  | None => Command.evalFunction base source
  end.

(** [base] with an engine that does arithmetic and prints numbers. *)
Definition host : Command.Host :=
  Command.mkHost (Command.chat base) (Command.windowOpen base) (Command.clipboard base)
    evalFunction (Command.toLowerCase base) numberToString.

End Refinement.

End Engine.

(* ------------------------------------------------------------------ *)
(** * Arithmetic expressions, as the specification reads them

    Sums of products of signed primaries over decimal literals: the shape
    of a term is the standard precedence and associativity, [*] and [/]
    binding tighter than [+] and [-], and each level grouping to the left.
    A term also records how it is written: the white space around its
    operators, after its signs and inside its parentheses. *)

Module Arith.
Import Js.

(** The literal [whole], or [whole.fraction] when there is a dot. *)
Record Literal := mkLiteral {
  whole : list codeunit;
  fraction : option (list codeunit)
}.

Inductive Sum :=
| OfProduct (p : Product)
| Add (s : Sum) (before after : jsstring) (p : Product)
| Sub (s : Sum) (before after : jsstring) (p : Product)
with Product :=
| OfUnary (u : Unary)
| Mul (p : Product) (before after : jsstring) (u : Unary)
| Div (p : Product) (before after : jsstring) (u : Unary)
with Unary :=
| Plain (a : Primary)
| Neg (after : jsstring) (a : Primary)
| Pos (after : jsstring) (a : Primary)
with Primary :=
| Num (l : Literal)
| Group (after : jsstring) (s : Sum) (before : jsstring).

Scheme Sum_mut := Induction for Sum Sort Prop
  with Product_mut := Induction for Product Sort Prop
  with Unary_mut := Induction for Unary Sort Prop
  with Primary_mut := Induction for Primary Sort Prop.

Combined Scheme term_mutind from Sum_mut, Product_mut, Unary_mut, Primary_mut.

Definition writtenLiteral (l : Literal) : jsstring :=
  whole l ++ match fraction l with
             | None => []
             | Some digits => 46%N :: digits
             end.

Fixpoint written (s : Sum) : jsstring :=
  match s with
  | OfProduct p => writtenProduct p
  | Add s before after p => written s ++ before ++ lit "+" ++ after ++ writtenProduct p
  | Sub s before after p => written s ++ before ++ lit "-" ++ after ++ writtenProduct p
  end
with writtenProduct (p : Product) : jsstring :=
  match p with
  | OfUnary u => writtenUnary u
  | Mul p before after u => writtenProduct p ++ before ++ lit "*" ++ after ++ writtenUnary u
  | Div p before after u => writtenProduct p ++ before ++ lit "/" ++ after ++ writtenUnary u
  end
with writtenUnary (u : Unary) : jsstring :=
  match u with
  | Plain a => writtenPrimary a
  | Neg after a => lit "-" ++ after ++ writtenPrimary a
  | Pos after a => lit "+" ++ after ++ writtenPrimary a
  end
with writtenPrimary (a : Primary) : jsstring :=
  match a with
  | Num l => writtenLiteral l
  | Group after s before => lit "(" ++ after ++ written s ++ before ++ lit ")"
  end.

Definition literalValue (l : Literal) : float :=
  Engine.numericValue (whole l) (match fraction l with
                                 | None => []
                                 | Some digits => digits
                                 end).

(** The value of a term, computed along its shape in binary64. *)
Fixpoint value (s : Sum) : float :=
  match s with
  | OfProduct p => valueProduct p
  | Add s _ _ p => PrimFloat.add (value s) (valueProduct p)
  | Sub s _ _ p => PrimFloat.sub (value s) (valueProduct p)
  end
with valueProduct (p : Product) : float :=
  match p with
  | OfUnary u => valueUnary u
  | Mul p _ _ u => PrimFloat.mul (valueProduct p) (valueUnary u)
  | Div p _ _ u => PrimFloat.div (valueProduct p) (valueUnary u)
  end
with valueUnary (u : Unary) : float :=
  match u with
  | Plain a => valuePrimary a
  | Neg _ a => PrimFloat.opp (valuePrimary a)
  | Pos _ a => valuePrimary a
  end
with valuePrimary (a : Primary) : float :=
  match a with
  | Num l => literalValue l
  | Group _ s _ => value s
  end.

(** A decimal literal: digits, with or without a dot, and at least one
    digit. *)
Definition decimalLiteral (l : Literal) : bool :=
  forallb SpecArith.isDigit (whole l)
  && match fraction l with
     | None => negb (isEmpty (whole l))
     | Some digits =>
         forallb SpecArith.isDigit digits && negb (isEmpty (whole l) && isEmpty digits)
     end.

(** A decimal literal of strict code: no zero in front of another digit. *)
Definition strictLiteral (l : Literal) : bool :=
  decimalLiteral l && negb (Engine.leadingZero (whole l)).

Section Literals.
Variable good : Literal -> bool.

Fixpoint every (s : Sum) : bool :=
  match s with
  | OfProduct p => everyProduct p
  | Add s _ _ p | Sub s _ _ p => every s && everyProduct p
  end
with everyProduct (p : Product) : bool :=
  match p with
  | OfUnary u => everyUnary u
  | Mul p _ _ u | Div p _ _ u => everyProduct p && everyUnary u
  end
with everyUnary (u : Unary) : bool :=
  match u with
  | Plain a | Neg _ a | Pos _ a => everyPrimary a
  end
with everyPrimary (a : Primary) : bool :=
  match a with
  | Num l => good l
  | Group _ s _ => every s
  end.

End Literals.

(** White space, as [\s] matches it. *)
Definition blank (gap : jsstring) : bool := forallb isWhiteSpace gap.

(** The gaps of a term hold white space only, and no [+] is written
    directly after a [+], no [-] directly after a [-]: the two would read
    as [++] and [--]. *)
Fixpoint spaced (s : Sum) : bool :=
  match s with
  | OfProduct p => spacedProduct p
  | Add s before after p =>
      spaced s && blank before && blank after
      && negb (isEmpty after && startsWith (lit "+") (writtenProduct p))
      && spacedProduct p
  | Sub s before after p =>
      spaced s && blank before && blank after
      && negb (isEmpty after && startsWith (lit "-") (writtenProduct p))
      && spacedProduct p
  end
with spacedProduct (p : Product) : bool :=
  match p with
  | OfUnary u => spacedUnary u
  | Mul p before after u | Div p before after u =>
      spacedProduct p && blank before && blank after && spacedUnary u
  end
with spacedUnary (u : Unary) : bool :=
  match u with
  | Plain a => spacedPrimary a
  | Neg after a | Pos after a => blank after && spacedPrimary a
  end
with spacedPrimary (a : Primary) : bool :=
  match a with
  | Num _ => true
  | Group after s before => blank after && spaced s && blank before
  end.

(** Every literal of the term is a decimal literal. *)
Definition decimalTerm (s : Sum) : bool := every decimalLiteral s.

(** A term of strict code, well spaced. *)
Definition strict (s : Sum) : bool := every strictLiteral s && spaced s.

(** The tokens of the written term. *)
Fixpoint tokens (s : Sum) : list Engine.Token :=
  match s with
  | OfProduct p => tokensProduct p
  | Add s _ _ p => tokens s ++ Engine.TPlus :: tokensProduct p
  | Sub s _ _ p => tokens s ++ Engine.TMinus :: tokensProduct p
  end
with tokensProduct (p : Product) : list Engine.Token :=
  match p with
  | OfUnary u => tokensUnary u
  | Mul p _ _ u => tokensProduct p ++ Engine.TStar :: tokensUnary u
  | Div p _ _ u => tokensProduct p ++ Engine.TSlash :: tokensUnary u
  end
with tokensUnary (u : Unary) : list Engine.Token :=
  match u with
  | Plain a => tokensPrimary a
  | Neg _ a => Engine.TMinus :: tokensPrimary a
  | Pos _ a => Engine.TPlus :: tokensPrimary a
  end
with tokensPrimary (a : Primary) : list Engine.Token :=
  match a with
  | Num l => [Engine.TNum (literalValue l)]
  | Group _ s _ => Engine.TOpen :: tokens s ++ [Engine.TClose]
  end.

(** What may follow a written literal: anything but a digit or a dot. *)
Definition closes (k : jsstring) : bool :=
  match k with
  | [] => true
  | c :: _ => negb (SpecArith.isDigit c) && negb (c =? 46)%N
  end.

(** A written primary begins with a digit, a dot or an opening
    parenthesis. *)
Definition startsPrimary (s : jsstring) : bool :=
  match s with
  | [] => false
  | c :: _ => (SpecArith.isDigit c || (c =? 46) || (c =? 40))%N
  end.

(** A written term begins as a primary does, or with a sign. *)
Definition startsTerm (s : jsstring) : bool :=
  match s with
  | [] => false
  | c :: _ => (SpecArith.isDigit c || (c =? 46) || (c =? 40) || (c =? 43) || (c =? 45))%N
  end.

(** The tokens after a product: no [*] and no [/]. *)
Definition endsProduct (k : list Engine.Token) : bool :=
  match k with
  | Engine.TStar :: _ | Engine.TSlash :: _ => false
  | _ => true
  end.

(** The constructors of a term, a bound on the depth of its parse. *)
Fixpoint size (s : Sum) : nat :=
  match s with
  | OfProduct p => sizeProduct p + 2
  | Add s _ _ p | Sub s _ _ p => size s + sizeProduct p + 2
  end
with sizeProduct (p : Product) : nat :=
  match p with
  | OfUnary u => sizeUnary u + 1
  | Mul p _ _ u | Div p _ _ u => sizeProduct p + sizeUnary u + 1
  end
with sizeUnary (u : Unary) : nat :=
  match u with
  | Plain a => sizePrimary a
  | Neg _ a | Pos _ a => sizePrimary a + 1
  end
with sizePrimary (a : Primary) : nat :=
  match a with
  | Num _ => 1
  | Group _ s _ => size s + 2
  end.

End Arith.


(* ------------------------------------------------------------------ *)
(** * Test doubles

    Concrete hosts on which the statements are run: a model client with a
    prescribed outcome, the engine of [Engine] for [Function] and for the
    printing of numbers, and ASCII lower-casing. *)

Module TestDouble.
Import Js.

(** What the double's [Function] throws. *)
Definition unexpected (source : jsstring) : JsError :=
  mkError (lit "Unexpected token").

(** The capabilities under the engine: beyond the arithmetic the engine
    models, [Function] throws. *)
Definition base (chatOutcome : Completion jsstring) (openOutcome : Completion unit)
    (clip : Command.ClipboardApi) : Command.Host :=
  Command.mkHost (fun _ _ => chatOutcome) (fun _ _ => openOutcome) clip
    (fun source => Throw (unexpected source)) (List.map SpecArith.asciiLower)
    Engine.numberToString.

Definition host (chatOutcome : Completion jsstring) (openOutcome : Completion unit)
    (clip : Command.ClipboardApi) : Command.Host :=
  Engine.host unexpected (base chatOutcome openOutcome clip).

(** A host where every capability succeeds, and what it has under the
    engine. *)
Definition happyBase : Command.Host :=
  base (Normal (lit "Sure.")) (Normal tt)
       (Command.ClipboardReadText (Normal (lit "meeting at noon"))).

Definition happyHost : Command.Host :=
  host (Normal (lit "Sure.")) (Normal tt)
       (Command.ClipboardReadText (Normal (lit "meeting at noon"))).

Definition context : Command.ChatContext :=
  Command.mkContext (lit "You are Clippy AI, a helpful desktop assistant.")
    [Llm.mkMessage Llm.RoleUser (lit "hi"); Llm.mkMessage Llm.RoleAssistant (lit "Hello!")].

(** The sum [1 + 1] written with a tab after the first operand. *)
Definition tabbedSum : jsstring := lit "1" ++ [9%N] ++ lit "+ 1".

(** A completion payload whose first choice carries [content]. *)
Definition completionPayload (content : Llm.Json) : Llm.Json :=
  Llm.JObject
    [(lit "choices",
      Llm.JArray [Llm.JObject [(lit "message", Llm.JObject [(lit "content", content)])]])].

Definition respond (payload : Llm.Json) : Llm.Response :=
  Llm.mkResponse true 200 (lit "OK") (Normal payload) (Normal []).

(** A model-client environment with a key, answering every request with
    [payload]. *)
Definition llmHost (payload : Llm.Json) : Llm.Host :=
  Llm.mkHost (Some (lit "sk-test")) None (fun _ => Normal (respond payload))
    (fun _ => lit "{}") (fun _ => lit "[object Object]").

(** A build without [VITE_OPENAI_API_KEY]. *)
Definition keylessLlmHost : Llm.Host :=
  Llm.mkHost None None (fun _ => Normal (respond Llm.JNull))
    (fun _ => lit "{}") (fun _ => lit "[object Object]").

End TestDouble.

(* ------------------------------------------------------------------ *)
(** * Computations with a trace, over any kind of event *)

Module Run.
Import Js.

Definition Run (E A : Type) : Type := (list E * Completion A)%type.

Definition ret {E A} (a : A) : Run E A := ([], Normal a).

Definition throw {E A} (e : JsError) : Run E A := ([], Throw e).

Definition bind {E A B} (m : Run E A) (k : A -> Run E B) : Run E B :=
  match m with
  | (t, Normal a) => let (t', r) := k a in (t ++ t', r)
  | (t, Throw e) => (t, Throw e)
  end.

Definition perform {E A} (ev : E) (outcome : Completion A) : Run E A :=
  ([ev], outcome).

Definition tryCatch {E A} (m : Run E A) (handler : JsError -> Run E A) : Run E A :=
  match m with
  | (t, Normal a) => (t, Normal a)
  | (t, Throw e) => let (t', r) := handler e in (t ++ t', r)
  end.

End Run.

(* ------------------------------------------------------------------ *)
(** * The main process: [registerIpcHandlers] of [app/main/main.ts] *)

Module Main.
Import Js.

(** The argument a renderer passes on a channel: typed [string], checked
    at run time. *)
Inductive IpcArg := ArgString (s : jsstring) | ArgOther.

(** [{ success, text?, error? }] *)
Record IpcResult := mkResult {
  success : bool;
  text : option jsstring;
  error : option jsstring
}.

Definition succeeded : IpcResult := mkResult true None None.

Definition failed (msg : jsstring) : IpcResult := mkResult false None (Some msg).

Record Host := mkHost {
  shellOpenExternal : jsstring -> Completion unit;      (* [shell.openExternal] *)
  clipboardReadText : Completion jsstring;              (* [clipboard.readText] *)
  mainWindow : option (N -> N -> Completion unit)       (* [null], or its [setSize] *)
}.

Inductive Event :=
| ShellOpenExternal (url : jsstring)
| ClipboardReadText
| SetSize (width height : N).

Definition Handler : Type := IpcArg -> Run.Run Event IpcResult.

Section Handlers.
Variable h : Host.

(** ['os.openExternal'] *)
Definition openExternalHandler : Handler := fun url =>
  Run.tryCatch
    (match url with
     | ArgString u =>
         if startsWith (lit "http://") u || startsWith (lit "https://") u
         then Run.bind (Run.perform (ShellOpenExternal u) (shellOpenExternal h u))
                       (fun _ => Run.ret succeeded)
         else Run.throw (mkError (lit "Invalid URL"))
     | ArgOther => Run.throw (mkError (lit "Invalid URL"))
     end)
    (fun e => Run.ret (failed (message e))).

(** ['os.readClipboard'] *)
Definition readClipboardHandler : Handler := fun _ =>
  Run.tryCatch
    (Run.bind (Run.perform ClipboardReadText (clipboardReadText h))
              (fun t => Run.ret (mkResult true (Some t) None)))
    (fun e => Run.ret (failed (message e))).

(** ['window.minimize'] *)
Definition minimizeHandler : Handler := fun _ =>
  Run.tryCatch
    (match mainWindow h with
     | Some setSize =>
         Run.bind (Run.perform (SetSize 180 60) (setSize 180%N 60%N))
                  (fun _ => Run.ret succeeded)
     | None => Run.ret (failed (lit "No main window"))
     end)
    (fun e => Run.ret (failed (message e))).

(** ['window.expand'] *)
Definition expandHandler : Handler := fun _ =>
  Run.tryCatch
    (match mainWindow h with
     | Some setSize =>
         Run.bind (Run.perform (SetSize 420 560) (setSize 420%N 560%N))
                  (fun _ => Run.ret succeeded)
     | None => Run.ret (failed (lit "No main window"))
     end)
    (fun e => Run.ret (failed (message e))).

(** The channels [ipcMain.handle] registers, with their handlers. *)
Definition registerIpcHandlers : list (jsstring * Handler) :=
  [ (lit "os.openExternal", openExternalHandler);
    (lit "os.readClipboard", readClipboardHandler);
    (lit "window.minimize", minimizeHandler);
    (lit "window.expand", expandHandler) ].

End Handlers.

End Main.

(* ------------------------------------------------------------------ *)
(** * The bridge: [electronAPI] of [app/preload/preload.ts] *)

Module Preload.
Import Js.

(** [ipcRenderer.invoke] resolves with what the handler registered on the
    channel returns.  When the handler throws, and when no handler is
    registered, it rejects with an error of the framework's own making,
    [rejection channel cause]: a new [Error] whose message names the
    channel and wraps the text of the cause ([Some e] when the handler
    threw [e], [None] when there is no handler).  The handler's own error
    object does not cross the process boundary. *)
Record Host := mkHost {
  registry : list (jsstring * Main.Handler);
  rejection : jsstring -> option JsError -> JsError
}.

Fixpoint lookupHandler (channel : jsstring) (reg : list (jsstring * Main.Handler))
    : option Main.Handler :=
  match reg with
  | [] => None
  | (c, handler) :: rest =>
      if strEqb c channel then Some handler else lookupHandler channel rest
  end.

Section Api.
Variable p : Host.

Definition invoke (channel : jsstring) (arg : Main.IpcArg)
    : Run.Run Main.Event Main.IpcResult :=
  match lookupHandler channel (registry p) with
  | Some handler =>
      Run.tryCatch (handler arg) (fun e => Run.throw (rejection p channel (Some e)))
  | None => Run.throw (rejection p channel None)
  end.

Definition openExternal (url : Main.IpcArg) : Run.Run Main.Event Main.IpcResult :=
  Run.tryCatch (invoke (lit "os.openExternal") url)
               (fun e => Run.ret (Main.failed (message e))).

Definition readClipboard : Run.Run Main.Event Main.IpcResult :=
  Run.tryCatch (invoke (lit "os.readClipboard") Main.ArgOther)
               (fun e => Run.ret (Main.failed (message e))).

Definition minimizeWindow : Run.Run Main.Event Main.IpcResult :=
  Run.tryCatch (invoke (lit "window.minimize") Main.ArgOther)
               (fun e => Run.ret (Main.failed (message e))).

Definition expandWindow : Run.Run Main.Event Main.IpcResult :=
  Run.tryCatch (invoke (lit "window.expand") Main.ArgOther)
               (fun e => Run.ret (Main.failed (message e))).

End Api.

(** The bridge over the handlers the main process registers. *)
Definition overMain (mh : Main.Host) (rejection : jsstring -> option JsError -> JsError)
    : Host :=
  mkHost (Main.registerIpcHandlers mh) rejection.

End Preload.

(* ------------------------------------------------------------------ *)
(** * The chat view: [app/renderer/components/Chat.tsx]

    The component's state and its handlers.  A handler is run alone, from
    the state it was created in to the state its updates leave: what it
    reads ([messages], [inputText], [loading]) are the values of that
    state, and its setter calls apply in order.  [console.log] and the
    rendering are left out. *)

Module ChatComponent.
Import Js.

Inductive PromptStyle := Balanced | Brief | Creative | Professional.

Record ChatMessage := mkChatMessage {
  id : jsstring;
  role : Llm.LLMRole;
  content : jsstring;
  ts : N
}.

Record State := mkState {
  messages : list ChatMessage;
  inputText : jsstring;
  loading : bool;
  error : option jsstring;
  promptStyle : PromptStyle;
  isMinimized : bool
}.

(** [useState] initial values. *)
Definition initialState : State := mkState [] [] false None Balanced false.

Record Host := mkHost {
  router : Command.Host;                (* what [CommandProcessor] runs on *)
  dateNow : nat -> N;                   (* the k-th [Date.now()] of a handler *)
  electronAPI : option Preload.Host     (* [window.electronAPI], if any *)
}.

Definition baseSystemPrompt : jsstring :=
  lit "You are Clippy AI, a helpful desktop assistant.".

(** The [switch (promptStyle)] of [handleSubmit]. *)
Definition systemPrompt (style : PromptStyle) : jsstring :=
  baseSystemPrompt ++
  match style with
  | Brief =>
      lit " Keep responses concise and to the point. Use markdown formatting when helpful."
  | Creative =>
      lit " Be creative, engaging, and use emojis. Make responses fun and interesting. Use markdown formatting when helpful."
  | Professional =>
      lit " Maintain a professional, formal tone. Provide comprehensive, well-structured responses. Use markdown formatting when helpful."
  | Balanced =>
      lit " Provide thoughtful and detailed responses. Use markdown formatting when helpful."
  end.

(** [msg => ({ role: msg.role, content: msg.content })] *)
Definition toLLMMessage (msg : ChatMessage) : Llm.LLMMessage :=
  Llm.mkMessage (role msg) (content msg).

Definition fallbackError : jsstring := lit "Something went wrong with the AI response.".

Section Handlers.
Variable h : Host.

Definition handleChange (value : jsstring) (st : State) : State :=
  mkState (messages st) value (loading st) (error st) (promptStyle st) (isMinimized st).

(** The [Clear] button. *)
Definition clearMessages (st : State) : State :=
  mkState [] (inputText st) (loading st) (error st) (promptStyle st) (isMinimized st).

Definition setPromptStyle (style : PromptStyle) (st : State) : State :=
  mkState (messages st) (inputText st) (loading st) (error st) style (isMinimized st).

Definition handleSubmit (st : State) : list Command.Event * State :=
  if negb (truthyStr (trim (inputText st))) || loading st then ([], st)
  else
    let userMessage :=
      mkChatMessage (decimal (dateNow h 0)) Llm.RoleUser (inputText st) (dateNow h 1) in
    let llmMessages := List.map toLLMMessage (messages st) in
    match Command.runCommandOrChat (router h) (inputText st)
            (Command.mkContext (systemPrompt (promptStyle st)) llmMessages) with
    | (t, Normal aiResponse) =>
        let assistantMessage :=
          mkChatMessage (decimal (dateNow h 2 + 1)) Llm.RoleAssistant aiResponse
                        (dateNow h 3) in
        (t, mkState ((messages st ++ [userMessage]) ++ [assistantMessage]) [] false None
                    (promptStyle st) (isMinimized st))
    | (t, Throw err) =>
        (t, mkState (messages st ++ [userMessage]) [] false
                    (Some (if truthyStr (message err) then message err else fallbackError))
                    (promptStyle st) (isMinimized st))
    end.

(** The [Help] button: the same exchange for ["/help"], outside any [try];
    the completion tells whether the handler's promise is rejected. *)
Definition helpClicked (st : State) : list Command.Event * State * Completion unit :=
  let helpMessage :=
    mkChatMessage (decimal (dateNow h 0)) Llm.RoleUser (lit "/help") (dateNow h 1) in
  let st1 := mkState (messages st ++ [helpMessage]) (inputText st) (loading st)
                     (error st) (promptStyle st) (isMinimized st) in
  match Command.runCommandOrChat (router h) (lit "/help")
          (Command.mkContext baseSystemPrompt []) with
  | (t, Normal helpResponse) =>
      let assistantMessage :=
        mkChatMessage (decimal (dateNow h 2 + 1)) Llm.RoleAssistant helpResponse
                      (dateNow h 3) in
      (t, mkState (messages st1 ++ [assistantMessage]) (inputText st) (loading st)
                  (error st) (promptStyle st) (isMinimized st),
       Normal tt)
  | (t, Throw err) => (t, st1, Throw err)
  end.

Definition toggleMinimized (st : State) : list Main.Event * State :=
  let newMinimizedState := negb (isMinimized st) in
  let st' := mkState (messages st) (inputText st) (loading st) (error st)
                     (promptStyle st) newMinimizedState in
  match electronAPI h with
  | Some api =>
      (fst (Run.tryCatch
              (Run.bind (if newMinimizedState then Preload.minimizeWindow api
                         else Preload.expandWindow api)
                        (fun _ => Run.ret tt))
              (fun _ => Run.ret tt)),
       st')
  | None => ([], st')
  end.

End Handlers.

(** What the effects store under ["clippy.promptStyle.v1"] and
    ["clippy.isMinimized.v1"]. *)
Definition storedStyle (style : PromptStyle) : jsstring :=
  match style with
  | Balanced => lit "Balanced"
  | Brief => lit "Brief"
  | Creative => lit "Creative"
  | Professional => lit "Professional"
  end.

Definition storedMinimized (b : bool) : jsstring :=
  if b then lit "true" else lit "false".

(** The two preferences as the mount effect restores them; [None] is
    [localStorage.getItem] returning [null]. *)
Definition restoreStyle (saved : option jsstring) (current : PromptStyle) : PromptStyle :=
  match saved with
  | Some s =>
      if strEqb s (lit "Balanced") then Balanced
      else if strEqb s (lit "Brief") then Brief
      else if strEqb s (lit "Creative") then Creative
      else if strEqb s (lit "Professional") then Professional
      else current
  | None => current
  end.

Definition restoreMinimized (saved : option jsstring) (current : bool) : bool :=
  match saved with
  | Some s => if strEqb s (lit "true") then true else current
  | None => current
  end.

End ChatComponent.

(** The host calls a command can leave behind: none, or the one of its
    own capability. *)
Module RouterSpec.
Import Js.

Definition commandTrace (command : jsstring) (args : list jsstring)
    (t : list Command.Event) : Prop :=
  t = []
  \/ (command = lit "open"
      /\ t = [Command.WindowOpen (Spec.normalizedUrl args) (lit "_blank")])
  \/ ((command = lit "calc" \/ command = lit "calculate")
      /\ Command.whitelisted (join (lit " ") args) = true
      /\ t = [Command.FunctionEval (Command.functionBody (join (lit " ") args))])
  \/ (command = lit "clipboard" /\ t = [Command.ClipboardRead]).

End RouterSpec.

(** The router run a submit starts: the typed text, the prompt of the
    style, and the messages shown so far. *)
Module ViewSpec.

Definition submitRun (h : ChatComponent.Host) (st : ChatComponent.State)
    : Command.Eff Js.jsstring :=
  Command.runCommandOrChat (ChatComponent.router h) (ChatComponent.inputText st)
    (Command.mkContext (ChatComponent.systemPrompt (ChatComponent.promptStyle st))
       (List.map ChatComponent.toLLMMessage (ChatComponent.messages st))).

Definition userChatMessage (h : ChatComponent.Host) (text : Js.jsstring)
    : ChatComponent.ChatMessage :=
  ChatComponent.mkChatMessage (Js.decimal (ChatComponent.dateNow h 0)) Llm.RoleUser text
    (ChatComponent.dateNow h 1).

Definition assistantChatMessage (h : ChatComponent.Host) (text : Js.jsstring)
    : ChatComponent.ChatMessage :=
  ChatComponent.mkChatMessage (Js.decimal (ChatComponent.dateNow h 2 + 1))
    Llm.RoleAssistant text (ChatComponent.dateNow h 3).

End ViewSpec.

(* ------------------------------------------------------------------ *)
(** * More test doubles *)

Module Fixture.
Import Js.

(** A shell that opens every URL and a window that accepts every size. *)
Definition mainHost : Main.Host :=
  Main.mkHost (fun _ => Normal tt) (Normal (lit "copied text"))
              (Some (fun _ _ => Normal tt)).

(** The error [ipcRenderer.invoke] rejects with, as Electron words it. *)
Definition electronRejection (channel : jsstring) (cause : option JsError) : JsError :=
  mkError (lit "Error invoking remote method '" ++ channel ++ lit "': "
             ++ match cause with
                | Some e => lit "Error: " ++ message e
                | None => lit "No handler registered for '" ++ channel ++ lit "'"
                end).

Definition bridge : Preload.Host :=
  Preload.overMain mainHost electronRejection.

(** A main process whose handler of [os.openExternal] throws [msg]. *)
Definition throwingBridge (msg : jsstring) : Preload.Host :=
  Preload.mkHost [(lit "os.openExternal", fun _ => ([], Throw (mkError msg)))]
                 electronRejection.

Definition clock (k : nat) : N := (1700000000000 + N.of_nat k)%N.

Definition chatHost (r : Command.Host) : ChatComponent.Host :=
  ChatComponent.mkHost r clock (Some bridge).

Definition earlier : list ChatComponent.ChatMessage :=
  [ChatComponent.mkChatMessage (lit "1") Llm.RoleUser (lit "hi") 1;
   ChatComponent.mkChatMessage (lit "3") Llm.RoleAssistant (lit "Hello!") 2].

(** The view with two messages shown and [text] typed in. *)
Definition typed (text : jsstring) : ChatComponent.State :=
  ChatComponent.mkState earlier text false None ChatComponent.Brief false.

(** The literal made of [digits], as an operand. *)
Definition number (digits : string) : Arith.Unary :=
  Arith.Plain (Arith.Num (Arith.mkLiteral (lit digits) None)).

(** The literal [whole.fraction], as an operand. *)
Definition decimalNumber (whole fraction : string) : Arith.Unary :=
  Arith.Plain (Arith.Num (Arith.mkLiteral (lit whole) (Some (lit fraction)))).

(** Terms written with a space on each side of the operator. *)
Definition plus (s : Arith.Sum) (p : Arith.Product) : Arith.Sum :=
  Arith.Add s (lit " ") (lit " ") p.

Definition minus (s : Arith.Sum) (p : Arith.Product) : Arith.Sum :=
  Arith.Sub s (lit " ") (lit " ") p.

Definition times (p : Arith.Product) (u : Arith.Unary) : Arith.Product :=
  Arith.Mul p (lit " ") (lit " ") u.

Definition over (p : Arith.Product) (u : Arith.Unary) : Arith.Product :=
  Arith.Div p (lit " ") (lit " ") u.

(** The term [2 + 2 * 3]. *)
Definition twoPlusTwoTimesThree : Arith.Sum :=
  plus (Arith.OfProduct (Arith.OfUnary (number "2")))
       (times (Arith.OfUnary (number "2")) (number "3")).

(** The same term written [2+2*3]. *)
Definition twoPlusTwoTimesThreeTight : Arith.Sum :=
  Arith.Add (Arith.OfProduct (Arith.OfUnary (number "2"))) [] []
            (Arith.Mul (Arith.OfUnary (number "2")) [] [] (number "3")).

(** The term [010 + 1]. *)
Definition leadingZeroSum : Arith.Sum :=
  plus (Arith.OfProduct (Arith.OfUnary (number "010")))
       (Arith.OfUnary (number "1")).

(** A model client that fails with [msg]. *)
Definition failingHost (msg : jsstring) : Command.Host :=
  TestDouble.host (Throw (mkError msg)) (Normal tt) Command.ClipboardUnavailable.

(** An error payload of the remote API. *)
Definition errorPayload (msg : jsstring) : Llm.Json :=
  Llm.JObject [(lit "error", Llm.JObject [(lit "message", Llm.JString msg)])].

(** A model-client environment whose every request is answered 401 with
    [payload]. *)
Definition refusingLlmHost (payload : Llm.Json) : Llm.Host :=
  Llm.mkHost (Some (lit "sk-test")) None
    (fun _ => Normal (Llm.mkResponse false 401 (lit "Unauthorized") (Normal payload)
                                     (Normal [])))
    (fun _ => lit "{}")
    (fun _ => lit "[object Object]").

End Fixture.

(* ------------------------------------------------------------------ *)
(** * Properties *)

Import Js.

Unset Implicit Arguments.
Local Open Scope list_scope.

(** ** Strings *)

Lemma strEqb_refl : forall s, strEqb s s = true.
Proof.
  induction s as [|c s IH]; simpl; [reflexivity|].
  unfold unitEqb. rewrite N.eqb_refl. exact IH.
Qed.

Lemma strEqb_eq : forall a b, strEqb a b = true <-> a = b.
Proof.
  induction a as [|x a IH]; destruct b as [|y b]; simpl; split;
    try discriminate; try reflexivity; intro H.
  - apply andb_true_iff in H. destruct H as [Hxy Hab].
    apply N.eqb_eq in Hxy. apply IH in Hab. congruence.
  - inversion H; subst. unfold unitEqb. rewrite N.eqb_refl.
    apply strEqb_refl.
Qed.

Lemma strEqb_neq : forall a b, strEqb a b = false <-> a <> b.
Proof.
  intros a b. split.
  - intros H E. apply strEqb_eq in E. congruence.
  - intro H. destruct (strEqb a b) eqn:E; [|reflexivity].
    apply strEqb_eq in E. contradiction.
Qed.

Lemma trimStart_idempotent : forall s, trimStart (trimStart s) = trimStart s.
Proof.
  induction s as [|c s IH]; simpl; [reflexivity|].
  destruct (isWhiteSpace c) eqn:E; [exact IH|].
  simpl. rewrite E. reflexivity.
Qed.

Lemma trimStart_snoc : forall s c,
  isWhiteSpace c = false -> exists s', trimStart (s ++ [c]) = s' ++ [c].
Proof.
  induction s as [|x s IH]; intros c Hc; simpl.
  - rewrite Hc. exists []. reflexivity.
  - destruct (isWhiteSpace x).
    + apply IH. exact Hc.
    + exists (x :: s). reflexivity.
Qed.

Lemma trimStart_head : forall s c rest,
  trimStart s = c :: rest -> isWhiteSpace c = false.
Proof.
  induction s as [|x s IH]; simpl; intros c rest H; [discriminate|].
  destruct (isWhiteSpace x) eqn:E.
  - eapply IH. exact H.
  - inversion H; subst. exact E.
Qed.

Lemma trimStart_fixed : forall c rest,
  isWhiteSpace c = false -> trimStart (c :: rest) = c :: rest.
Proof. intros c rest H. simpl. rewrite H. reflexivity. Qed.

(** Trimming leaves nothing to trim. *)
Lemma trim_idempotent : forall s, trim (trim s) = trim s.
Proof.
  intro s. unfold trim at 2 3. unfold trimEnd.
  destruct (trimStart s) as [|c rest] eqn:Hs; [reflexivity|].
  pose proof (trimStart_head s c rest Hs) as Hc.
  destruct (trimStart_snoc (rev rest) c Hc) as [s' Hs'].
  change (rev (c :: rest)) with (rev rest ++ [c]).
  rewrite Hs'.
  assert (Hfix : trimStart (s' ++ [c]) = s' ++ [c]).
  { rewrite <- Hs'. apply trimStart_idempotent. }
  rewrite rev_app_distr. simpl rev at 1. simpl app.
  unfold trim, trimEnd. rewrite (trimStart_fixed c (rev s') Hc).
  change (rev (c :: rev s')) with (rev (rev s') ++ [c]).
  rewrite rev_involutive, Hfix, rev_app_distr. reflexivity.
Qed.

(** ** The model client *)

Lemma chat_after_fetch : forall (h : Llm.Host) system msgs opts response data,
  truthyOpt (Llm.API_KEY h) = true ->
  Llm.fetch h (Llm.chatRequest h system msgs opts) = Normal response ->
  Llm.ok response = true ->
  Llm.json response = Normal data ->
  Llm.chat h system msgs opts =
  match Llm.nullish (Llm.generatedContent data) (Llm.JString []) with
  | Llm.JString s =>
      if strEqb (trim s) [] then Throw Llm.emptyResponseError else Normal (trim s)
  | _ => Throw Llm.emptyResponseError
  end.
Proof.
  intros h system msgs opts response data Hkey Hfetch Hok Hjson.
  unfold Llm.chat, Llm.assertApiKey. rewrite Hkey. simpl.
  rewrite Hfetch. simpl. rewrite Hok. simpl. rewrite Hjson. reflexivity.
Qed.

Lemma chat_success_trimmed : forall (h : Llm.Host) system msgs opts t,
  Llm.chat h system msgs opts = Normal t -> t <> [] /\ trim t = t.
Proof.
  intros h system msgs opts t. unfold Llm.chat.
  destruct (Llm.assertApiKey h); simpl; [|discriminate].
  destruct (Llm.fetch h _) as [response|]; simpl; [|discriminate].
  destruct (Llm.ok response); simpl.
  - destruct (Llm.json response) as [data|]; simpl; [|discriminate].
    destruct (Llm.nullish _ _); try discriminate.
    destruct (strEqb (trim s) []) eqn:E; [discriminate|].
    intro H. inversion H; subst. split.
    + apply strEqb_neq. exact E.
    + apply trim_idempotent.
  - destruct (Llm.errorDetail h response); simpl; discriminate.
Qed.

(** C8.  Whatever the remote capability answers, a successful [chat] is
    never empty and carries no surrounding white space.  When the request
    succeeds with payload [data], [chat] reads
    [data?.choices?.[0]?.message?.content]: if that is missing or no
    string, or a string of white space only, [chat] fails with the error
    "Empty response from model."; otherwise it returns the string trimmed. *)
Theorem chat_never_returns_empty :
  forall (h : Llm.Host) system msgs opts,
    (forall t, Llm.chat h system msgs opts = Normal t -> t <> [] /\ trim t = t)
    /\
    (forall response data,
        truthyOpt (Llm.API_KEY h) = true ->
        Llm.fetch h (Llm.chatRequest h system msgs opts) = Normal response ->
        Llm.ok response = true ->
        Llm.json response = Normal data ->
        ((forall s, Llm.generatedContent data <> Some (Llm.JString s)) ->
         Llm.chat h system msgs opts = Throw Llm.emptyResponseError)
        /\ (forall s, Llm.generatedContent data = Some (Llm.JString s) ->
                      trim s = [] ->
                      Llm.chat h system msgs opts = Throw Llm.emptyResponseError)
        /\ (forall s, Llm.generatedContent data = Some (Llm.JString s) ->
                      trim s <> [] ->
                      Llm.chat h system msgs opts = Normal (trim s))).
Proof.
  intros h system msgs opts. split.
  - apply chat_success_trimmed.
  - intros response data Hkey Hfetch Hok Hjson.
    rewrite (chat_after_fetch h system msgs opts response data Hkey Hfetch Hok Hjson).
    repeat split.
    + intro Hnot.
      destruct (Llm.generatedContent data) as [[| | | s | |]|]; simpl; try reflexivity.
      exfalso. apply (Hnot s). reflexivity.
    + intros s Hs Htrim. rewrite Hs. simpl. rewrite Htrim. reflexivity.
    + intros s Hs Htrim. rewrite Hs. simpl.
      apply strEqb_neq in Htrim. rewrite Htrim. reflexivity.
Qed.

(** C8 at four payloads: padded text, white space only, a number as
    content, and no choice at all. *)
Lemma chat_never_returns_empty_witness :
  Llm.chat (TestDouble.llmHost (TestDouble.completionPayload (Llm.JString (lit "  Hello  "))))
           (lit "sys") [] Llm.noOptions = Normal (lit "Hello")
  /\ Llm.chat (TestDouble.llmHost (TestDouble.completionPayload (Llm.JString (lit "   "))))
              (lit "sys") [] Llm.noOptions = Throw Llm.emptyResponseError
  /\ Llm.chat (TestDouble.llmHost (TestDouble.completionPayload (Llm.JNumber 1%float)))
              (lit "sys") [] Llm.noOptions = Throw Llm.emptyResponseError
  /\ Llm.chat (TestDouble.llmHost (Llm.JObject [(lit "choices", Llm.JArray [])]))
              (lit "sys") [] Llm.noOptions = Throw Llm.emptyResponseError.
Proof.
  pose (run := fun payload =>
    proj2 (chat_never_returns_empty (TestDouble.llmHost payload) (lit "sys") [] Llm.noOptions)
          (TestDouble.respond payload) payload eq_refl eq_refl eq_refl eq_refl).
  split; [|split; [|split]].
  - exact (proj2 (proj2 (run (TestDouble.completionPayload (Llm.JString (lit "  Hello  ")))))
             (lit "  Hello  ") eq_refl ltac:(vm_compute; discriminate)).
  - exact (proj1 (proj2 (run (TestDouble.completionPayload (Llm.JString (lit "   ")))))
             (lit "   ") eq_refl eq_refl).
  - apply (proj1 (run (TestDouble.completionPayload (Llm.JNumber 1%float)))).
    intros s. vm_compute. discriminate.
  - apply (proj1 (run (Llm.JObject [(lit "choices", Llm.JArray [])]))).
    intros s. vm_compute. discriminate.
Defined.

(** ** The commands, one by one *)

Section Commands.
Import Command Spec.
Variable h : Host.

Lemma openWebsite_run : forall a args,
  openWebsite h (a :: args) =
  ([WindowOpen (normalizedUrl (a :: args)) (lit "_blank")],
   Normal
     match windowOpen h (normalizedUrl (a :: args)) (lit "_blank") with
     | Normal _ =>
         responseResult (checkMark ++ lit " Opened: " ++ normalizedUrl (a :: args))
     | Throw e => errorResult (lit "Failed to open URL: " ++ message e)
     end).
Proof.
  intros a args. unfold openWebsite, normalizedUrl.
  destruct (hasProtocol (join (lit " ") (a :: args))); cbn [negb];
    unfold tryCatch, bind, perform, ret;
    match goal with |- context [windowOpen h ?u ?t] => destruct (windowOpen h u t) end;
    reflexivity.
Qed.

Lemma calculate_run : forall a args,
  calculate h (a :: args) =
  let expression := join (lit " ") (a :: args) in
  if whitelisted expression then
    ([FunctionEval (functionBody expression)],
     Normal
       match evalFunction h (functionBody expression) with
       | Normal (VNumber x) =>
           if isFinite x then responseResult (calcResponseText h expression x)
           else errorResult (invalidExpressionText expression)
       | _ => errorResult (invalidExpressionText expression)
       end)
  else ([], Normal (errorResult (invalidExpressionText expression))).
Proof.
  intros a args. unfold calculate. cbv zeta.
  destruct (whitelisted (join (lit " ") (a :: args))); cbn [negb].
  - unfold tryCatch, bind, perform, ret, throw.
    destruct (evalFunction h _) as [[x|]|e]; try reflexivity.
    destruct (isFinite x); reflexivity.
  - reflexivity.
Qed.

Lemma summarizeClipboard_run :
  summarizeClipboard h =
  match clipboard h with
  | NavigatorUndefined =>
      ([], Normal (errorResult
         (lit "Clipboard access denied. Try copying text and asking me to summarize it directly.")))
  | ClipboardUnavailable =>
      ([], Normal (errorResult
         (lit "Clipboard access not available. Try copying text and asking me to summarize it directly.")))
  | ClipboardReadText (Throw _) =>
      ([ClipboardRead], Normal (errorResult
         (lit "Clipboard access denied. Try copying text and asking me to summarize it directly.")))
  | ClipboardReadText (Normal clipboardText) =>
      ([ClipboardRead],
       Normal (if strEqb (trim clipboardText) []
               then errorResult (lit "Clipboard is empty or contains no text")
               else mkResult true (Some summarizingNotice) None (Some true)
                             (Some clipboardText)))
  end.
Proof.
  unfold summarizeClipboard.
  destruct (clipboard h) as [| |[clipboardText|e]]; try reflexivity.
  unfold tryCatch, bind, perform, ret.
  destruct clipboardText as [|c rest]; [reflexivity|].
  cbn [truthyStr isEmpty negb orb].
  destruct (trim (c :: rest)); reflexivity.
Qed.

(** The outcome of the [switch]: a command result, never a throw, and no
    model-client call on the way. *)
Lemma dispatch_run : forall command args,
  exists t r,
    dispatch h command args = (t, Normal r)
    /\ isCommand r = true
    /\ List.filter isChatCall t = []
    /\ (forall e, error r = Some e -> e <> []).
Proof.
  intros command args. unfold dispatch.
  destruct (strEqb command (lit "help")).
  { eexists _, _. repeat split; try reflexivity. discriminate. }
  destruct (strEqb command (lit "open")).
  { destruct args as [|a args].
    - eexists _, _. repeat split; try reflexivity.
      intros e He. inversion He. discriminate.
    - rewrite openWebsite_run. eexists _, _. split; [reflexivity|].
      destruct (windowOpen h _ _); repeat split; try reflexivity;
        intros e' He; inversion He; discriminate. }
  destruct (strEqb command (lit "calc") || strEqb command (lit "calculate")).
  { destruct args as [|a args].
    - eexists _, _. repeat split; try reflexivity.
      intros e He. inversion He. discriminate.
    - rewrite calculate_run. cbv zeta.
      destruct (whitelisted _).
      + eexists _, _. split; [reflexivity|].
        destruct (evalFunction h _) as [[x|]|e0]; [destruct (isFinite x)| |];
          repeat split; try reflexivity;
          intros e' He; inversion He; discriminate.
      + eexists _, _. repeat split; try reflexivity.
        intros e' He; inversion He; discriminate. }
  destruct (strEqb command (lit "clipboard")).
  { rewrite summarizeClipboard_run.
    destruct (clipboard h) as [| |[clipboardText|e0]];
      try (eexists _, _; repeat split; try reflexivity;
           intros e' He; inversion He; discriminate).
    eexists _, _. split; [reflexivity|].
    destruct (strEqb (trim clipboardText) []); repeat split; try reflexivity;
      intros e' He; inversion He; discriminate. }
  eexists _, _. repeat split; try reflexivity.
  intros e' He; inversion He; discriminate.
Qed.

Lemma processInput_chat : forall input,
  isCommandInput input = false -> processInput h input = ([], Normal notCommand).
Proof.
  intros input H. unfold processInput. unfold isCommandInput in H.
  rewrite H. reflexivity.
Qed.

(** On a command the surrounding [try] has nothing to catch. *)
Lemma processInput_command : forall input,
  isCommandInput input = true ->
  processInput h input = dispatch h (commandToken h input) (commandArgs input).
Proof.
  intros input H. unfold processInput. unfold isCommandInput in H.
  rewrite H. cbn [negb]. cbv zeta.
  fold (commandParts input). fold (commandToken h input). fold (commandArgs input).
  destruct (dispatch_run (commandToken h input) (commandArgs input))
    as (t & r & Hrun & _).
  rewrite Hrun. reflexivity.
Qed.

Lemma processInput_run : forall input,
  exists t r,
    processInput h input = (t, Normal r)
    /\ List.filter isChatCall t = []
    /\ (forall e, error r = Some e -> isCommand r = true /\ e <> []).
Proof.
  intro input. destruct (isCommandInput input) eqn:Hc.
  - rewrite (processInput_command input Hc).
    destruct (dispatch_run (commandToken h input) (commandArgs input))
      as (t & r & Hrun & Hcmd & Hno & Herr).
    exists t, r. repeat split; auto.
  - rewrite (processInput_chat input Hc). exists [], notCommand.
    repeat split; try reflexivity; discriminate.
Qed.

End Commands.

(** ** The entry point *)

Section EntryPoint.
Import Command Spec.
Variable h : Host.

(** [runCommandOrChat] in terms of the command result. *)
Lemma runCommandOrChat_run : forall input ctx t r,
  processInput h input = (t, Normal r) ->
  runCommandOrChat h input ctx =
  if negb (isCommand r) then
    (t ++ [ChatCall (system ctx) (history ctx ++ [userMessage input])],
     chat h (system ctx) (history ctx ++ [userMessage input]))
  else if truthyOpt (error r) then
    (t, Normal (crossMark ++ lit " " ++ render (error r)))
  else if match shouldContinueToLLM r with Some b => b | None => false end
          && truthyOpt (clipboardContent r) then
    (t ++ [ChatCall (system ctx) [userMessage (summaryPrompt (render (clipboardContent r)))]],
     match chat h (system ctx) [userMessage (summaryPrompt (render (clipboardContent r)))] with
     | Normal summary => Normal (render (response r) ++ nl ++ nl ++ summary)
     | Throw e => Throw e
     end)
  else
    (t, Normal (if truthyOpt (response r) then render (response r)
                else lit "Command executed successfully.")).
Proof.
  intros input ctx t r Hrun. unfold runCommandOrChat, bind. rewrite Hrun.
  destruct (negb (isCommand r)).
  { unfold callChat, perform. reflexivity. }
  destruct (truthyOpt (error r)).
  { unfold ret. rewrite app_nil_r. reflexivity. }
  destruct (_ && _).
  { unfold callChat, perform, userMessage.
    destruct (chat h _ _); [|reflexivity].
    unfold ret. rewrite app_nil_r. reflexivity. }
  unfold ret. rewrite app_nil_r. reflexivity.
Qed.

Lemma filter_chat_snoc : forall t sys msgs,
  List.filter isChatCall t = [] ->
  List.filter isChatCall (t ++ [ChatCall sys msgs]) = [ChatCall sys msgs].
Proof.
  intros t sys msgs H. rewrite filter_app, H. reflexivity.
Qed.

End EntryPoint.

(** C1.  When the trimmed input does not begin with [/], the run consists
    of exactly one host call, the model-client call on [ctx.system] and
    the history followed by the user message holding the input as typed,
    and the outcome of the run is the outcome of that call. *)
Theorem chat_path_forwards_input :
  forall (h : Command.Host) (input : jsstring) (ctx : Command.ChatContext),
    Spec.isCommandInput input = false ->
    Command.runCommandOrChat h input ctx =
    ([Command.ChatCall (Command.system ctx)
        (Command.history ctx ++ [Spec.userMessage input])],
     Command.chat h (Command.system ctx)
       (Command.history ctx ++ [Spec.userMessage input]))
    /\ Command.chatCalls (Command.runCommandOrChat h input ctx) = 1.
Proof.
  intros h input ctx Hchat.
  rewrite (runCommandOrChat_run h input ctx [] Command.notCommand
             (processInput_chat h input Hchat)).
  split; reflexivity.
Qed.

(** C1 on the input ["  hello there "], which is forwarded untrimmed. *)
Lemma chat_path_forwards_input_witness :
  Command.runCommandOrChat TestDouble.happyHost (lit "  hello there ") TestDouble.context =
  ([Command.ChatCall (Command.system TestDouble.context)
      (Command.history TestDouble.context ++ [Spec.userMessage (lit "  hello there ")])],
   Normal (lit "Sure."))
  /\ Command.chatCalls
       (Command.runCommandOrChat TestDouble.happyHost (lit "  hello there ")
          TestDouble.context) = 1.
Proof.
  exact (chat_path_forwards_input TestDouble.happyHost (lit "  hello there ")
           TestDouble.context eq_refl).
Defined.




Section Tokens.
Import Command Spec SpecArith.
Variable h : Host.
Hypothesis lower : AsciiLowerCase h.

(** The command token of an input whose first word is ASCII. *)
Lemma commandToken_ascii : forall input,
  forallb isAscii (hd [] (commandParts input)) = true ->
  commandToken h input = List.map asciiLower (hd [] (commandParts input)).
Proof. intros input H. unfold commandToken. apply lower. exact H. Qed.

End Tokens.

Lemma dispatch_unknown : forall (h : Command.Host) command args,
  Spec.knownCommand command = false ->
  Command.dispatch h command args =
  ([], Normal (Command.errorResult (Spec.unknownCommandText command))).
Proof.
  intros h command args H. unfold Spec.knownCommand in H.
  repeat (apply orb_false_iff in H; destruct H as [H ?]).
  unfold Command.dispatch.
  repeat match goal with E : strEqb _ _ = false |- _ => rewrite E; clear E end.
  reflexivity.
Qed.

Lemma unknown_command_run :
  forall (h : Command.Host) (input : jsstring) (ctx : Command.ChatContext),
    Spec.isCommandInput input = true ->
    Spec.knownCommand (Spec.commandToken h input) = false ->
    Command.runCommandOrChat h input ctx
    = ([], Normal (Command.crossMark ++ lit " "
                     ++ Spec.unknownCommandText (Spec.commandToken h input))).
Proof.
  intros h input ctx Hcmd Hknown.
  assert (Hrun : Command.processInput h input
                 = ([], Normal (Command.errorResult
                                  (Spec.unknownCommandText (Spec.commandToken h input))))).
  { rewrite (processInput_command h input Hcmd). apply dispatch_unknown. exact Hknown. }
  rewrite (runCommandOrChat_run h input ctx _ _ Hrun). reflexivity.
Qed.

(** C7.  Whenever the command result carries an error, [runCommandOrChat]
    returns the failure marker, a space and the error text, having made
    the host calls of the command and no model-client call.  A command
    token that is none of [help], [open], [calc], [calculate], [clipboard]
    yields "Unknown command: /<token>. Type /help for available commands."
    with no host call at all; so does [/frobnicate]. *)
Theorem command_errors_skip_model_client :
  forall (h : Command.Host) (input : jsstring) (ctx : Command.ChatContext),
    (forall t r e,
        Command.processInput h input = (t, Normal r) ->
        Command.error r = Some e ->
        Command.runCommandOrChat h input ctx
        = (t, Normal (Command.crossMark ++ lit " " ++ e))
        /\ Command.chatCalls (Command.runCommandOrChat h input ctx) = 0)
    /\ (Spec.isCommandInput input = true ->
        Spec.knownCommand (Spec.commandToken h input) = false ->
        Command.runCommandOrChat h input ctx
        = ([], Normal (Command.crossMark ++ lit " "
                         ++ Spec.unknownCommandText (Spec.commandToken h input))))
    /\ (SpecArith.AsciiLowerCase h ->
        Command.runCommandOrChat h (lit "/frobnicate") ctx
        = ([], Normal (Command.crossMark
                         ++ lit " Unknown command: /frobnicate. Type /help for available commands."))).
Proof.
  intros h input ctx.
  split; [|split].
  - intros t r e Hrun He.
    destruct (processInput_run h input) as (t' & r' & Hrun' & Hno & Herr).
    rewrite Hrun in Hrun'. inversion Hrun'; subst t' r'.
    destruct (Herr e He) as [Hcmd Hne].
    rewrite (runCommandOrChat_run h input ctx t r Hrun).
    rewrite Hcmd, He. cbn [negb truthyOpt Command.render].
    destruct e as [|c e]; [contradiction Hne; reflexivity|].
    cbn [truthyStr isEmpty negb]. split; [reflexivity|].
    unfold Command.chatCalls, Command.trace. cbn [fst]. rewrite Hno. reflexivity.
  - apply unknown_command_run.
  - intro Hlower.
    assert (Htok : Spec.commandToken h (lit "/frobnicate") = lit "frobnicate").
    { rewrite (commandToken_ascii h Hlower) by reflexivity. reflexivity. }
    rewrite (unknown_command_run h (lit "/frobnicate") ctx eq_refl);
      rewrite Htok; reflexivity.
Qed.

Lemma asciiLowerCase_testDouble : forall chatOutcome openOutcome clip,
  SpecArith.AsciiLowerCase (TestDouble.host chatOutcome openOutcome clip).
Proof. intros chatOutcome openOutcome clip s _. reflexivity. Qed.

(** C7 on [/frobnicate], and on [/open] without argument. *)
Lemma command_errors_skip_model_client_witness :
  Command.runCommandOrChat TestDouble.happyHost (lit "/frobnicate") TestDouble.context
  = ([], Normal (Command.crossMark
                   ++ lit " Unknown command: /frobnicate. Type /help for available commands."))
  /\ Command.runCommandOrChat TestDouble.happyHost (lit "/open") TestDouble.context
     = ([], Normal (Command.crossMark
                      ++ lit " Please provide a URL. Example: /open https://google.com"))
  /\ Command.chatCalls
       (Command.runCommandOrChat TestDouble.happyHost (lit "/open") TestDouble.context) = 0.
Proof.
  split.
  - exact (proj2 (proj2 (command_errors_skip_model_client TestDouble.happyHost
                           (lit "/frobnicate") TestDouble.context))
                 (asciiLowerCase_testDouble _ _ _)).
  - exact (proj1 (command_errors_skip_model_client TestDouble.happyHost
                    (lit "/open") TestDouble.context)
                 [] (Command.errorResult
                       (lit "Please provide a URL. Example: /open https://google.com"))
                 (lit "Please provide a URL. Example: /open https://google.com")
                 eq_refl eq_refl).
Defined.

(** C9.  An input that trims to the bare sigil is a command: its token is
    the empty string, no command of the router, and the run returns the
    unknown-command error naming it, with no host call. *)
Theorem bare_sigil_is_unknown_command :
  forall (h : Command.Host) (input : jsstring) (ctx : Command.ChatContext),
    SpecArith.AsciiLowerCase h ->
    trim input = lit "/" ->
    Spec.isCommandInput input = true
    /\ Spec.commandToken h input = []
    /\ Command.runCommandOrChat h input ctx
       = ([], Normal (Command.crossMark
                        ++ lit " Unknown command: /. Type /help for available commands."))
    /\ Command.chatCalls (Command.runCommandOrChat h input ctx) = 0.
Proof.
  intros h input ctx Hlower Htrim.
  assert (Hcmd : Spec.isCommandInput input = true).
  { unfold Spec.isCommandInput. rewrite Htrim. reflexivity. }
  assert (Htok : Spec.commandToken h input = []).
  { rewrite (commandToken_ascii h Hlower);
      unfold Spec.commandParts; rewrite Htrim; reflexivity. }
  assert (Hrun : Command.runCommandOrChat h input ctx
                 = ([], Normal (Command.crossMark
                          ++ lit " Unknown command: /. Type /help for available commands."))).
  { rewrite (unknown_command_run h input ctx Hcmd); rewrite Htok; reflexivity. }
  repeat split; try assumption. rewrite Hrun. reflexivity.
Qed.

(** C9 on the input [" / "]. *)
Lemma bare_sigil_is_unknown_command_witness :
  Spec.isCommandInput (lit " / ") = true
  /\ Spec.commandToken TestDouble.happyHost (lit " / ") = []
  /\ Command.runCommandOrChat TestDouble.happyHost (lit " / ") TestDouble.context
     = ([], Normal (Command.crossMark
                      ++ lit " Unknown command: /. Type /help for available commands."))
  /\ Command.chatCalls
       (Command.runCommandOrChat TestDouble.happyHost (lit " / ") TestDouble.context) = 0.
Proof.
  exact (bare_sigil_is_unknown_command TestDouble.happyHost (lit " / ") TestDouble.context
           (asciiLowerCase_testDouble _ _ _) eq_refl).
Defined.

(** ** [/clipboard] *)

Lemma clipboard_command_run :
  forall (h : Command.Host) (input : jsstring),
    Spec.isCommandInput input = true ->
    Spec.commandToken h input = lit "clipboard" ->
    Command.processInput h input = Command.summarizeClipboard h.
Proof.
  intros h input Hcmd Htok.
  rewrite (processInput_command h input Hcmd), Htok. reflexivity.
Qed.

Lemma trim_nonempty : forall s, trim s <> [] -> s <> [].
Proof. intros s H E. subst s. apply H. reflexivity. Qed.

(** C3.  On the [/clipboard] command: when the clipboard holds nothing
    but white space, the run reads the clipboard, makes no model-client
    call and returns an error that contains "empty"; when it holds a text
    [T] with something other than white space, the run reads the
    clipboard, makes one model-client call on [ctx.system] and the single
    user message "Please provide a concise summary of this clipboard
    content:", an empty line, [T], and, the call returning [summary],
    returns the notice, an empty line, and [summary]. *)
Theorem clipboard_command_summarizes :
  forall (h : Command.Host) (input : jsstring) (ctx : Command.ChatContext),
    Spec.isCommandInput input = true ->
    Spec.commandToken h input = lit "clipboard" ->
    (forall T,
        Command.clipboard h = Command.ClipboardReadText (Normal T) ->
        trim T = [] ->
        Command.runCommandOrChat h input ctx
        = ([Command.ClipboardRead],
           Normal (Command.crossMark ++ lit " Clipboard is empty or contains no text"))
        /\ Command.chatCalls (Command.runCommandOrChat h input ctx) = 0)
    /\ (forall T,
        Command.clipboard h = Command.ClipboardReadText (Normal T) ->
        trim T <> [] ->
        Command.runCommandOrChat h input ctx
        = ([Command.ClipboardRead;
            Command.ChatCall (Command.system ctx)
              [Spec.userMessage
                 (lit "Please provide a concise summary of this clipboard content:"
                    ++ Command.nl ++ Command.nl ++ T)]],
           match Command.chat h (Command.system ctx)
                   [Spec.userMessage
                      (lit "Please provide a concise summary of this clipboard content:"
                         ++ Command.nl ++ Command.nl ++ T)] with
           | Normal summary =>
               Normal (Command.summarizingNotice ++ Command.nl ++ Command.nl ++ summary)
           | Throw e => Throw e
           end)
        /\ Command.chatCalls (Command.runCommandOrChat h input ctx) = 1)
    /\ includes (lit "empty")
         (Command.crossMark ++ lit " Clipboard is empty or contains no text") = true.
Proof.
  intros h input ctx Hcmd Htok.
  pose proof (clipboard_command_run h input Hcmd Htok) as Hrun.
  rewrite summarizeClipboard_run in Hrun.
  split; [|split].
  - intros T Hclip Hempty. rewrite Hclip, Hempty in Hrun. cbn [strEqb] in Hrun.
    rewrite (runCommandOrChat_run h input ctx _ _ Hrun). split; reflexivity.
  - intros T Hclip Hfull. rewrite Hclip in Hrun.
    apply strEqb_neq in Hfull as Hneq. rewrite Hneq in Hrun.
    rewrite (runCommandOrChat_run h input ctx _ _ Hrun).
    apply trim_nonempty in Hfull. destruct T as [|c T]; [contradiction Hfull; reflexivity|].
    split; reflexivity.
  - reflexivity.
Qed.

(** C3 on a clipboard holding "meeting at noon" and on one holding three
    spaces. *)
Lemma clipboard_command_summarizes_witness :
  Command.runCommandOrChat TestDouble.happyHost (lit "/clipboard") TestDouble.context
  = ([Command.ClipboardRead;
      Command.ChatCall (Command.system TestDouble.context)
        [Spec.userMessage
           (lit "Please provide a concise summary of this clipboard content:"
              ++ Command.nl ++ Command.nl ++ lit "meeting at noon")]],
     Normal (Command.summarizingNotice ++ Command.nl ++ Command.nl ++ lit "Sure."))
  /\ Command.runCommandOrChat
       (TestDouble.host (Normal (lit "Sure.")) (Normal tt)
          (Command.ClipboardReadText (Normal (lit "   "))))
       (lit "/Clipboard now") TestDouble.context
     = ([Command.ClipboardRead],
        Normal (Command.crossMark ++ lit " Clipboard is empty or contains no text")).
Proof.
  split.
  - exact (proj1 (proj1 (proj2 (clipboard_command_summarizes TestDouble.happyHost
                                  (lit "/clipboard") TestDouble.context eq_refl eq_refl))
                        (lit "meeting at noon") eq_refl
                        ltac:(vm_compute; discriminate))).
  - exact (proj1 (proj1 (clipboard_command_summarizes
                           (TestDouble.host (Normal (lit "Sure.")) (Normal tt)
                              (Command.ClipboardReadText (Normal (lit "   "))))
                           (lit "/Clipboard now") TestDouble.context eq_refl eq_refl)
                        (lit "   ") eq_refl eq_refl)).
Defined.

(** ** [/open] *)

Lemma open_command_run :
  forall (h : Command.Host) (input : jsstring),
    Spec.isCommandInput input = true ->
    Spec.commandToken h input = lit "open" ->
    Command.processInput h input = Command.openWebsite h (Spec.commandArgs input).
Proof.
  intros h input Hcmd Htok.
  rewrite (processInput_command h input Hcmd), Htok. reflexivity.
Qed.




(** ** [/calc] *)

Lemma calc_command_run :
  forall (h : Command.Host) (input : jsstring),
    Spec.isCommandInput input = true ->
    Spec.commandToken h input = lit "calc" \/ Spec.commandToken h input = lit "calculate" ->
    Command.processInput h input = Command.calculate h (Spec.commandArgs input).
Proof.
  intros h input Hcmd [Htok|Htok];
    rewrite (processInput_command h input Hcmd), Htok; reflexivity.
Qed.

Lemma unlisted_not_whitelisted : forall expression,
  existsb (fun c => negb (Command.allowedUnit c)) expression = true ->
  Command.whitelisted expression = false.
Proof.
  intros expression H. unfold Command.whitelisted.
  apply andb_false_iff. right.
  induction expression as [|c rest IH]; simpl in *; [discriminate|].
  apply orb_true_iff in H. destruct H as [H|H].
  - apply negb_true_iff in H. rewrite H. reflexivity.
  - rewrite (IH H). apply andb_false_r.
Qed.

Lemma calculate_rejects : forall (h : Command.Host) args,
  args <> [] ->
  Command.whitelisted (join (lit " ") args) = false ->
  Command.calculate h args
  = ([], Normal (Command.errorResult (Spec.invalidExpressionText (join (lit " ") args)))).
Proof.
  intros h [|a args] Hargs Hw; [contradiction Hargs; reflexivity|].
  rewrite calculate_run. cbv zeta. rewrite Hw. reflexivity.
Qed.

(** C4, refuted as stated: the tab is outside [[0-9+\-*/(). ]], yet
    [/calc 1<TAB>+ 1] passes the check of [calculate], which matches white
    space with [\s]: on every host the expression is handed to [Function],
    and where [Function] does arithmetic the command answers 2. *)
Lemma calc_evaluates_tabbed_sum :
  existsb (fun c => negb (Spec.claimedAllowedUnit c)) TestDouble.tabbedSum = true
  /\ join (lit " ") (Spec.commandArgs (lit "/calc " ++ TestDouble.tabbedSum))
     = TestDouble.tabbedSum
  /\ (forall h : Command.Host,
         Command.trace
           (Command.calculate h (Spec.commandArgs (lit "/calc " ++ TestDouble.tabbedSum)))
         = [Command.FunctionEval (Command.functionBody TestDouble.tabbedSum)])
  /\ Command.runCommandOrChat TestDouble.happyHost (lit "/calc " ++ TestDouble.tabbedSum)
       TestDouble.context
     = ([Command.FunctionEval (Command.functionBody TestDouble.tabbedSum)],
        Normal (Command.abacus ++ lit " **" ++ TestDouble.tabbedSum ++ lit "** = **2**")).
Proof.
  split; [reflexivity|]. split; [reflexivity|]. split.
  - intro h.
    change (Spec.commandArgs (lit "/calc " ++ TestDouble.tabbedSum))
      with [lit "1" ++ [9%N] ++ lit "+"; lit "1"].
    rewrite calculate_run. reflexivity.
  - vm_compute. reflexivity.
Qed.

(** C4, amended.  The whitelist of [calculate] is [[0-9+\-*/().\s]]:
    digits, the four operators, parentheses, the dot and every white-space
    character.  A joined expression with a character outside it is
    rejected with the invalid-expression error and [Function] is never
    called; [/calc 2; DROP TABLE] is rejected so. *)
Theorem calc_rejects_unlisted_characters :
  forall (h : Command.Host) (input : jsstring) (ctx : Command.ChatContext),
    (forall args,
        args <> [] ->
        existsb (fun c => negb (Command.allowedUnit c)) (join (lit " ") args) = true ->
        Command.calculate h args
        = ([], Normal (Command.errorResult
                         (Spec.invalidExpressionText (join (lit " ") args)))))
    /\ (Spec.isCommandInput input = true ->
        Spec.commandToken h input = lit "calc"
        \/ Spec.commandToken h input = lit "calculate" ->
        Spec.commandArgs input <> [] ->
        existsb (fun c => negb (Command.allowedUnit c))
          (join (lit " ") (Spec.commandArgs input)) = true ->
        Command.runCommandOrChat h input ctx
        = ([], Normal (Command.crossMark ++ lit " "
                         ++ Spec.invalidExpressionText
                              (join (lit " ") (Spec.commandArgs input)))))
    /\ (SpecArith.AsciiLowerCase h ->
        Command.runCommandOrChat h (lit "/calc 2; DROP TABLE") ctx
        = ([], Normal (Command.crossMark ++ lit " Invalid math expression: "
                         ++ Command.quote ++ lit "2; DROP TABLE" ++ Command.quote))).
Proof.
  intros h input ctx.
  assert (Hcalc : forall args,
             args <> [] ->
             existsb (fun c => negb (Command.allowedUnit c)) (join (lit " ") args) = true ->
             Command.calculate h args
             = ([], Normal (Command.errorResult
                              (Spec.invalidExpressionText (join (lit " ") args))))).
  { intros args Hargs Hbad. apply calculate_rejects; [exact Hargs|].
    apply unlisted_not_whitelisted. exact Hbad. }
  assert (Hrun : forall inp,
             Spec.isCommandInput inp = true ->
             Spec.commandToken h inp = lit "calc"
             \/ Spec.commandToken h inp = lit "calculate" ->
             Spec.commandArgs inp <> [] ->
             existsb (fun c => negb (Command.allowedUnit c))
               (join (lit " ") (Spec.commandArgs inp)) = true ->
             Command.runCommandOrChat h inp ctx
             = ([], Normal (Command.crossMark ++ lit " "
                              ++ Spec.invalidExpressionText
                                   (join (lit " ") (Spec.commandArgs inp))))).
  { intros inp Hcmd Htok Hargs Hbad.
    pose proof (calc_command_run h inp Hcmd Htok) as Hp.
    rewrite (Hcalc _ Hargs Hbad) in Hp.
    rewrite (runCommandOrChat_run h inp ctx _ _ Hp). reflexivity. }
  split; [exact Hcalc|]. split; [apply Hrun|].
  intro Hlower.
  assert (Htok : Spec.commandToken h (lit "/calc 2; DROP TABLE") = lit "calc").
  { rewrite (commandToken_ascii h Hlower) by reflexivity. reflexivity. }
  rewrite (Hrun (lit "/calc 2; DROP TABLE") eq_refl (or_introl Htok)
             ltac:(vm_compute; discriminate) eq_refl).
  reflexivity.
Qed.

(** C4, amended, on [/calc 2; DROP TABLE]. *)
Lemma calc_rejects_unlisted_characters_witness :
  Command.runCommandOrChat TestDouble.happyHost (lit "/calc 2; DROP TABLE")
    TestDouble.context
  = ([], Normal (Command.crossMark ++ lit " Invalid math expression: "
                   ++ Command.quote ++ lit "2; DROP TABLE" ++ Command.quote)).
Proof.
  exact (proj2 (proj2 (calc_rejects_unlisted_characters TestDouble.happyHost
                         (lit "/calc 2; DROP TABLE") TestDouble.context))
               (asciiLowerCase_testDouble _ _ _)).
Defined.

Lemma startsWith_app : forall p s, startsWith p (p ++ s) = true.
Proof.
  induction p as [|c p IH]; intro s; simpl; [reflexivity|].
  unfold unitEqb. rewrite N.eqb_refl. apply IH.
Qed.

Lemma includes_prefix : forall needle hay,
  startsWith needle hay = true -> includes needle hay = true.
Proof.
  intros needle hay H. destruct hay; simpl; rewrite H; reflexivity.
Qed.

Lemma includes_app : forall needle before after,
  includes needle (before ++ needle ++ after) = true.
Proof.
  intros needle before after. induction before as [|c before IH].
  - apply includes_prefix. cbn [app]. apply startsWith_app.
  - change (includes needle ((c :: before) ++ needle ++ after))
      with (startsWith needle ((c :: before) ++ needle ++ after)
            || includes needle (before ++ needle ++ after)).
    rewrite IH. apply orb_true_r.
Qed.

Lemma digit_allowed : forall c, SpecArith.isDigit c = true -> Command.allowedUnit c = true.
Proof.
  intros c H. unfold Command.allowedUnit. unfold SpecArith.isDigit in H.
  rewrite H. reflexivity.
Qed.

(** *** The parser reads a term along its shape *)

Section Descent.
Import Engine Arith.

Lemma parseProductRest_ends : forall g v k,
  1 <= g -> endsProduct k = true -> parseProductRest g v k = Some (v, k).
Proof.
  intros [|g] v k Hg Hk; [lia|].
  destruct k as [|[x| | | | | |] k]; try reflexivity; discriminate.
Qed.

Lemma parseSumRest_close : forall g v k,
  1 <= g -> parseSumRest g v (TClose :: k) = Some (v, TClose :: k).
Proof. intros [|g] v k Hg; [lia|reflexivity]. Qed.

Lemma parseSumRest_nil : forall g v,
  1 <= g -> parseSumRest g v [] = Some (v, []).
Proof. intros [|g] v Hg; [lia|reflexivity]. Qed.

Lemma descent :
  (forall s k r gk,
      endsProduct k = true ->
      (forall g, gk <= g -> parseSumRest g (value s) k = Some r) ->
      forall f, gk + size s <= f -> parseSum f (tokens s ++ k) = Some r)
  /\ (forall p k r gk,
         (forall g, gk <= g -> parseProductRest g (valueProduct p) k = Some r) ->
         forall f, gk + sizeProduct p <= f ->
                   parseProduct f (tokensProduct p ++ k) = Some r)
  /\ (forall u k f,
         sizeUnary u <= f ->
         parseUnary f (tokensUnary u ++ k) = Some (valueUnary u, k))
  /\ (forall a k f,
         sizePrimary a <= f ->
         parseUnary f (tokensPrimary a ++ k) = Some (valuePrimary a, k)).
Proof.
  apply term_mutind.
  - (* OfProduct *)
    intros p IHp k r gk Hk Hrest [|f] Hf; [cbn [size] in Hf; lia|].
    cbn [size] in Hf. cbn [tokens value] in *.
    change (parseSum (S f) (tokensProduct p ++ k))
      with (match parseProduct f (tokensProduct p ++ k) with
            | Some (v, r0) => parseSumRest f v r0
            | None => None
            end).
    rewrite (IHp k (valueProduct p, k) 1).
    + apply Hrest. lia.
    + intros g Hg. apply parseProductRest_ends; assumption.
    + lia.
  - (* Add *)
    intros s IHs g1 g2 p IHp k r gk Hk Hrest f Hf.
    cbn [size] in Hf. cbn [tokens value] in *.
    rewrite <- app_assoc. cbn [app].
    apply (IHs _ r (gk + sizeProduct p + 2)); [reflexivity| |lia].
    intros [|g] Hg; [lia|].
    change (parseSumRest (S g) (value s) (TPlus :: tokensProduct p ++ k))
      with (match parseProduct g (tokensProduct p ++ k) with
            | Some (v, r0) => parseSumRest g (PrimFloat.add (value s) v) r0
            | None => None
            end).
    rewrite (IHp k (valueProduct p, k) 1).
    + apply Hrest. lia.
    + intros g0 Hg0. apply parseProductRest_ends; assumption.
    + lia.
  - (* Sub *)
    intros s IHs g1 g2 p IHp k r gk Hk Hrest f Hf.
    cbn [size] in Hf. cbn [tokens value] in *.
    rewrite <- app_assoc. cbn [app].
    apply (IHs _ r (gk + sizeProduct p + 2)); [reflexivity| |lia].
    intros [|g] Hg; [lia|].
    change (parseSumRest (S g) (value s) (TMinus :: tokensProduct p ++ k))
      with (match parseProduct g (tokensProduct p ++ k) with
            | Some (v, r0) => parseSumRest g (PrimFloat.sub (value s) v) r0
            | None => None
            end).
    rewrite (IHp k (valueProduct p, k) 1).
    + apply Hrest. lia.
    + intros g0 Hg0. apply parseProductRest_ends; assumption.
    + lia.
  - (* OfUnary *)
    intros u IHu k r gk Hrest [|f] Hf; [cbn [sizeProduct] in Hf; lia|].
    cbn [sizeProduct] in Hf. cbn [tokensProduct valueProduct] in *.
    change (parseProduct (S f) (tokensUnary u ++ k))
      with (match parseUnary f (tokensUnary u ++ k) with
            | Some (v, r0) => parseProductRest f v r0
            | None => None
            end).
    rewrite (IHu k f) by lia. apply Hrest. lia.
  - (* Mul *)
    intros p IHp g1 g2 u IHu k r gk Hrest f Hf.
    cbn [sizeProduct] in Hf. cbn [tokensProduct valueProduct] in *.
    rewrite <- app_assoc. cbn [app].
    apply (IHp _ r (gk + sizeUnary u + 1)); [|lia].
    intros [|g] Hg; [lia|].
    change (parseProductRest (S g) (valueProduct p) (TStar :: tokensUnary u ++ k))
      with (match parseUnary g (tokensUnary u ++ k) with
            | Some (v, r0) => parseProductRest g (PrimFloat.mul (valueProduct p) v) r0
            | None => None
            end).
    rewrite (IHu k g) by lia. apply Hrest. lia.
  - (* Div *)
    intros p IHp g1 g2 u IHu k r gk Hrest f Hf.
    cbn [sizeProduct] in Hf. cbn [tokensProduct valueProduct] in *.
    rewrite <- app_assoc. cbn [app].
    apply (IHp _ r (gk + sizeUnary u + 1)); [|lia].
    intros [|g] Hg; [lia|].
    change (parseProductRest (S g) (valueProduct p) (TSlash :: tokensUnary u ++ k))
      with (match parseUnary g (tokensUnary u ++ k) with
            | Some (v, r0) => parseProductRest g (PrimFloat.div (valueProduct p) v) r0
            | None => None
            end).
    rewrite (IHu k g) by lia. apply Hrest. lia.
  - (* Plain *)
    intros a IHa k f Hf. exact (IHa k f Hf).
  - (* Neg *)
    intros g1 a IHa k [|f] Hf; [cbn [sizeUnary] in Hf; lia|].
    cbn [sizeUnary] in Hf. cbn [tokensUnary valueUnary app].
    change (parseUnary (S f) (TMinus :: tokensPrimary a ++ k))
      with (match parseUnary f (tokensPrimary a ++ k) with
            | Some (v, r') => Some (PrimFloat.opp v, r')
            | None => None
            end).
    rewrite (IHa k f) by lia. reflexivity.
  - (* Pos *)
    intros g1 a IHa k [|f] Hf; [cbn [sizeUnary] in Hf; lia|].
    cbn [sizeUnary] in Hf. cbn [tokensUnary valueUnary app].
    change (parseUnary (S f) (TPlus :: tokensPrimary a ++ k))
      with (parseUnary f (tokensPrimary a ++ k)).
    apply IHa. lia.
  - (* Num *)
    intros l k [|f] Hf; [cbn [sizePrimary] in Hf; lia|]. reflexivity.
  - (* Group *)
    intros g1 s IHs g2 k [|f] Hf; [cbn [sizePrimary] in Hf; lia|].
    cbn [sizePrimary] in Hf. cbn [tokensPrimary valuePrimary app].
    rewrite <- app_assoc. cbn [app].
    change (parseUnary (S f) (TOpen :: tokens s ++ TClose :: k))
      with (match parseSum f (tokens s ++ TClose :: k) with
            | Some (v, TClose :: r') => Some (v, r')
            | _ => None
            end).
    rewrite (IHs (TClose :: k) (value s, TClose :: k) 1); [reflexivity|reflexivity| |lia].
    intros g Hg. apply parseSumRest_close. exact Hg.
Qed.

Lemma size_bound :
  (forall s, size s <= 4 * List.length (tokens s))
  /\ (forall p, sizeProduct p + 2 <= 4 * List.length (tokensProduct p))
  /\ (forall u, sizeUnary u + 3 <= 4 * List.length (tokensUnary u))
  /\ (forall a, sizePrimary a + 3 <= 4 * List.length (tokensPrimary a)).
Proof.
  apply term_mutind; intros;
    cbn [size sizeProduct sizeUnary sizePrimary
         tokens tokensProduct tokensUnary tokensPrimary];
    rewrite ?length_app; cbn [List.length]; rewrite ?length_app; cbn [List.length]; lia.
Qed.

(** The tokens of a term, between the parentheses of [return (...)], are
    read as the term's value, and nothing is left. *)
Lemma parse_term : forall s,
  parseSum (4 * List.length (tokens s) + 12) (TOpen :: tokens s ++ [TClose])
  = Some (value s, []).
Proof.
  intro s.
  pose proof (proj1 descent (OfProduct (OfUnary (Plain (Group [] s [])))) []
                (value s, []) 1 eq_refl) as H.
  cbn [tokens tokensProduct tokensUnary tokensPrimary value valueProduct valueUnary
       valuePrimary size sizeProduct sizeUnary sizePrimary] in H.
  rewrite app_nil_r in H. apply H.
  - intros g Hg. apply parseSumRest_nil. exact Hg.
  - pose proof (proj1 size_bound s). lia.
Qed.

End Descent.

(** *** The scanner reads a written term into its tokens *)

Section Scanning.
Import SpecArith Arith Engine.

Lemma scan_whole_cons : forall w c rest,
  scan (InWhole w) (c :: rest) =
  if isDigit c then scan (InWhole (w ++ [c])) rest
  else if (c =? 46)%N then scan (InFraction w []) rest
  else closeLiteral w [] (scan (Between true) (c :: rest)).
Proof. reflexivity. Qed.

Lemma scan_fraction_cons : forall w fr c rest,
  scan (InFraction w fr) (c :: rest) =
  if isDigit c then scan (InFraction w (fr ++ [c])) rest
  else closeLiteral w fr (scan (Between true) (c :: rest)).
Proof. reflexivity. Qed.

Lemma scan_between_cons : forall b c rest,
  scan (Between b) (c :: rest) =
  if isDigit c then scan (InWhole [c]) rest
  else if (c =? 46)%N then
    (if isDigit (hd 0%N rest) then scan (InFraction [] []) rest else Beyond)
  else if (c =? 43)%N then
    (if (hd 0%N rest =? 43)%N then Rejected else emit TPlus (scan (Between false) rest))
  else if (c =? 45)%N then
    (if (hd 0%N rest =? 45)%N then Rejected else emit TMinus (scan (Between false) rest))
  else if (c =? 42)%N then
    (if (hd 0%N rest =? 42)%N then Beyond else emit TStar (scan (Between false) rest))
  else if (c =? 47)%N then
    (if b && negb ((hd 0%N rest =? 47) || (hd 0%N rest =? 42))%N
     then emit TSlash (scan (Between false) rest)
     else Beyond)
  else if (c =? 40)%N then emit TOpen (scan (Between false) rest)
  else if (c =? 41)%N then emit TClose (scan (Between true) rest)
  else if isWhiteSpace c then scan (Between b) rest
  else Beyond.
Proof. reflexivity. Qed.

Lemma scan_digit : forall b c rest,
  isDigit c = true -> scan (Between b) (c :: rest) = scan (InWhole [c]) rest.
Proof. intros b c rest H. rewrite scan_between_cons, H. reflexivity. Qed.

Lemma scan_whole_digits : forall ds w rest,
  forallb isDigit ds = true ->
  scan (InWhole w) (ds ++ rest) = scan (InWhole (w ++ ds)) rest.
Proof.
  induction ds as [|d ds IH]; intros w rest H.
  - rewrite app_nil_r. reflexivity.
  - cbn [forallb] in H. apply andb_true_iff in H. destruct H as [Hd Hds].
    cbn [app]. rewrite scan_whole_cons, Hd, (IH _ _ Hds), <- app_assoc. reflexivity.
Qed.

Lemma scan_fraction_digits : forall ds w fr rest,
  forallb isDigit ds = true ->
  scan (InFraction w fr) (ds ++ rest) = scan (InFraction w (fr ++ ds)) rest.
Proof.
  induction ds as [|d ds IH]; intros w fr rest H.
  - rewrite app_nil_r. reflexivity.
  - cbn [forallb] in H. apply andb_true_iff in H. destruct H as [Hd Hds].
    cbn [app]. rewrite scan_fraction_cons, Hd, (IH _ _ _ Hds), <- app_assoc. reflexivity.
Qed.

Lemma scan_whole_closes : forall w k,
  closes k = true ->
  scan (InWhole w) k = closeLiteral w [] (scan (Between true) k).
Proof.
  intros w [|c k] H; [reflexivity|].
  cbn [closes] in H. apply andb_true_iff in H. destruct H as [Hd Hdot].
  apply negb_true_iff in Hd. apply negb_true_iff in Hdot.
  rewrite scan_whole_cons, Hd, Hdot. reflexivity.
Qed.

Lemma scan_fraction_closes : forall w fr k,
  closes k = true ->
  scan (InFraction w fr) k = closeLiteral w fr (scan (Between true) k).
Proof.
  intros w fr [|c k] H; [reflexivity|].
  cbn [closes] in H. apply andb_true_iff in H. destruct H as [Hd _].
  apply negb_true_iff in Hd.
  rewrite scan_fraction_cons, Hd. reflexivity.
Qed.

Lemma scan_literal : forall l b k,
  strictLiteral l = true ->
  closes k = true ->
  scan (Between b) (writtenLiteral l ++ k)
  = emit (TNum (literalValue l)) (scan (Between true) k).
Proof.
  intros [w fr] b k Hl Hk. unfold strictLiteral, decimalLiteral in Hl.
  cbn [whole fraction] in Hl.
  apply andb_true_iff in Hl. destruct Hl as [Hl Hzero].
  apply andb_true_iff in Hl. destruct Hl as [Hw Hfr].
  apply negb_true_iff in Hzero.
  unfold writtenLiteral, literalValue. cbn [whole fraction].
  destruct w as [|d ds].
  - (* .fraction *)
    destruct fr as [[|f fs]|]; try discriminate.
    apply andb_true_iff in Hfr. destruct Hfr as [Hfs _].
    cbn [app]. rewrite scan_between_cons.
    change (isDigit 46%N) with false. cbv iota.
    change (46 =? 46)%N with true. cbv iota.
    cbn [hd]. pose proof Hfs as Hf. cbn [forallb] in Hf.
    apply andb_true_iff in Hf. destruct Hf as [Hf _]. rewrite Hf.
    change (f :: fs ++ k) with ((f :: fs) ++ k).
    rewrite (scan_fraction_digits (f :: fs) [] [] k Hfs).
    cbn [app]. rewrite (scan_fraction_closes _ _ k Hk). reflexivity.
  - cbn [forallb] in Hw. apply andb_true_iff in Hw. destruct Hw as [Hd Hds].
    destruct fr as [fs|].
    + (* whole.fraction *)
      apply andb_true_iff in Hfr. destruct Hfr as [Hfs _].
      rewrite <- app_assoc. cbn [app].
      rewrite (scan_digit b d _ Hd), (scan_whole_digits ds [d] _ Hds).
      cbn [app]. rewrite scan_whole_cons.
      change (isDigit 46%N) with false. cbv iota.
      change (46 =? 46)%N with true. cbv iota.
      rewrite (scan_fraction_digits fs (d :: ds) [] k Hfs).
      cbn [app]. rewrite (scan_fraction_closes _ _ k Hk).
      unfold closeLiteral. rewrite Hzero. reflexivity.
    + (* whole *)
      rewrite app_nil_r. cbn [app].
      rewrite (scan_digit b d _ Hd), (scan_whole_digits ds [d] k Hds).
      cbn [app]. rewrite (scan_whole_closes _ k Hk).
      unfold closeLiteral. rewrite Hzero. reflexivity.
Qed.

Lemma emitAll_app : forall ts1 ts2 after,
  emitAll (ts1 ++ ts2) after = emitAll ts1 (emitAll ts2 after).
Proof. intros. unfold emitAll. apply fold_right_app. Qed.

Lemma emitAll_tokens : forall ts rest,
  emitAll ts (Tokens rest) = Tokens (ts ++ rest).
Proof.
  induction ts as [|t ts IH]; intro rest; [reflexivity|].
  cbn [emitAll fold_right app]. fold (emitAll ts (Tokens rest)). rewrite IH. reflexivity.
Qed.

(** White space is none of the characters a token is made of. *)
Lemma whiteSpace_aside : forall c,
  isWhiteSpace c = true -> (c < 40 \/ 57 < c)%N.
Proof.
  intros c H. unfold isWhiteSpace in H.
  repeat (apply orb_true_iff in H; destruct H as [H|H]);
    try (apply andb_true_iff in H; destruct H as [H1 H2];
         apply N.leb_le in H1; apply N.leb_le in H2);
    try (apply N.eqb_eq in H); lia.
Qed.

Lemma scan_whiteSpace : forall b c rest,
  isWhiteSpace c = true -> scan (Between b) (c :: rest) = scan (Between b) rest.
Proof.
  intros b c rest H. pose proof (whiteSpace_aside c H) as Hc.
  rewrite scan_between_cons, H.
  replace (isDigit c) with false
    by (symmetry; unfold isDigit; apply andb_false_iff;
        destruct Hc; [left; apply N.leb_gt|right; apply N.leb_gt]; lia).
  replace (c =? 46)%N with false by (symmetry; apply N.eqb_neq; lia).
  replace (c =? 43)%N with false by (symmetry; apply N.eqb_neq; lia).
  replace (c =? 45)%N with false by (symmetry; apply N.eqb_neq; lia).
  replace (c =? 42)%N with false by (symmetry; apply N.eqb_neq; lia).
  replace (c =? 47)%N with false by (symmetry; apply N.eqb_neq; lia).
  replace (c =? 40)%N with false by (symmetry; apply N.eqb_neq; lia).
  replace (c =? 41)%N with false by (symmetry; apply N.eqb_neq; lia).
  reflexivity.
Qed.

Lemma scan_gap : forall gap b rest,
  blank gap = true -> scan (Between b) (gap ++ rest) = scan (Between b) rest.
Proof.
  induction gap as [|c gap IH]; intros b rest H; [reflexivity|].
  unfold blank in H. cbn [forallb] in H. apply andb_true_iff in H. destruct H as [Hc Hg].
  cbn [app]. rewrite (scan_whiteSpace b c _ Hc). apply IH. exact Hg.
Qed.

Lemma closes_gap : forall gap c rest,
  blank gap = true -> closes (c :: rest) = true -> closes (gap ++ c :: rest) = true.
Proof.
  intros [|g gap] c rest H Hc; [exact Hc|].
  unfold blank in H. cbn [forallb] in H. apply andb_true_iff in H. destruct H as [Hg _].
  pose proof (whiteSpace_aside g Hg) as Hlow.
  cbn [app closes]. apply andb_true_iff. split; apply negb_true_iff.
  - unfold isDigit. apply andb_false_iff.
    destruct Hlow; [left; apply N.leb_gt|right; apply N.leb_gt]; lia.
  - apply N.eqb_neq. lia.
Qed.

Lemma closes_blank : forall gap, blank gap = true -> closes gap = true.
Proof.
  intros [|g gap] H; [reflexivity|].
  unfold blank in H. cbn [forallb] in H. apply andb_true_iff in H. destruct H as [Hg _].
  pose proof (whiteSpace_aside g Hg) as Hlow.
  cbn [closes]. apply andb_true_iff. split; apply negb_true_iff.
  - unfold isDigit. apply andb_false_iff.
    destruct Hlow; [left; apply N.leb_gt|right; apply N.leb_gt]; lia.
  - apply N.eqb_neq. lia.
Qed.

(** The character after a gap: white space, or the head of what follows. *)
Lemma head_after_gap : forall gap e k x,
  blank gap = true ->
  (40 <= x <= 57)%N ->
  startsTerm e = true ->
  (isEmpty gap = true -> (hd 0%N e =? x)%N = false) ->
  (hd 0%N (gap ++ e ++ k) =? x)%N = false.
Proof.
  intros [|g gap] e k x H Hx He Hhead.
  - destruct e as [|c e]; [discriminate|]. cbn [app hd]. exact (Hhead eq_refl).
  - unfold blank in H. cbn [forallb] in H. apply andb_true_iff in H. destruct H as [Hg _].
    pose proof (whiteSpace_aside g Hg). cbn [app hd]. apply N.eqb_neq. lia.
Qed.

Lemma startsPrimary_term : forall s, startsPrimary s = true -> startsTerm s = true.
Proof.
  intros [|c s] H; [discriminate|]. cbn [startsPrimary startsTerm] in *.
  rewrite H. reflexivity.
Qed.

Lemma startsTerm_app : forall s k,
  startsTerm s = true -> startsTerm (s ++ k) = true.
Proof. intros [|c s] k H; [discriminate|exact H]. Qed.

Lemma startsPrimary_head : forall e x,
  startsPrimary e = true -> (x = 42 \/ x = 43 \/ x = 45 \/ x = 47)%N ->
  (hd 0%N e =? x)%N = false.
Proof.
  intros [|c e] x H Hx; [discriminate|]. cbn [startsPrimary hd] in *.
  apply N.eqb_neq. intro Heq. subst c.
  destruct Hx as [->|[->|[->| ->]]]; discriminate.
Qed.

Lemma startsTerm_head : forall e x,
  startsTerm e = true -> (x = 42 \/ x = 47)%N -> (hd 0%N e =? x)%N = false.
Proof.
  intros [|c e] x H Hx; [discriminate|]. cbn [startsTerm hd] in *.
  apply N.eqb_neq. intro Heq. subst c.
  destruct Hx as [->| ->]; discriminate.
Qed.

Lemma startsWith_head : forall x e,
  startsWith [x] e = false -> e <> [] -> (hd 0%N e =? x)%N = false.
Proof.
  intros x [|c e] H He; [contradiction He; reflexivity|].
  cbn [startsWith] in H. unfold unitEqb in H. cbn [hd].
  rewrite N.eqb_sym. destruct (x =? c)%N; [discriminate|reflexivity].
Qed.

(** How a strict term begins. *)
Lemma written_starts :
  (forall s, every strictLiteral s = true -> startsTerm (written s) = true)
  /\ (forall p, everyProduct strictLiteral p = true ->
                startsTerm (writtenProduct p) = true)
  /\ (forall u, everyUnary strictLiteral u = true ->
                startsTerm (writtenUnary u) = true)
  /\ (forall a, everyPrimary strictLiteral a = true ->
                startsPrimary (writtenPrimary a) = true).
Proof.
  apply term_mutind;
    cbn [every everyProduct everyUnary everyPrimary
         written writtenProduct writtenUnary writtenPrimary].
  - intros p IHp H. exact (IHp H).
  - intros s IHs g1 g2 p IHp H. apply andb_true_iff in H. apply startsTerm_app, IHs, H.
  - intros s IHs g1 g2 p IHp H. apply andb_true_iff in H. apply startsTerm_app, IHs, H.
  - intros u IHu H. exact (IHu H).
  - intros p IHp g1 g2 u IHu H. apply andb_true_iff in H. apply startsTerm_app, IHp, H.
  - intros p IHp g1 g2 u IHu H. apply andb_true_iff in H. apply startsTerm_app, IHp, H.
  - intros a IHa H. apply startsPrimary_term, IHa, H.
  - intros g a IHa H. reflexivity.
  - intros g a IHa H. reflexivity.
  - intros [w fr] H. unfold strictLiteral, decimalLiteral in H. cbn [whole fraction] in H.
    unfold writtenLiteral. cbn [whole fraction].
    destruct w as [|d ds].
    + destruct fr as [fs|]; [reflexivity|].
      cbn [forallb isEmpty negb andb] in H. discriminate.
    + cbn [forallb] in H. cbn [app startsPrimary].
      destruct (isDigit d); [reflexivity|discriminate].
  - intros g1 s IHs g2 H. reflexivity.
Qed.

Lemma scan_plus : forall b rest,
  (hd 0%N rest =? 43)%N = false ->
  scan (Between b) (43%N :: rest) = emit TPlus (scan (Between false) rest).
Proof. intros b rest H. rewrite scan_between_cons, H. reflexivity. Qed.

Lemma scan_minus : forall b rest,
  (hd 0%N rest =? 45)%N = false ->
  scan (Between b) (45%N :: rest) = emit TMinus (scan (Between false) rest).
Proof. intros b rest H. rewrite scan_between_cons, H. reflexivity. Qed.

Lemma scan_star : forall b rest,
  (hd 0%N rest =? 42)%N = false ->
  scan (Between b) (42%N :: rest) = emit TStar (scan (Between false) rest).
Proof. intros b rest H. rewrite scan_between_cons, H. reflexivity. Qed.

Lemma scan_slash : forall rest,
  (hd 0%N rest =? 47)%N = false ->
  (hd 0%N rest =? 42)%N = false ->
  scan (Between true) (47%N :: rest) = emit TSlash (scan (Between false) rest).
Proof. intros rest H1 H2. rewrite scan_between_cons, H1, H2. reflexivity. Qed.

(** A strict term, followed by anything but a digit or a dot, is read
    into its tokens. *)
Lemma scan_written :
  (forall s, every strictLiteral s = true -> spaced s = true ->
     forall b k, closes k = true ->
       scan (Between b) (written s ++ k) = emitAll (tokens s) (scan (Between true) k))
  /\ (forall p, everyProduct strictLiteral p = true -> spacedProduct p = true ->
        forall b k, closes k = true ->
          scan (Between b) (writtenProduct p ++ k)
          = emitAll (tokensProduct p) (scan (Between true) k))
  /\ (forall u, everyUnary strictLiteral u = true -> spacedUnary u = true ->
        forall b k, closes k = true ->
          scan (Between b) (writtenUnary u ++ k)
          = emitAll (tokensUnary u) (scan (Between true) k))
  /\ (forall a, everyPrimary strictLiteral a = true -> spacedPrimary a = true ->
        forall b k, closes k = true ->
          scan (Between b) (writtenPrimary a ++ k)
          = emitAll (tokensPrimary a) (scan (Between true) k)).
Proof.
  apply term_mutind;
    cbn [every everyProduct everyUnary everyPrimary
         spaced spacedProduct spacedUnary spacedPrimary
         written writtenProduct writtenUnary writtenPrimary
         tokens tokensProduct tokensUnary tokensPrimary].
  - intros p IHp H Hsp. exact (IHp H Hsp).
  - (* Add *)
    intros s IHs g1 g2 p IHp H Hsp b k Hk.
    apply andb_true_iff in H. destruct H as [Hs Hp].
    apply andb_true_iff in Hsp. destruct Hsp as [Hsp Hpp].
    apply andb_true_iff in Hsp. destruct Hsp as [Hsp Hadj].
    apply andb_true_iff in Hsp. destruct Hsp as [Hsp Hg2].
    apply andb_true_iff in Hsp. destruct Hsp as [Hss Hg1].
    apply negb_true_iff in Hadj.
    pose proof (proj1 (proj2 written_starts) p Hp) as Hstart.
    replace ((written s ++ g1 ++ lit "+" ++ g2 ++ writtenProduct p) ++ k)
      with (written s ++ g1 ++ 43%N :: g2 ++ writtenProduct p ++ k)
      by (rewrite <- !app_assoc; reflexivity).
    rewrite (IHs Hs Hss b _ (closes_gap g1 43%N _ Hg1 eq_refl)), emitAll_app.
    rewrite (scan_gap g1 true _ Hg1), scan_plus, (scan_gap g2 false _ Hg2).
    + rewrite (IHp Hp Hpp false k Hk). reflexivity.
    + apply head_after_gap; [exact Hg2|lia|exact Hstart|].
      intro Hempty. rewrite Hempty in Hadj. cbn [andb] in Hadj.
      apply startsWith_head; [exact Hadj|].
      destruct (writtenProduct p); [discriminate|discriminate].
  - (* Sub *)
    intros s IHs g1 g2 p IHp H Hsp b k Hk.
    apply andb_true_iff in H. destruct H as [Hs Hp].
    apply andb_true_iff in Hsp. destruct Hsp as [Hsp Hpp].
    apply andb_true_iff in Hsp. destruct Hsp as [Hsp Hadj].
    apply andb_true_iff in Hsp. destruct Hsp as [Hsp Hg2].
    apply andb_true_iff in Hsp. destruct Hsp as [Hss Hg1].
    apply negb_true_iff in Hadj.
    pose proof (proj1 (proj2 written_starts) p Hp) as Hstart.
    replace ((written s ++ g1 ++ lit "-" ++ g2 ++ writtenProduct p) ++ k)
      with (written s ++ g1 ++ 45%N :: g2 ++ writtenProduct p ++ k)
      by (rewrite <- !app_assoc; reflexivity).
    rewrite (IHs Hs Hss b _ (closes_gap g1 45%N _ Hg1 eq_refl)), emitAll_app.
    rewrite (scan_gap g1 true _ Hg1), scan_minus, (scan_gap g2 false _ Hg2).
    + rewrite (IHp Hp Hpp false k Hk). reflexivity.
    + apply head_after_gap; [exact Hg2|lia|exact Hstart|].
      intro Hempty. rewrite Hempty in Hadj. cbn [andb] in Hadj.
      apply startsWith_head; [exact Hadj|].
      destruct (writtenProduct p); [discriminate|discriminate].
  - intros u IHu H Hsp. exact (IHu H Hsp).
  - (* Mul *)
    intros p IHp g1 g2 u IHu H Hsp b k Hk.
    apply andb_true_iff in H. destruct H as [Hp Hu].
    apply andb_true_iff in Hsp. destruct Hsp as [Hsp Huu].
    apply andb_true_iff in Hsp. destruct Hsp as [Hsp Hg2].
    apply andb_true_iff in Hsp. destruct Hsp as [Hpp Hg1].
    pose proof (proj1 (proj2 (proj2 written_starts)) u Hu) as Hstart.
    replace ((writtenProduct p ++ g1 ++ lit "*" ++ g2 ++ writtenUnary u) ++ k)
      with (writtenProduct p ++ g1 ++ 42%N :: g2 ++ writtenUnary u ++ k)
      by (rewrite <- !app_assoc; reflexivity).
    rewrite (IHp Hp Hpp b _ (closes_gap g1 42%N _ Hg1 eq_refl)), emitAll_app.
    rewrite (scan_gap g1 true _ Hg1), scan_star, (scan_gap g2 false _ Hg2).
    + rewrite (IHu Hu Huu false k Hk). reflexivity.
    + apply head_after_gap; [exact Hg2|lia|exact Hstart|].
      intros _. apply startsTerm_head; [exact Hstart|left; reflexivity].
  - (* Div *)
    intros p IHp g1 g2 u IHu H Hsp b k Hk.
    apply andb_true_iff in H. destruct H as [Hp Hu].
    apply andb_true_iff in Hsp. destruct Hsp as [Hsp Huu].
    apply andb_true_iff in Hsp. destruct Hsp as [Hsp Hg2].
    apply andb_true_iff in Hsp. destruct Hsp as [Hpp Hg1].
    pose proof (proj1 (proj2 (proj2 written_starts)) u Hu) as Hstart.
    replace ((writtenProduct p ++ g1 ++ lit "/" ++ g2 ++ writtenUnary u) ++ k)
      with (writtenProduct p ++ g1 ++ 47%N :: g2 ++ writtenUnary u ++ k)
      by (rewrite <- !app_assoc; reflexivity).
    rewrite (IHp Hp Hpp b _ (closes_gap g1 47%N _ Hg1 eq_refl)), emitAll_app.
    rewrite (scan_gap g1 true _ Hg1), scan_slash, (scan_gap g2 false _ Hg2).
    + rewrite (IHu Hu Huu false k Hk). reflexivity.
    + apply head_after_gap; [exact Hg2|lia|exact Hstart|].
      intros _. apply startsTerm_head; [exact Hstart|right; reflexivity].
    + apply head_after_gap; [exact Hg2|lia|exact Hstart|].
      intros _. apply startsTerm_head; [exact Hstart|left; reflexivity].
  - intros a IHa H Hsp. exact (IHa H Hsp).
  - (* Neg *)
    intros g a IHa H Hsp b k Hk.
    apply andb_true_iff in Hsp. destruct Hsp as [Hg Haa].
    pose proof (proj2 (proj2 (proj2 written_starts)) a H) as Hstart.
    replace ((lit "-" ++ g ++ writtenPrimary a) ++ k)
      with (45%N :: g ++ writtenPrimary a ++ k)
      by (rewrite <- !app_assoc; reflexivity).
    rewrite scan_minus, (scan_gap g false _ Hg).
    + rewrite (IHa H Haa false k Hk). reflexivity.
    + apply head_after_gap; [exact Hg|lia|apply startsPrimary_term; exact Hstart|].
      intros _. apply startsPrimary_head; [exact Hstart|right; right; left; reflexivity].
  - (* Pos *)
    intros g a IHa H Hsp b k Hk.
    apply andb_true_iff in Hsp. destruct Hsp as [Hg Haa].
    pose proof (proj2 (proj2 (proj2 written_starts)) a H) as Hstart.
    replace ((lit "+" ++ g ++ writtenPrimary a) ++ k)
      with (43%N :: g ++ writtenPrimary a ++ k)
      by (rewrite <- !app_assoc; reflexivity).
    rewrite scan_plus, (scan_gap g false _ Hg).
    + rewrite (IHa H Haa false k Hk). reflexivity.
    + apply head_after_gap; [exact Hg|lia|apply startsPrimary_term; exact Hstart|].
      intros _. apply startsPrimary_head; [exact Hstart|right; left; reflexivity].
  - intros l H _ b k Hk. apply scan_literal; assumption.
  - (* Group *)
    intros g1 s IHs g2 H Hsp b k Hk.
    apply andb_true_iff in Hsp. destruct Hsp as [Hsp Hg2].
    apply andb_true_iff in Hsp. destruct Hsp as [Hg1 Hss].
    replace ((lit "(" ++ g1 ++ written s ++ g2 ++ lit ")") ++ k)
      with (lit "(" ++ g1 ++ written s ++ g2 ++ (41%N : codeunit) :: k)
      by (rewrite <- !app_assoc; reflexivity).
    change (scan (Between b) (lit "(" ++ g1 ++ written s ++ g2 ++ (41%N : codeunit) :: k))
      with (emit TOpen
              (scan (Between false) (g1 ++ written s ++ g2 ++ (41%N : codeunit) :: k))).
    rewrite (scan_gap g1 false _ Hg1).
    rewrite (IHs H Hss false _ (closes_gap g2 (41%N : codeunit) k Hg2 eq_refl)).
    rewrite (scan_gap g2 true _ Hg2).
    change (scan (Between true) (41%N :: k)) with (emit TClose (scan (Between true) k)).
    cbn [emitAll fold_right]. fold (emitAll (tokens s ++ [TClose]) (scan (Between true) k)).
    rewrite emitAll_app. reflexivity.
Qed.

(** The engine returns the value of a strict term, whatever white space
    surrounds it. *)
Lemma evaluate_written : forall s before after,
  strict s = true -> blank before = true -> blank after = true ->
  evaluate (before ++ written s ++ after) = Returns (value s).
Proof.
  intros s before after H Hb Ha. unfold strict in H.
  apply andb_true_iff in H. destruct H as [Hlit Hsp]. unfold evaluate.
  rewrite (scan_gap before false _ Hb).
  rewrite (proj1 scan_written s Hlit Hsp false after (closes_blank after Ha)).
  rewrite <- (app_nil_r after), (scan_gap after true [] Ha).
  change (scan (Between true) []) with (Tokens []).
  rewrite emitAll_tokens, app_nil_r, parse_term. reflexivity.
Qed.

End Scanning.

(** *** [calculate] on written terms *)

Lemma digits_allowed : forall ds,
  forallb SpecArith.isDigit ds = true -> forallb Command.allowedUnit ds = true.
Proof.
  induction ds as [|d ds IH]; intro H; [reflexivity|].
  cbn [forallb] in *. apply andb_true_iff in H. destruct H as [Hd Hds].
  rewrite (digit_allowed d Hd), (IH Hds). reflexivity.
Qed.

Lemma blank_allowed : forall gap,
  Arith.blank gap = true -> forallb Command.allowedUnit gap = true.
Proof.
  induction gap as [|c gap IH]; intro H; [reflexivity|].
  unfold Arith.blank in H. cbn [forallb] in *.
  apply andb_true_iff in H. destruct H as [Hc Hg].
  rewrite (IH Hg), andb_true_r. unfold Command.allowedUnit. rewrite Hc.
  apply orb_true_r.
Qed.

Lemma written_allowed :
  (forall s, Arith.every Arith.strictLiteral s = true -> Arith.spaced s = true ->
             forallb Command.allowedUnit (Arith.written s) = true)
  /\ (forall p, Arith.everyProduct Arith.strictLiteral p = true ->
                Arith.spacedProduct p = true ->
                forallb Command.allowedUnit (Arith.writtenProduct p) = true)
  /\ (forall u, Arith.everyUnary Arith.strictLiteral u = true ->
                Arith.spacedUnary u = true ->
                forallb Command.allowedUnit (Arith.writtenUnary u) = true)
  /\ (forall a, Arith.everyPrimary Arith.strictLiteral a = true ->
                Arith.spacedPrimary a = true ->
                forallb Command.allowedUnit (Arith.writtenPrimary a) = true).
Proof.
  apply Arith.term_mutind;
    cbn [Arith.every Arith.everyProduct Arith.everyUnary Arith.everyPrimary
         Arith.spaced Arith.spacedProduct Arith.spacedUnary Arith.spacedPrimary
         Arith.written Arith.writtenProduct Arith.writtenUnary Arith.writtenPrimary].
  - intros p IHp H Hsp. exact (IHp H Hsp).
  - intros s IHs g1 g2 p IHp H Hsp.
    apply andb_true_iff in H. destruct H as [Hs Hp].
    apply andb_true_iff in Hsp. destruct Hsp as [Hsp Hpp].
    apply andb_true_iff in Hsp. destruct Hsp as [Hsp _].
    apply andb_true_iff in Hsp. destruct Hsp as [Hsp Hg2].
    apply andb_true_iff in Hsp. destruct Hsp as [Hss Hg1].
    rewrite !forallb_app, (IHs Hs Hss), (IHp Hp Hpp),
      (blank_allowed g1 Hg1), (blank_allowed g2 Hg2). reflexivity.
  - intros s IHs g1 g2 p IHp H Hsp.
    apply andb_true_iff in H. destruct H as [Hs Hp].
    apply andb_true_iff in Hsp. destruct Hsp as [Hsp Hpp].
    apply andb_true_iff in Hsp. destruct Hsp as [Hsp _].
    apply andb_true_iff in Hsp. destruct Hsp as [Hsp Hg2].
    apply andb_true_iff in Hsp. destruct Hsp as [Hss Hg1].
    rewrite !forallb_app, (IHs Hs Hss), (IHp Hp Hpp),
      (blank_allowed g1 Hg1), (blank_allowed g2 Hg2). reflexivity.
  - intros u IHu H Hsp. exact (IHu H Hsp).
  - intros p IHp g1 g2 u IHu H Hsp.
    apply andb_true_iff in H. destruct H as [Hp Hu].
    apply andb_true_iff in Hsp. destruct Hsp as [Hsp Huu].
    apply andb_true_iff in Hsp. destruct Hsp as [Hsp Hg2].
    apply andb_true_iff in Hsp. destruct Hsp as [Hpp Hg1].
    rewrite !forallb_app, (IHp Hp Hpp), (IHu Hu Huu),
      (blank_allowed g1 Hg1), (blank_allowed g2 Hg2). reflexivity.
  - intros p IHp g1 g2 u IHu H Hsp.
    apply andb_true_iff in H. destruct H as [Hp Hu].
    apply andb_true_iff in Hsp. destruct Hsp as [Hsp Huu].
    apply andb_true_iff in Hsp. destruct Hsp as [Hsp Hg2].
    apply andb_true_iff in Hsp. destruct Hsp as [Hpp Hg1].
    rewrite !forallb_app, (IHp Hp Hpp), (IHu Hu Huu),
      (blank_allowed g1 Hg1), (blank_allowed g2 Hg2). reflexivity.
  - intros a IHa H Hsp. exact (IHa H Hsp).
  - intros g a IHa H Hsp. apply andb_true_iff in Hsp. destruct Hsp as [Hg Haa].
    rewrite !forallb_app, (IHa H Haa), (blank_allowed g Hg). reflexivity.
  - intros g a IHa H Hsp. apply andb_true_iff in Hsp. destruct Hsp as [Hg Haa].
    rewrite !forallb_app, (IHa H Haa), (blank_allowed g Hg). reflexivity.
  - intros [w fr] H _. unfold Arith.strictLiteral, Arith.decimalLiteral in H.
    cbn [Arith.whole Arith.fraction] in H.
    apply andb_true_iff in H. destruct H as [H _].
    apply andb_true_iff in H. destruct H as [Hw Hfr].
    unfold Arith.writtenLiteral. cbn [Arith.whole Arith.fraction].
    rewrite forallb_app, (digits_allowed w Hw).
    destruct fr as [fs|]; [|reflexivity].
    apply andb_true_iff in Hfr. destruct Hfr as [Hfs _].
    change (forallb Command.allowedUnit (46%N :: fs))
      with (forallb Command.allowedUnit fs).
    rewrite (digits_allowed _ Hfs). reflexivity.
  - intros g1 s IHs g2 H Hsp.
    apply andb_true_iff in Hsp. destruct Hsp as [Hsp Hg2].
    apply andb_true_iff in Hsp. destruct Hsp as [Hg1 Hss].
    rewrite !forallb_app, (IHs H Hss), (blank_allowed g1 Hg1), (blank_allowed g2 Hg2).
    reflexivity.
Qed.

Lemma written_whitelisted : forall s before after,
  Arith.strict s = true -> Arith.blank before = true -> Arith.blank after = true ->
  Command.whitelisted (before ++ Arith.written s ++ after) = true.
Proof.
  intros s before after H Hb Ha. unfold Arith.strict in H.
  apply andb_true_iff in H. destruct H as [Hlit Hsp].
  unfold Command.whitelisted.
  rewrite !forallb_app, (proj1 written_allowed s Hlit Hsp),
    (blank_allowed before Hb), (blank_allowed after Ha), andb_true_r.
  pose proof (proj1 written_starts s Hlit) as Hstart.
  destruct (Arith.written s) as [|c e]; [discriminate|].
  destruct before; reflexivity.
Qed.

Lemma expressionOf_functionBody : forall expression,
  Engine.expressionOf (Command.functionBody expression) = Some expression.
Proof.
  intro expression. unfold Engine.expressionOf.
  change (Command.functionBody expression)
    with (Engine.bodyPrefix ++ (expression ++ [41%N])).
  rewrite startsWith_app.
  rewrite (app_assoc Engine.bodyPrefix expression [41%N]) at 1.
  rewrite last_last. cbn [N.eqb Pos.eqb andb].
  replace (skipn (List.length Engine.bodyPrefix)
             (Engine.bodyPrefix ++ (expression ++ [41%N])))
    with (expression ++ [41%N]) by reflexivity.
  rewrite removelast_last. reflexivity.
Qed.

(** Over the engine, [calculate] answers a strict term with its value. *)
Lemma calculate_written :
  forall (failure : jsstring -> JsError) (h : Command.Host) (args : list jsstring)
         (t : Arith.Sum) (before after : jsstring),
    Arith.strict t = true ->
    Arith.blank before = true ->
    Arith.blank after = true ->
    join (lit " ") args = before ++ Arith.written t ++ after ->
    Command.calculate (Engine.host failure h) args
    = ([Command.FunctionEval (Command.functionBody (join (lit " ") args))],
       Normal (if isFinite (Arith.value t)
               then Command.responseResult
                      (Spec.calcResponseText (Engine.host failure h)
                         (join (lit " ") args) (Arith.value t))
               else Command.errorResult
                      (Spec.invalidExpressionText (join (lit " ") args)))).
Proof.
  intros failure h args t before after Hstrict Hb Ha Hjoin.
  pose proof (written_whitelisted t before after Hstrict Hb Ha) as Hw.
  destruct args as [|a args].
  - rewrite <- Hjoin in Hw. discriminate.
  - rewrite calculate_run. cbv zeta. rewrite Hjoin, Hw.
    change (Command.evalFunction (Engine.host failure h)
              (Command.functionBody (before ++ Arith.written t ++ after)))
      with (Engine.evalFunction failure h
              (Command.functionBody (before ++ Arith.written t ++ after))).
    unfold Engine.evalFunction.
    rewrite expressionOf_functionBody, (evaluate_written t before after Hstrict Hb Ha).
    reflexivity.
Qed.




(** C10.  [calculate] never throws: on every argument list it returns a
    command result.  Without argument the result is the missing-expression
    error.  Otherwise a joined expression that fails the whitelist, an
    evaluation that throws, a value that is no number and a number that is
    not finite all give the one error [Invalid math expression:] followed
    by the expression in double quotes; the only other result is the
    response carrying a finite value. *)
Theorem calculate_total :
  forall (h : Command.Host) (args : list jsstring),
  exists t r,
    Command.calculate h args = (t, Normal r)
    /\ Command.isCommand r = true
    /\ (args = [] ->
        r = Command.errorResult
              (lit "Please provide a math expression. Example: /calc 2 + 2"))
    /\ (args <> [] ->
        (Command.whitelisted (join (lit " ") args) = false ->
         t = [] /\ r = Command.errorResult
                         (Spec.invalidExpressionText (join (lit " ") args)))
        /\ (forall e,
               Command.whitelisted (join (lit " ") args) = true ->
               Command.evalFunction h (Command.functionBody (join (lit " ") args))
               = Throw e ->
               r = Command.errorResult (Spec.invalidExpressionText (join (lit " ") args)))
        /\ (Command.whitelisted (join (lit " ") args) = true ->
            Command.evalFunction h (Command.functionBody (join (lit " ") args))
            = Normal Command.VOther ->
            r = Command.errorResult (Spec.invalidExpressionText (join (lit " ") args)))
        /\ (forall x,
               Command.whitelisted (join (lit " ") args) = true ->
               Command.evalFunction h (Command.functionBody (join (lit " ") args))
               = Normal (Command.VNumber x) ->
               isFinite x = false ->
               r = Command.errorResult (Spec.invalidExpressionText (join (lit " ") args)))
        /\ (r = Command.errorResult (Spec.invalidExpressionText (join (lit " ") args))
            \/ exists x,
                 isFinite x = true
                 /\ r = Command.responseResult
                          (Spec.calcResponseText h (join (lit " ") args) x))).
Proof.
  intros h [|a args].
  - eexists _, _. split; [reflexivity|]. split; [reflexivity|]. split; [reflexivity|].
    intro H. contradiction H. reflexivity.
  - rewrite calculate_run. cbv zeta.
    destruct (Command.whitelisted (join (lit " ") (a :: args))) eqn:Hw.
    + eexists _, _. split; [reflexivity|].
      destruct (Command.evalFunction h _) as [[x|]|e0] eqn:He; [destruct (isFinite x) eqn:Hf| |];
        (split; [reflexivity|]); (split; [discriminate|]); intros _;
        repeat split; try discriminate; try reflexivity; try congruence;
        try (left; reflexivity).
      right. exists x. split; [exact Hf|reflexivity].
    + eexists _, _. split; [reflexivity|]. split; [reflexivity|].
      split; [discriminate|]. intros _.
      repeat split; try discriminate; try reflexivity. left. reflexivity.
Qed.

(** C10 on [calculate(["2;", "DROP", "TABLE"])], which fails the whitelist. *)
Lemma calculate_total_witness :
  exists t r,
    Command.calculate TestDouble.happyHost [lit "2;"; lit "DROP"; lit "TABLE"]
    = (t, Normal r)
    /\ t = []
    /\ r = Command.errorResult (Spec.invalidExpressionText (lit "2; DROP TABLE")).
Proof.
  destruct (calculate_total TestDouble.happyHost [lit "2;"; lit "DROP"; lit "TABLE"])
    as (t & r & Hrun & _ & _ & Hrest).
  exists t, r. split; [exact Hrun|].
  exact (proj1 (Hrest ltac:(discriminate)) eq_refl).
Defined.

(* ------------------------------------------------------------------ *)
(** * Further properties of the router *)

Lemma normalizedUrl_hasProtocol : forall args,
  Command.hasProtocol (Spec.normalizedUrl args) = true.
Proof.
  intro args. unfold Spec.normalizedUrl.
  destruct (Command.hasProtocol (join (lit " ") args)) eqn:E; [exact E|].
  unfold Command.hasProtocol.
  rewrite (startsWith_app (lit "https://") (join (lit " ") args)).
  apply orb_true_r.
Qed.

(** What a command leaves behind: a result that is a command, that
    carries a non-empty error or else a non-empty response, the host call
    of its own capability at most, and a request for the model only from
    [clipboard], after reading a text that is not blank. *)
Lemma dispatch_shape : forall (h : Command.Host) command args,
  exists t r,
    Command.dispatch h command args = (t, Normal r)
    /\ Command.isCommand r = true
    /\ ((exists e, Command.error r = Some e /\ e <> [])
        \/ (Command.error r = None
            /\ exists s, Command.response r = Some s /\ s <> []))
    /\ RouterSpec.commandTrace command args t
    /\ ((Command.shouldContinueToLLM r = None /\ Command.clipboardContent r = None)
        \/ (command = lit "clipboard"
            /\ t = [Command.ClipboardRead]
            /\ Command.error r = None
            /\ Command.shouldContinueToLLM r = Some true
            /\ exists c, Command.clipboardContent r = Some c /\ trim c <> [])).
Proof.
  intros h command args. unfold Command.dispatch.
  assert (Herr : forall t msg,
             msg <> [] ->
             RouterSpec.commandTrace command args t ->
             Command.isCommand (Command.errorResult msg) = true
             /\ ((exists e, Command.error (Command.errorResult msg) = Some e /\ e <> [])
                 \/ (Command.error (Command.errorResult msg) = None
                     /\ exists s, Command.response (Command.errorResult msg) = Some s
                                  /\ s <> []))
             /\ RouterSpec.commandTrace command args t
             /\ ((Command.shouldContinueToLLM (Command.errorResult msg) = None
                  /\ Command.clipboardContent (Command.errorResult msg) = None)
                 \/ (command = lit "clipboard"
                     /\ t = [Command.ClipboardRead]
                     /\ Command.error (Command.errorResult msg) = None
                     /\ Command.shouldContinueToLLM (Command.errorResult msg) = Some true
                     /\ exists c, Command.clipboardContent (Command.errorResult msg) = Some c
                                  /\ trim c <> []))).
  { intros t msg Hmsg Ht. split; [reflexivity|]. split.
    - left. exists msg. split; [reflexivity|exact Hmsg].
    - split; [exact Ht|]. left. split; reflexivity. }
  assert (Hresp : forall t msg,
             msg <> [] ->
             RouterSpec.commandTrace command args t ->
             Command.isCommand (Command.responseResult msg) = true
             /\ ((exists e, Command.error (Command.responseResult msg) = Some e /\ e <> [])
                 \/ (Command.error (Command.responseResult msg) = None
                     /\ exists s, Command.response (Command.responseResult msg) = Some s
                                  /\ s <> []))
             /\ RouterSpec.commandTrace command args t
             /\ ((Command.shouldContinueToLLM (Command.responseResult msg) = None
                  /\ Command.clipboardContent (Command.responseResult msg) = None)
                 \/ (command = lit "clipboard"
                     /\ t = [Command.ClipboardRead]
                     /\ Command.error (Command.responseResult msg) = None
                     /\ Command.shouldContinueToLLM (Command.responseResult msg) = Some true
                     /\ exists c, Command.clipboardContent (Command.responseResult msg) = Some c
                                  /\ trim c <> []))).
  { intros t msg Hmsg Ht. split; [reflexivity|]. split.
    - right. split; [reflexivity|]. exists msg. split; [reflexivity|exact Hmsg].
    - split; [exact Ht|]. left. split; reflexivity. }
  destruct (strEqb command (lit "help")).
  { eexists _, _. split; [reflexivity|]. apply Hresp; [discriminate|left; reflexivity]. }
  destruct (strEqb command (lit "open")) eqn:Hopen.
  { apply strEqb_eq in Hopen. destruct args as [|a args].
    - eexists _, _. split; [reflexivity|]. apply Herr; [discriminate|left; reflexivity].
    - rewrite openWebsite_run. eexists _, _. split; [reflexivity|].
      destruct (Command.windowOpen h _ _).
      + apply Hresp; [discriminate|right; left; split; [exact Hopen|reflexivity]].
      + apply Herr; [discriminate|right; left; split; [exact Hopen|reflexivity]]. }
  destruct (strEqb command (lit "calc") || strEqb command (lit "calculate")) eqn:Hcalc.
  { assert (Hc : command = lit "calc" \/ command = lit "calculate").
    { apply orb_true_iff in Hcalc. destruct Hcalc as [E|E]; apply strEqb_eq in E; auto. }
    destruct args as [|a args].
    - eexists _, _. split; [reflexivity|]. apply Herr; [discriminate|left; reflexivity].
    - rewrite calculate_run. cbv zeta.
      destruct (Command.whitelisted (join (lit " ") (a :: args))) eqn:Hw.
      + assert (Htr : RouterSpec.commandTrace command (a :: args)
                        [Command.FunctionEval
                           (Command.functionBody (join (lit " ") (a :: args)))]).
        { right. right. left. split; [exact Hc|]. split; [exact Hw|reflexivity]. }
        eexists _, _. split; [reflexivity|].
        destruct (Command.evalFunction h _) as [[x|]|e0]; [destruct (isFinite x)| |].
        * apply Hresp; [discriminate|exact Htr].
        * apply Herr; [discriminate|exact Htr].
        * apply Herr; [discriminate|exact Htr].
        * apply Herr; [discriminate|exact Htr].
      + eexists _, _. split; [reflexivity|].
        apply Herr; [discriminate|left; reflexivity]. }
  destruct (strEqb command (lit "clipboard")) eqn:Hclip.
  { apply strEqb_eq in Hclip. rewrite summarizeClipboard_run.
    assert (Htr : RouterSpec.commandTrace command args [Command.ClipboardRead]).
    { right. right. right. split; [exact Hclip|reflexivity]. }
    destruct (Command.clipboard h) as [| |[clipboardText|e0]].
    - eexists _, _. split; [reflexivity|]. apply Herr; [discriminate|left; reflexivity].
    - eexists _, _. split; [reflexivity|]. apply Herr; [discriminate|left; reflexivity].
    - eexists _, _. split; [reflexivity|].
      destruct (strEqb (trim clipboardText) []) eqn:Hblank.
      + apply Herr; [discriminate|exact Htr].
      + apply strEqb_neq in Hblank. split; [reflexivity|]. split.
        * right. split; [reflexivity|]. eexists. split; [reflexivity|discriminate].
        * split; [exact Htr|]. right.
          repeat split; try assumption. exists clipboardText. split; [reflexivity|assumption].
    - eexists _, _. split; [reflexivity|]. apply Herr; [discriminate|exact Htr]. }
  eexists _, _. split; [reflexivity|]. apply Herr; [discriminate|left; reflexivity].
Qed.

Lemma help_run :
  forall (h : Command.Host) (input : jsstring) (ctx : Command.ChatContext),
    Spec.isCommandInput input = true ->
    Spec.commandToken h input = lit "help" ->
    Command.runCommandOrChat h input ctx = ([], Normal Command.helpText).
Proof.
  intros h input ctx Hcmd Htok.
  assert (Hrun : Command.processInput h input = ([], Normal (Command.showHelp))).
  { rewrite (processInput_command h input Hcmd), Htok. reflexivity. }
  rewrite (runCommandOrChat_run h input ctx _ _ Hrun). reflexivity.
Qed.

(** X1.  [/help], in any letter case and whatever follows it, answers the
    reference text of the commands without a single host call: no model
    client, no window, no clipboard, no evaluation. *)
Theorem help_command_is_static :
  forall (h : Command.Host) (input : jsstring) (ctx : Command.ChatContext),
    Spec.isCommandInput input = true ->
    Spec.commandToken h input = lit "help" ->
    Command.runCommandOrChat h input ctx = ([], Normal Command.helpText)
    /\ Command.chatCalls (Command.runCommandOrChat h input ctx) = 0.
Proof.
  intros h input ctx Hcmd Htok.
  rewrite (help_run h input ctx Hcmd Htok). split; reflexivity.
Qed.

(** X1 on ["  /HELP me please"]. *)
Lemma help_command_is_static_witness :
  Command.runCommandOrChat TestDouble.happyHost (lit "  /HELP me please") TestDouble.context
  = ([], Normal Command.helpText).
Proof.
  exact (proj1 (help_command_is_static TestDouble.happyHost (lit "  /HELP me please")
                  TestDouble.context eq_refl eq_refl)).
Defined.

(** X2.  [/clipboard] never fails for want of a clipboard: without the
    clipboard API the answer is the "not available" error, and when
    [navigator] is missing or the read is refused the answer is the
    "denied" error; in all three cases no model-client call is made and the
    thrown error is not shown. *)
Theorem clipboard_failures_are_reported :
  forall (h : Command.Host) (input : jsstring) (ctx : Command.ChatContext),
    Spec.isCommandInput input = true ->
    Spec.commandToken h input = lit "clipboard" ->
    (Command.clipboard h = Command.ClipboardUnavailable ->
     Command.runCommandOrChat h input ctx
     = ([], Normal (Command.crossMark
                      ++ lit " Clipboard access not available. Try copying text and asking me to summarize it directly.")))
    /\ (Command.clipboard h = Command.NavigatorUndefined ->
        Command.runCommandOrChat h input ctx
        = ([], Normal (Command.crossMark
                         ++ lit " Clipboard access denied. Try copying text and asking me to summarize it directly.")))
    /\ (forall e,
           Command.clipboard h = Command.ClipboardReadText (Throw e) ->
           Command.runCommandOrChat h input ctx
           = ([Command.ClipboardRead],
              Normal (Command.crossMark
                        ++ lit " Clipboard access denied. Try copying text and asking me to summarize it directly."))).
Proof.
  intros h input ctx Hcmd Htok.
  pose proof (clipboard_command_run h input Hcmd Htok) as Hrun.
  rewrite summarizeClipboard_run in Hrun.
  split; [|split].
  - intro Hc. rewrite Hc in Hrun.
    rewrite (runCommandOrChat_run h input ctx _ _ Hrun). reflexivity.
  - intro Hc. rewrite Hc in Hrun.
    rewrite (runCommandOrChat_run h input ctx _ _ Hrun). reflexivity.
  - intros e Hc. rewrite Hc in Hrun.
    rewrite (runCommandOrChat_run h input ctx _ _ Hrun). reflexivity.
Qed.

(** X2 on a host without clipboard API and on one whose read is refused. *)
Lemma clipboard_failures_are_reported_witness :
  Command.runCommandOrChat
    (TestDouble.host (Normal (lit "Sure.")) (Normal tt) Command.ClipboardUnavailable)
    (lit "/clipboard") TestDouble.context
  = ([], Normal (Command.crossMark
                   ++ lit " Clipboard access not available. Try copying text and asking me to summarize it directly."))
  /\ Command.runCommandOrChat
       (TestDouble.host (Normal (lit "Sure.")) (Normal tt)
          (Command.ClipboardReadText (Throw (mkError (lit "NotAllowedError")))))
       (lit "/clipboard") TestDouble.context
     = ([Command.ClipboardRead],
        Normal (Command.crossMark
                  ++ lit " Clipboard access denied. Try copying text and asking me to summarize it directly.")).
Proof.
  split.
  - exact (proj1 (clipboard_failures_are_reported
                    (TestDouble.host (Normal (lit "Sure.")) (Normal tt)
                       Command.ClipboardUnavailable)
                    (lit "/clipboard") TestDouble.context eq_refl eq_refl) eq_refl).
  - exact (proj2 (proj2 (clipboard_failures_are_reported
                           (TestDouble.host (Normal (lit "Sure.")) (Normal tt)
                              (Command.ClipboardReadText
                                 (Throw (mkError (lit "NotAllowedError")))))
                           (lit "/clipboard") TestDouble.context eq_refl eq_refl))
                 (mkError (lit "NotAllowedError")) eq_refl).
Defined.

Lemma processInput_trim : forall (h : Command.Host) input input',
  trim input' = trim input ->
  Command.processInput h input' = Command.processInput h input.
Proof.
  intros h input input' H. unfold Command.processInput. rewrite H. reflexivity.
Qed.

Lemma command_result_is_command : forall (h : Command.Host) input t r,
  Spec.isCommandInput input = true ->
  Command.processInput h input = (t, Normal r) ->
  Command.isCommand r = true.
Proof.
  intros h input t r Hcmd Hrun.
  rewrite (processInput_command h input Hcmd) in Hrun.
  destruct (dispatch_run h (Spec.commandToken h input) (Spec.commandArgs input))
    as (t' & r' & Hd & Hc & _).
  rewrite Hd in Hrun. inversion Hrun; subst. exact Hc.
Qed.

(** X3.  The answer to a command depends on the input only through its
    trimmed form, and on the context only through the system prompt: white
    space around the command and the conversation history change
    nothing, neither in the host calls nor in the text returned. *)
Theorem command_run_ignores_padding_and_history :
  forall (h : Command.Host) (input input' system : jsstring)
         (history history' : list Command.LLMMessage),
    Spec.isCommandInput input = true ->
    trim input' = trim input ->
    Command.runCommandOrChat h input' (Command.mkContext system history')
    = Command.runCommandOrChat h input (Command.mkContext system history).
Proof.
  intros h input input' system history history' Hcmd Htrim.
  destruct (processInput_run h input) as (t & r & Hrun & _).
  pose proof (command_result_is_command h input t r Hcmd Hrun) as Hr.
  pose proof Hrun as Hrun'. rewrite <- (processInput_trim h input input' Htrim) in Hrun'.
  rewrite (runCommandOrChat_run h input _ t r Hrun).
  rewrite (runCommandOrChat_run h input' _ t r Hrun').
  rewrite Hr. reflexivity.
Qed.

(** X3 on [/calc 6 * 7], padded and with another history. *)
Lemma command_run_ignores_padding_and_history_witness :
  Command.runCommandOrChat TestDouble.happyHost (lit "   /calc 6 * 7  ")
    (Command.mkContext (lit "sys") [Spec.userMessage (lit "earlier")])
  = Command.runCommandOrChat TestDouble.happyHost (lit "/calc 6 * 7")
      (Command.mkContext (lit "sys") []).
Proof.
  exact (command_run_ignores_padding_and_history TestDouble.happyHost
           (lit "/calc 6 * 7") (lit "   /calc 6 * 7  ") (lit "sys") []
           [Spec.userMessage (lit "earlier")] eq_refl eq_refl).
Defined.

(** The run of a command: the host call of the command, if any, then
    either a non-empty text, or, for a clipboard that is not blank, the
    one model-client call on the summary prompt. *)
Lemma command_run_shape :
  forall (h : Command.Host) (input : jsstring) (ctx : Command.ChatContext),
    Spec.isCommandInput input = true ->
    exists t,
      RouterSpec.commandTrace (Spec.commandToken h input) (Spec.commandArgs input) t
      /\ ((exists text,
              text <> [] /\ Command.runCommandOrChat h input ctx = (t, Normal text))
          \/ (Spec.commandToken h input = lit "clipboard"
              /\ t = [Command.ClipboardRead]
              /\ exists c s,
                   trim c <> [] /\ s <> []
                   /\ Command.runCommandOrChat h input ctx
                      = ([Command.ClipboardRead;
                          Command.ChatCall (Command.system ctx)
                            [Spec.userMessage (Command.summaryPrompt c)]],
                         match Command.chat h (Command.system ctx)
                                 [Spec.userMessage (Command.summaryPrompt c)] with
                         | Normal summary =>
                             Normal (s ++ Command.nl ++ Command.nl ++ summary)
                         | Throw e => Throw e
                         end))).
Proof.
  intros h input ctx Hcmd.
  destruct (dispatch_shape h (Spec.commandToken h input) (Spec.commandArgs input))
    as (t & r & Hd & Hc & Hres & Ht & Hllm).
  assert (Hrun : Command.processInput h input = (t, Normal r)).
  { rewrite (processInput_command h input Hcmd). exact Hd. }
  exists t. split; [exact Ht|].
  rewrite (runCommandOrChat_run h input ctx t r Hrun). rewrite Hc. cbn [negb].
  destruct Hres as [(e & He & Hne)|(He & s & Hs & Hne)].
  - left. rewrite He. destruct e as [|c e]; [contradiction Hne; reflexivity|].
    cbn [truthyOpt truthyStr isEmpty negb]. eexists. split; [|reflexivity].
    discriminate.
  - rewrite He. cbn [truthyOpt].
    destruct Hllm as [[Hn1 Hn2]|(Htok & Htr & _ & Hgo & c & Hcc & Hc')].
    + left. rewrite Hn1. cbn [andb]. rewrite Hs.
      destruct s as [|x s]; [contradiction Hne; reflexivity|].
      cbn [truthyOpt truthyStr isEmpty negb Command.render].
      eexists. split; [|reflexivity]. discriminate.
    + right. split; [exact Htok|]. split; [exact Htr|].
      exists c, s. split; [exact Hc'|]. split; [exact Hne|].
      rewrite Hgo, Hcc, Hs, Htr.
      pose proof (trim_nonempty c Hc') as Hcne.
      destruct c as [|x c]; [contradiction Hcne; reflexivity|].
      reflexivity.
Qed.

(** X4.  One turn makes at most one call of each capability, and at most
    two in all: its host calls are none, or one model-client call, or one
    [window.open], or one evaluation, or one clipboard read, or a clipboard
    read followed by one model-client call. *)
Theorem run_makes_at_most_one_call_of_each :
  forall (h : Command.Host) (input : jsstring) (ctx : Command.ChatContext),
    Command.trace (Command.runCommandOrChat h input ctx) = []
    \/ (exists s m,
           Command.trace (Command.runCommandOrChat h input ctx) = [Command.ChatCall s m])
    \/ (exists u,
           Command.trace (Command.runCommandOrChat h input ctx)
           = [Command.WindowOpen u (lit "_blank")])
    \/ (exists src,
           Command.trace (Command.runCommandOrChat h input ctx)
           = [Command.FunctionEval src])
    \/ Command.trace (Command.runCommandOrChat h input ctx) = [Command.ClipboardRead]
    \/ (exists s m,
           Command.trace (Command.runCommandOrChat h input ctx)
           = [Command.ClipboardRead; Command.ChatCall s m]).
Proof.
  intros h input ctx. destruct (Spec.isCommandInput input) eqn:Hcmd.
  - destruct (command_run_shape h input ctx Hcmd)
      as (t & Ht & [(text & _ & Hrun)|(_ & _ & c & s & _ & _ & Hrun)]);
      rewrite Hrun; cbn [Command.trace fst].
    + destruct Ht as [Ht|[[_ Ht]|[(_ & _ & Ht)|[_ Ht]]]]; subst t.
      * left. reflexivity.
      * right. right. left. eexists. reflexivity.
      * right. right. right. left. eexists. reflexivity.
      * right. right. right. right. left. reflexivity.
    + right. right. right. right. right. eexists _, _. reflexivity.
  - right. left.
    rewrite (runCommandOrChat_run h input ctx [] Command.notCommand
               (processInput_chat h input Hcmd)).
    eexists _, _. reflexivity.
Qed.

(** X5.  [/open] never opens anything but a web address: every
    [window.open] of a run is on a URL that starts with [http://] or
    [https://], the one built from the arguments, and in a new tab. *)
Theorem opened_urls_have_protocol :
  forall (h : Command.Host) (input : jsstring) (ctx : Command.ChatContext)
         (url target : jsstring),
    In (Command.WindowOpen url target)
       (Command.trace (Command.runCommandOrChat h input ctx)) ->
    Command.hasProtocol url = true
    /\ url = Spec.normalizedUrl (Spec.commandArgs input)
    /\ target = lit "_blank".
Proof.
  intros h input ctx url target Hin.
  destruct (Spec.isCommandInput input) eqn:Hcmd.
  - destruct (command_run_shape h input ctx Hcmd)
      as (t & Ht & [(text & _ & Hrun)|(_ & _ & c & s & _ & _ & Hrun)]);
      rewrite Hrun in Hin; cbn [Command.trace fst] in Hin.
    + destruct Ht as [Ht|[[_ Ht]|[(_ & _ & Ht)|[_ Ht]]]]; subst t; cbn [In] in Hin.
      * contradiction.
      * destruct Hin as [Hin|[]]. inversion Hin; subst.
        split; [apply normalizedUrl_hasProtocol|]. split; reflexivity.
      * destruct Hin as [Hin|[]]. discriminate.
      * destruct Hin as [Hin|[]]. discriminate.
    + cbn [In] in Hin. destruct Hin as [Hin|[Hin|[]]]; discriminate.
  - rewrite (runCommandOrChat_run h input ctx [] Command.notCommand
               (processInput_chat h input Hcmd)) in Hin.
    cbn [negb Command.isCommand Command.notCommand Command.trace fst app In] in Hin.
    destruct Hin as [Hin|[]]. discriminate.
Qed.

(** X5 on [/open ftp://files.example.org], opened as
    [https://ftp://files.example.org]. *)
Lemma opened_urls_have_protocol_witness :
  Command.hasProtocol (lit "https://ftp://files.example.org") = true
  /\ lit "https://ftp://files.example.org"
     = Spec.normalizedUrl (Spec.commandArgs (lit "/open ftp://files.example.org"))
  /\ lit "_blank" = lit "_blank".
Proof.
  exact (opened_urls_have_protocol TestDouble.happyHost (lit "/open ftp://files.example.org")
           TestDouble.context (lit "https://ftp://files.example.org") (lit "_blank")
           (or_introl eq_refl)).
Defined.

(** ** Splitting and joining *)

Lemma split_nonempty : forall sep s, split sep s <> [].
Proof.
  intros sep s. destruct s as [|c rest]; simpl; [discriminate|].
  destruct (unitEqb c sep); [discriminate|].
  destruct (split sep rest); discriminate.
Qed.

Lemma join_cons_head : forall sep c w ws,
  join sep ((c :: w) :: ws) = c :: join sep (w :: ws).
Proof. intros sep c w [|x ws]; reflexivity. Qed.

(** [s.split(' ').join(' ')] is [s]. *)
Lemma join_split : forall s, join [32%N] (split 32%N s) = s.
Proof.
  induction s as [|c rest IH]; [reflexivity|].
  simpl split. destruct (unitEqb c 32%N) eqn:E.
  - apply N.eqb_eq in E. subst c.
    destruct (split 32%N rest) as [|w ws] eqn:Hs;
      [exfalso; exact (split_nonempty 32%N rest Hs)|].
    change (join [32%N] ([] :: w :: ws)) with (32%N :: join [32%N] (w :: ws)).
    rewrite IH. reflexivity.
  - destruct (split 32%N rest) as [|w ws] eqn:Hs;
      [exfalso; exact (split_nonempty 32%N rest Hs)|].
    rewrite join_cons_head. f_equal. exact IH.
Qed.

Lemma split_word : forall word rest,
  forallb (fun c => negb (unitEqb c 32%N)) word = true ->
  split 32%N (word ++ 32%N :: rest) = word :: split 32%N rest.
Proof.
  induction word as [|c word IH]; intros rest H.
  - reflexivity.
  - simpl in H. apply andb_true_iff in H. destruct H as [Hc Hw].
    apply negb_true_iff in Hc.
    change ((c :: word) ++ 32%N :: rest) with (c :: (word ++ 32%N :: rest)).
    simpl split. rewrite Hc, (IH rest Hw). reflexivity.
Qed.

(** X6.  Parsing loses nothing of what was typed: the command word and
    the arguments, joined by single spaces, are the trimmed input without
    its sigil, repeated spaces included.  So when the trimmed input is the
    sigil, a word without space, a space and a rest, the text that [/open]
    and [/calc] work on (the joined arguments) is that rest, unchanged. *)
Theorem arguments_rejoin_to_the_typed_text :
  forall (input : jsstring),
    join (lit " ") (Spec.commandParts input) = slice1 (trim input)
    /\ (forall word rest,
           trim input = lit "/" ++ word ++ lit " " ++ rest ->
           forallb (fun c => negb (unitEqb c 32%N)) word = true ->
           hd [] (Spec.commandParts input) = word
           /\ join (lit " ") (Spec.commandArgs input) = rest).
Proof.
  intro input. split.
  - unfold Spec.commandParts. apply join_split.
  - intros word rest Htrim Hword.
    unfold Spec.commandArgs, Spec.commandParts. rewrite Htrim.
    change (slice1 (lit "/" ++ word ++ lit " " ++ rest)) with (word ++ 32%N :: rest).
    rewrite (split_word word rest Hword). cbn [hd tl].
    split; [reflexivity|]. apply join_split.
Qed.

(** X6 on ["/calc 2  +  2 "]: the expression keeps its double spaces. *)
Lemma arguments_rejoin_to_the_typed_text_witness :
  hd [] (Spec.commandParts (lit "/calc 2  +  2 ")) = lit "calc"
  /\ join (lit " ") (Spec.commandArgs (lit "/calc 2  +  2 ")) = lit "2  +  2".
Proof.
  exact (proj2 (arguments_rejoin_to_the_typed_text (lit "/calc 2  +  2 "))
               (lit "calc") (lit "2  +  2") eq_refl eq_refl).
Defined.

(** ** The router over the model client of [llm.ts] *)

(** X7.  Over the model client of [llm.ts] the router never answers with
    an empty text: an answer is the model's trimmed, non-empty text, or the
    text of a command, or the failure marker and an error. *)
Theorem answers_are_never_empty :
  forall (lh : Llm.Host) (h : Command.Host) (input : jsstring)
         (ctx : Command.ChatContext) (text : jsstring),
    Command.outcome (Command.runCommandOrChat (Command.withModelClient lh h) input ctx)
    = Normal text ->
    text <> [].
Proof.
  intros lh h input ctx text Hout.
  destruct (Spec.isCommandInput input) eqn:Hcmd.
  - destruct (command_run_shape (Command.withModelClient lh h) input ctx Hcmd)
      as (t & _ & [(text' & Hne & Hrun)|(_ & _ & c & s & _ & Hs & Hrun)]);
      rewrite Hrun in Hout; cbn [Command.outcome snd] in Hout.
    + inversion Hout; subst. exact Hne.
    + destruct (Command.chat _ _ _); [|discriminate].
      inversion Hout; subst. destruct s; [contradiction Hs; reflexivity|discriminate].
  - rewrite (runCommandOrChat_run _ input ctx [] Command.notCommand
               (processInput_chat _ input Hcmd)) in Hout.
    cbn [negb Command.isCommand Command.notCommand Command.outcome snd] in Hout.
    cbn [Command.chat Command.withModelClient] in Hout.
    exact (proj1 (chat_success_trimmed lh _ _ _ text Hout)).
Qed.

(** X7 on a chat turn answered with padded text. *)
Lemma answers_are_never_empty_witness :
  Command.outcome
    (Command.runCommandOrChat
       (Command.withModelClient
          (TestDouble.llmHost (TestDouble.completionPayload (Llm.JString (lit "  Hello  "))))
          TestDouble.happyHost)
       (lit "hi there") TestDouble.context)
  = Normal (lit "Hello")
  /\ lit "Hello" <> [].
Proof.
  split; [reflexivity|].
  exact (answers_are_never_empty
           (TestDouble.llmHost (TestDouble.completionPayload (Llm.JString (lit "  Hello  "))))
           TestDouble.happyHost (lit "hi there") TestDouble.context (lit "Hello") eq_refl).
Defined.

(** X8.  The local commands do not depend on the model client: for a
    command other than [clipboard] the run over the client of [llm.ts],
    with or without API key, is the run over any other client, it makes no
    model-client call and it returns a text. *)
Theorem local_commands_ignore_model_client :
  forall (lh : Llm.Host) (h : Command.Host) (input : jsstring)
         (ctx : Command.ChatContext),
    Spec.isCommandInput input = true ->
    Spec.commandToken h input <> lit "clipboard" ->
    Command.runCommandOrChat (Command.withModelClient lh h) input ctx
    = Command.runCommandOrChat h input ctx
    /\ Command.chatCalls (Command.runCommandOrChat h input ctx) = 0
    /\ exists text,
         Command.outcome (Command.runCommandOrChat h input ctx) = Normal text.
Proof.
  intros lh h input ctx Hcmd Htok.
  assert (Hsame : Command.processInput (Command.withModelClient lh h) input
                  = Command.processInput h input) by reflexivity.
  destruct (dispatch_shape h (Spec.commandToken h input) (Spec.commandArgs input))
    as (t & r & Hd & Hc & Hres & Ht & Hllm).
  assert (Hrun : Command.processInput h input = (t, Normal r)).
  { rewrite (processInput_command h input Hcmd). exact Hd. }
  pose proof Hrun as Hrun'. rewrite <- Hsame in Hrun'.
  rewrite (runCommandOrChat_run _ input ctx t r Hrun').
  rewrite (runCommandOrChat_run h input ctx t r Hrun).
  rewrite Hc. cbn [negb].
  destruct Hllm as [[Hn _]|(Hclip & _)]; [|contradiction].
  rewrite Hn. cbn [andb].
  split; [destruct (truthyOpt (Command.error r)); reflexivity|].
  assert (Hnochat : List.filter Command.isChatCall t = []).
  { destruct Ht as [Ht|[[_ Ht]|[(_ & _ & Ht)|[_ Ht]]]]; subst t; reflexivity. }
  destruct (truthyOpt (Command.error r)); unfold Command.chatCalls;
    cbn [Command.trace Command.outcome fst snd]; rewrite Hnochat;
    (split; [reflexivity|eexists; reflexivity]).
Qed.

(** X8 on [/calc 6 * 7] in a build without API key. *)
Lemma local_commands_ignore_model_client_witness :
  Command.runCommandOrChat
    (Command.withModelClient TestDouble.keylessLlmHost TestDouble.happyHost)
    (lit "/calc 6 * 7") TestDouble.context
  = Command.runCommandOrChat TestDouble.happyHost (lit "/calc 6 * 7") TestDouble.context
  /\ Command.chatCalls
       (Command.runCommandOrChat TestDouble.happyHost (lit "/calc 6 * 7")
          TestDouble.context) = 0
  /\ exists text,
       Command.outcome
         (Command.runCommandOrChat TestDouble.happyHost (lit "/calc 6 * 7")
            TestDouble.context) = Normal text.
Proof.
  exact (local_commands_ignore_model_client TestDouble.keylessLlmHost TestDouble.happyHost
           (lit "/calc 6 * 7") TestDouble.context eq_refl
           ltac:(vm_compute; discriminate)).
Defined.

(* ------------------------------------------------------------------ *)
(** * Further properties of the model client *)

(** X9.  [chat] succeeds only along one path: the key is set, [fetch]
    returned a response whose [ok] is true and whose body parsed, the
    first choice of the payload carries a string, and the text returned is
    that string trimmed. *)
Theorem chat_success_has_one_source :
  forall (h : Llm.Host) system msgs opts text,
    Llm.chat h system msgs opts = Normal text ->
    truthyOpt (Llm.API_KEY h) = true
    /\ exists response data s,
         Llm.fetch h (Llm.chatRequest h system msgs opts) = Normal response
         /\ Llm.ok response = true
         /\ Llm.json response = Normal data
         /\ Llm.generatedContent data = Some (Llm.JString s)
         /\ text = trim s.
Proof.
  intros h system msgs opts text. unfold Llm.chat, Llm.assertApiKey.
  destruct (truthyOpt (Llm.API_KEY h)); simpl; [|discriminate].
  destruct (Llm.fetch h _) as [response|] eqn:Hf; simpl; [|discriminate].
  destruct (Llm.ok response) eqn:Hok; simpl.
  - destruct (Llm.json response) as [data|] eqn:Hj; simpl; [|discriminate].
    destruct (Llm.generatedContent data) as [[| | |s| |]|] eqn:Hg; simpl;
      try discriminate.
    destruct (strEqb (trim s) []); [discriminate|].
    intro H. inversion H; subst. split; [reflexivity|].
    exists response, data, s. repeat split; assumption.
  - destruct (Llm.errorDetail h response); simpl; discriminate.
Qed.

(** X9 on a payload whose content is ["  Hello  "]. *)
Lemma chat_success_has_one_source_witness :
  truthyOpt
    (Llm.API_KEY
       (TestDouble.llmHost (TestDouble.completionPayload (Llm.JString (lit "  Hello  ")))))
  = true
  /\ exists response data s,
       Llm.fetch
         (TestDouble.llmHost (TestDouble.completionPayload (Llm.JString (lit "  Hello  "))))
         (Llm.chatRequest
            (TestDouble.llmHost (TestDouble.completionPayload (Llm.JString (lit "  Hello  "))))
            (lit "sys") [] Llm.noOptions)
       = Normal response
       /\ Llm.ok response = true
       /\ Llm.json response = Normal data
       /\ Llm.generatedContent data = Some (Llm.JString s)
       /\ lit "Hello" = trim s.
Proof.
  exact (chat_success_has_one_source
           (TestDouble.llmHost (TestDouble.completionPayload (Llm.JString (lit "  Hello  "))))
           (lit "sys") [] Llm.noOptions (lit "Hello") eq_refl).
Defined.

(** X10.  A response that is not [ok] never yields a text.  When its body
    parses, [chat] throws an error whose message starts with [OpenAI], the
    status and the status text; when the body holds a non-empty string at
    [error.message], the message ends with the separator and that very
    string.  When the body does not parse and reading it as text fails
    too, the failure of the read is what [chat] throws. *)
Theorem chat_fails_on_error_status :
  forall (h : Llm.Host) system msgs opts response,
    truthyOpt (Llm.API_KEY h) = true ->
    Llm.fetch h (Llm.chatRequest h system msgs opts) = Normal response ->
    Llm.ok response = false ->
    (exists e, Llm.chat h system msgs opts = Throw e)
    /\ (forall j,
           Llm.json response = Normal j ->
           exists detail,
             Llm.chat h system msgs opts
             = Throw (mkError (lit "OpenAI " ++ decimal (Llm.status response) ++ lit " "
                                 ++ Llm.statusText response ++ detail)))
    /\ (forall j m,
           Llm.json response = Normal j ->
           Llm.optChain (Llm.optChain (Some j) (Llm.Named (lit "error")))
             (Llm.Named (lit "message")) = Some (Llm.JString m) ->
           m <> [] ->
           Llm.chat h system msgs opts
           = Throw (mkError (lit "OpenAI " ++ decimal (Llm.status response) ++ lit " "
                               ++ Llm.statusText response ++ Llm.dash ++ m)))
    /\ (forall e1 e2,
           Llm.json response = Throw e1 ->
           Llm.text response = Throw e2 ->
           Llm.chat h system msgs opts = Throw e2).
Proof.
  intros h system msgs opts response Hkey Hfetch Hok.
  assert (Hchat : Llm.chat h system msgs opts
                  = match Llm.errorDetail h response with
                    | Normal detail =>
                        Throw (mkError (lit "OpenAI " ++ decimal (Llm.status response)
                                          ++ lit " " ++ Llm.statusText response ++ detail))
                    | Throw e => Throw e
                    end).
  { unfold Llm.chat, Llm.assertApiKey. rewrite Hkey. simpl. rewrite Hfetch. simpl.
    rewrite Hok. simpl. destruct (Llm.errorDetail h response); reflexivity. }
  rewrite Hchat. split; [|split; [|split]].
  - destruct (Llm.errorDetail h response); eexists; reflexivity.
  - intros j Hj. unfold Llm.errorDetail. rewrite Hj.
    destruct (Llm.truthy _); eexists; reflexivity.
  - intros j m Hj Hm Hne. unfold Llm.errorDetail. rewrite Hj, Hm.
    destruct m as [|c m]; [contradiction Hne; reflexivity|]. reflexivity.
  - intros e1 e2 Hj Ht. unfold Llm.errorDetail. rewrite Hj, Ht. reflexivity.
Qed.

(** X10 on a 401 answer carrying [{ error: { message: "bad key" } }]. *)
Lemma chat_fails_on_error_status_witness :
  Llm.chat (Fixture.refusingLlmHost (Fixture.errorPayload (lit "bad key")))
    (lit "sys") [] Llm.noOptions
  = Throw (mkError (lit "OpenAI 401 Unauthorized" ++ Llm.dash ++ lit "bad key")).
Proof.
  exact (proj1 (proj2 (proj2 (chat_fails_on_error_status
                                (Fixture.refusingLlmHost (Fixture.errorPayload (lit "bad key")))
                                (lit "sys") [] Llm.noOptions
                                (Llm.mkResponse false 401 (lit "Unauthorized")
                                   (Normal (Fixture.errorPayload (lit "bad key")))
                                   (Normal []))
                                eq_refl eq_refl eq_refl)))
               (Fixture.errorPayload (lit "bad key")) (lit "bad key") eq_refl eq_refl
               ltac:(vm_compute; discriminate)).
Defined.

(** X11.  Where a failure of [chat] comes from.  Without a key, the empty
    string counting as none, [chat] throws the missing-key error whatever
    the network would answer.  With a key, a thrown error is the one
    [fetch] threw, or the answer was not [ok], or it is the error that
    parsing the body threw, or it is the empty-response error. *)
Theorem chat_failures_have_five_sources :
  forall (h : Llm.Host) system msgs opts,
    (truthyOpt (Llm.API_KEY h) = false ->
     Llm.chat h system msgs opts = Throw Llm.missingKeyError)
    /\ (forall e,
           truthyOpt (Llm.API_KEY h) = true ->
           Llm.chat h system msgs opts = Throw e ->
           Llm.fetch h (Llm.chatRequest h system msgs opts) = Throw e
           \/ (exists response,
                  Llm.fetch h (Llm.chatRequest h system msgs opts) = Normal response
                  /\ Llm.ok response = false)
           \/ (exists response,
                  Llm.fetch h (Llm.chatRequest h system msgs opts) = Normal response
                  /\ Llm.ok response = true
                  /\ Llm.json response = Throw e)
           \/ e = Llm.emptyResponseError).
Proof.
  intros h system msgs opts. unfold Llm.chat, Llm.assertApiKey. split.
  - intro Hkey. rewrite Hkey. reflexivity.
  - intros e Hkey. rewrite Hkey. simpl.
    destruct (Llm.fetch h _) as [response|e0] eqn:Hf; simpl.
    + destruct (Llm.ok response) eqn:Hok; simpl.
      * destruct (Llm.json response) as [data|e1] eqn:Hj; simpl.
        -- intro H. right. right. right.
           destruct (Llm.nullish _ _); try (inversion H; reflexivity).
           destruct (strEqb (trim s) []); inversion H. reflexivity.
        -- intro H. inversion H; subst. right. right. left.
           exists response. repeat split; assumption.
      * intros _. right. left. exists response. split; [reflexivity|exact Hok].
    + intro H. inversion H; subst. left. reflexivity.
Qed.

(** X11 on a build whose key is the empty string. *)
Lemma chat_failures_have_five_sources_witness :
  Llm.chat
    (Llm.mkHost (Some []) None (fun _ => Normal (TestDouble.respond Llm.JNull))
       (fun _ => lit "{}") (fun _ => lit "[object Object]"))
    (lit "sys") [] Llm.noOptions
  = Throw Llm.missingKeyError.
Proof.
  exact (proj1 (chat_failures_have_five_sources
                  (Llm.mkHost (Some []) None
                     (fun _ => Normal (TestDouble.respond Llm.JNull))
                     (fun _ => lit "{}") (fun _ => lit "[object Object]"))
                  (lit "sys") [] Llm.noOptions) eq_refl).
Defined.

(* ------------------------------------------------------------------ *)
(** * The main process and the bridge *)

Lemma run_tryCatch_normal :
  forall (E A : Type) (m : Run.Run E A) (f : JsError -> A),
    Run.tryCatch m (fun e => Run.ret (f e))
    = (fst m, Normal match snd m with Normal a => a | Throw e => f e end).
Proof.
  intros E A [t [a|e]] f; simpl; [reflexivity|]. rewrite app_nil_r. reflexivity.
Qed.

Lemma openExternalHandler_run : forall (mh : Main.Host) url,
  Main.openExternalHandler mh url =
  match url with
  | Main.ArgString u =>
      if Command.hasProtocol u then
        ([Main.ShellOpenExternal u],
         Normal match Main.shellOpenExternal mh u with
                | Normal _ => Main.succeeded
                | Throw e => Main.failed (message e)
                end)
      else ([], Normal (Main.failed (lit "Invalid URL")))
  | Main.ArgOther => ([], Normal (Main.failed (lit "Invalid URL")))
  end.
Proof.
  intros mh [u|]; unfold Main.openExternalHandler; [|reflexivity].
  change (startsWith (lit "http://") u || startsWith (lit "https://") u)
    with (Command.hasProtocol u).
  destruct (Command.hasProtocol u); [|reflexivity].
  unfold Run.tryCatch, Run.bind, Run.perform, Run.ret.
  destruct (Main.shellOpenExternal mh u); reflexivity.
Qed.

(** X12.  The handler of ['os.openExternal'] never throws and hands to
    [shell.openExternal] nothing but a string that starts with [http://] or
    [https://]: any other argument is answered [Invalid URL] without a
    call; success is reported exactly when the one call was made and
    returned, and a call that throws is answered with its message. *)
Theorem openExternal_handler_checks_the_url :
  forall (mh : Main.Host) (url : Main.IpcArg),
  exists t r,
    Main.openExternalHandler mh url = (t, Normal r)
    /\ (forall u, In (Main.ShellOpenExternal u) t ->
                  url = Main.ArgString u /\ Command.hasProtocol u = true)
    /\ (Main.success r = true <->
        exists u, url = Main.ArgString u
                  /\ t = [Main.ShellOpenExternal u]
                  /\ Main.shellOpenExternal mh u = Normal tt)
    /\ ((forall u, url = Main.ArgString u -> Command.hasProtocol u = false) ->
        t = [] /\ r = Main.failed (lit "Invalid URL"))
    /\ (forall u e,
           url = Main.ArgString u ->
           Command.hasProtocol u = true ->
           Main.shellOpenExternal mh u = Throw e ->
           r = Main.failed (message e)).
Proof.
  intros mh url. rewrite openExternalHandler_run.
  destruct url as [u|].
  - destruct (Command.hasProtocol u) eqn:Hp.
    + eexists _, _. split; [reflexivity|]. split; [|split; [|split]].
      * intros u' [Hin|[]]. inversion Hin; subst. split; [reflexivity|exact Hp].
      * destruct (Main.shellOpenExternal mh u) as [[]|e] eqn:Hs; split.
        -- intros _. exists u. split; [reflexivity|]. split; [reflexivity|exact Hs].
        -- intros _. reflexivity.
        -- discriminate.
        -- intros (u' & Hu & _ & Hs'). inversion Hu; subst. congruence.
      * intro Hall. rewrite (Hall u eq_refl) in Hp. discriminate.
      * intros u' e Hu _ Hs. inversion Hu; subst. rewrite Hs. reflexivity.
    + eexists _, _. split; [reflexivity|]. split; [|split; [|split]].
      * intros u' [].
      * split; [discriminate|]. intros (u' & _ & Ht & _). discriminate.
      * intros _. split; reflexivity.
      * intros u' e Hu Hp'. inversion Hu; subst. congruence.
  - eexists _, _. split; [reflexivity|]. split; [|split; [|split]].
    + intros u' [].
    + split; [discriminate|]. intros (u' & Hu & _). discriminate.
    + intros _. split; reflexivity.
    + intros u' e Hu. discriminate.
Qed.

(** X12 on [file:///etc/passwd], which is refused without a call. *)
Lemma openExternal_handler_checks_the_url_witness :
  exists t r,
    Main.openExternalHandler Fixture.mainHost (Main.ArgString (lit "file:///etc/passwd"))
    = (t, Normal r)
    /\ t = [] /\ r = Main.failed (lit "Invalid URL").
Proof.
  destruct (openExternal_handler_checks_the_url Fixture.mainHost
              (Main.ArgString (lit "file:///etc/passwd")))
    as (t & r & Hrun & _ & _ & Hbad & _).
  exists t, r. split; [exact Hrun|].
  apply Hbad. intros u Hu. inversion Hu; subst. reflexivity.
Defined.



(** X14.  The channels of the bridge are the channels the main process
    registers: over [registerIpcHandlers] each function of [electronAPI]
    returns what its handler returns, with the handler's host calls.  So
    [electronAPI.openExternal] reaches [shell.openExternal] only with a
    string that starts with [http://] or [https://]. *)
Theorem bridge_reaches_every_handler :
  forall (mh : Main.Host) (rejection : jsstring -> option JsError -> JsError)
         (url : Main.IpcArg),
    Preload.openExternal (Preload.overMain mh rejection) url
    = Main.openExternalHandler mh url
    /\ Preload.readClipboard (Preload.overMain mh rejection)
       = Main.readClipboardHandler mh Main.ArgOther
    /\ Preload.minimizeWindow (Preload.overMain mh rejection)
       = Main.minimizeHandler mh Main.ArgOther
    /\ Preload.expandWindow (Preload.overMain mh rejection)
       = Main.expandHandler mh Main.ArgOther
    /\ (forall u,
           In (Main.ShellOpenExternal u)
              (fst (Preload.openExternal (Preload.overMain mh rejection) url)) ->
           url = Main.ArgString u /\ Command.hasProtocol u = true).
Proof.
  intros mh rejection url.
  assert (Hopen : Preload.openExternal (Preload.overMain mh rejection) url
                  = Main.openExternalHandler mh url).
  { unfold Preload.openExternal. rewrite run_tryCatch_normal.
    change (Preload.invoke (Preload.overMain mh rejection) (lit "os.openExternal") url)
      with (Run.tryCatch (Main.openExternalHandler mh url)
              (fun e => Run.throw (rejection (lit "os.openExternal") (Some e)))).
    rewrite openExternalHandler_run.
    destruct url as [u|]; [destruct (Command.hasProtocol u)|]; reflexivity. }
  split; [exact Hopen|]. split; [|split; [|split]].
  - unfold Preload.readClipboard. rewrite run_tryCatch_normal.
    change (Preload.invoke (Preload.overMain mh rejection) (lit "os.readClipboard")
              Main.ArgOther)
      with (Run.tryCatch (Main.readClipboardHandler mh Main.ArgOther)
              (fun e => Run.throw (rejection (lit "os.readClipboard") (Some e)))).
    unfold Main.readClipboardHandler. rewrite run_tryCatch_normal.
    destruct (Main.clipboardReadText mh); reflexivity.
  - unfold Preload.minimizeWindow. rewrite run_tryCatch_normal.
    change (Preload.invoke (Preload.overMain mh rejection) (lit "window.minimize")
              Main.ArgOther)
      with (Run.tryCatch (Main.minimizeHandler mh Main.ArgOther)
              (fun e => Run.throw (rejection (lit "window.minimize") (Some e)))).
    unfold Main.minimizeHandler. rewrite run_tryCatch_normal.
    destruct (Main.mainWindow mh) as [setSize|]; [|reflexivity].
    destruct (setSize 180%N 60%N); reflexivity.
  - unfold Preload.expandWindow. rewrite run_tryCatch_normal.
    change (Preload.invoke (Preload.overMain mh rejection) (lit "window.expand")
              Main.ArgOther)
      with (Run.tryCatch (Main.expandHandler mh Main.ArgOther)
              (fun e => Run.throw (rejection (lit "window.expand") (Some e)))).
    unfold Main.expandHandler. rewrite run_tryCatch_normal.
    destruct (Main.mainWindow mh) as [setSize|]; [|reflexivity].
    destruct (setSize 420%N 560%N); reflexivity.
  - intros u Hin. rewrite Hopen, openExternalHandler_run in Hin.
    destruct url as [u'|]; [destruct (Command.hasProtocol u') eqn:Hp|];
      cbn [fst In] in Hin; try contradiction.
    destruct Hin as [Hin|[]]. inversion Hin; subst. split; [reflexivity|exact Hp].
Qed.

(** X14 on [https://example.com]: the bridge opens it through the shell. *)
Lemma bridge_reaches_every_handler_witness :
  Preload.openExternal Fixture.bridge (Main.ArgString (lit "https://example.com"))
  = ([Main.ShellOpenExternal (lit "https://example.com")], Normal Main.succeeded).
Proof.
  exact (eq_trans
           (proj1 (bridge_reaches_every_handler Fixture.mainHost
                     Fixture.electronRejection
                     (Main.ArgString (lit "https://example.com"))))
           eq_refl).
Defined.

(* ------------------------------------------------------------------ *)
(** * The chat view *)

Lemma trim_head_nonblank : forall c rest,
  isWhiteSpace c = false -> trim (c :: rest) <> [].
Proof.
  intros c rest Hc. unfold trim. rewrite (trimStart_fixed c rest Hc).
  unfold trimEnd. change (rev (c :: rest)) with (rev rest ++ [c]).
  destruct (trimStart_snoc (rev rest) c Hc) as [s' Hs']. rewrite Hs'.
  rewrite rev_app_distr. discriminate.
Qed.

Lemma chat_run :
  forall (h : Command.Host) (input : jsstring) (ctx : Command.ChatContext),
    Spec.isCommandInput input = false ->
    Command.runCommandOrChat h input ctx =
    ([Command.ChatCall (Command.system ctx)
        (Command.history ctx ++ [Spec.userMessage input])],
     Command.chat h (Command.system ctx)
       (Command.history ctx ++ [Spec.userMessage input])).
Proof.
  intros h input ctx Hchat.
  rewrite (runCommandOrChat_run h input ctx [] Command.notCommand
             (processInput_chat h input Hchat)).
  reflexivity.
Qed.

Section Submit.
Import ChatComponent ViewSpec.
Variable h : Host.

Lemma handleSubmit_guarded : forall st,
  trim (inputText st) = [] \/ loading st = true ->
  handleSubmit h st = ([], st).
Proof.
  intros st [H|H]; unfold handleSubmit; rewrite H; [reflexivity|].
  rewrite orb_true_r. reflexivity.
Qed.

Lemma handleSubmit_started : forall st,
  trim (inputText st) <> [] ->
  loading st = false ->
  handleSubmit h st =
  (Command.trace (submitRun h st),
   match Command.outcome (submitRun h st) with
   | Normal aiResponse =>
       mkState ((messages st ++ [userChatMessage h (inputText st)])
                  ++ [assistantChatMessage h aiResponse])
               [] false None (promptStyle st) (isMinimized st)
   | Throw err =>
       mkState (messages st ++ [userChatMessage h (inputText st)])
               [] false
               (Some (if truthyStr (message err) then message err else fallbackError))
               (promptStyle st) (isMinimized st)
   end).
Proof.
  intros st Htrim Hload. unfold handleSubmit, submitRun. rewrite Hload.
  destruct (trim (inputText st)) as [|c t] eqn:E; [contradiction Htrim; reflexivity|].
  cbn [truthyStr isEmpty negb orb]. cbv zeta.
  destruct (Command.runCommandOrChat _ _ _) as [t' [text|err]]; reflexivity.
Qed.

End Submit.

(** X15.  A submit never removes or alters a message: the history
    after it is the history before it followed by at most two messages,
    and style and size are kept.  Nothing is added exactly when the typed
    text is blank or a turn is in flight, and then the whole state is
    unchanged and no host is called. *)
Theorem submit_only_extends_the_history :
  forall (h : ChatComponent.Host) (st : ChatComponent.State),
  exists added,
    ChatComponent.messages (snd (ChatComponent.handleSubmit h st))
    = ChatComponent.messages st ++ added
    /\ List.length added <= 2
    /\ ChatComponent.promptStyle (snd (ChatComponent.handleSubmit h st))
       = ChatComponent.promptStyle st
    /\ ChatComponent.isMinimized (snd (ChatComponent.handleSubmit h st))
       = ChatComponent.isMinimized st
    /\ (added = [] <->
        trim (ChatComponent.inputText st) = [] \/ ChatComponent.loading st = true)
    /\ (added = [] -> ChatComponent.handleSubmit h st = ([], st)).
Proof.
  intros h st.
  destruct (trim (ChatComponent.inputText st)) as [|c0 t0] eqn:Htrim.
  { exists []. rewrite (handleSubmit_guarded h st (or_introl Htrim)). cbn [snd].
    rewrite app_nil_r. repeat split; auto. }
  destruct (ChatComponent.loading st) eqn:Hload.
  { exists []. rewrite (handleSubmit_guarded h st (or_intror Hload)). cbn [snd].
    rewrite app_nil_r. repeat split; auto. }
  assert (Hne : trim (ChatComponent.inputText st) <> []) by (rewrite Htrim; discriminate).
  rewrite (handleSubmit_started h st Hne Hload). cbn [snd].
  destruct (Command.outcome (ViewSpec.submitRun h st)) as [text|err];
    cbn [ChatComponent.messages ChatComponent.promptStyle ChatComponent.isMinimized].
  - exists [ViewSpec.userChatMessage h (ChatComponent.inputText st);
            ViewSpec.assistantChatMessage h text].
    split; [rewrite <- app_assoc; reflexivity|].
    split; [cbn [List.length]; lia|]. split; [reflexivity|]. split; [reflexivity|].
    split; [split; [discriminate|intros [H|H]; discriminate]|discriminate].
  - exists [ViewSpec.userChatMessage h (ChatComponent.inputText st)].
    split; [reflexivity|].
    split; [cbn [List.length]; lia|]. split; [reflexivity|]. split; [reflexivity|].
    split; [split; [discriminate|intros [H|H]; discriminate]|discriminate].
Qed.

(** X15 on three spaces typed: nothing happens. *)
Lemma submit_only_extends_the_history_witness :
  exists added,
    ChatComponent.messages
      (snd (ChatComponent.handleSubmit (Fixture.chatHost TestDouble.happyHost)
              (Fixture.typed (lit "   "))))
    = Fixture.earlier ++ added
    /\ added = []
    /\ ChatComponent.handleSubmit (Fixture.chatHost TestDouble.happyHost)
         (Fixture.typed (lit "   "))
       = ([], Fixture.typed (lit "   ")).
Proof.
  destruct (submit_only_extends_the_history (Fixture.chatHost TestDouble.happyHost)
              (Fixture.typed (lit "   ")))
    as (added & Hm & _ & _ & _ & Hiff & Hsame).
  exists added. split; [exact Hm|].
  pose proof (proj2 Hiff (or_introl eq_refl)) as Hadded.
  split; [exact Hadded|exact (Hsame Hadded)].
Defined.

(** X16.  A submit that starts a turn leaves the input empty and the view
    idle, whatever the router does, and keeps style and size.  When the
    router returns a text, the history gains the user's message, with the
    text as typed, and the assistant's message with that text, and the
    error is cleared.  When the router throws, the history gains the
    user's message only, and the error is the message thrown, or the
    fallback when that message is empty: never an empty banner. *)
Theorem submit_appends_the_turn :
  forall (h : ChatComponent.Host) (st : ChatComponent.State),
    trim (ChatComponent.inputText st) <> [] ->
    ChatComponent.loading st = false ->
    ChatComponent.inputText (snd (ChatComponent.handleSubmit h st)) = []
    /\ ChatComponent.loading (snd (ChatComponent.handleSubmit h st)) = false
    /\ ChatComponent.promptStyle (snd (ChatComponent.handleSubmit h st))
       = ChatComponent.promptStyle st
    /\ ChatComponent.isMinimized (snd (ChatComponent.handleSubmit h st))
       = ChatComponent.isMinimized st
    /\ (forall text,
           Command.outcome (ViewSpec.submitRun h st) = Normal text ->
           ChatComponent.messages (snd (ChatComponent.handleSubmit h st))
           = ChatComponent.messages st
               ++ [ViewSpec.userChatMessage h (ChatComponent.inputText st);
                   ViewSpec.assistantChatMessage h text]
           /\ ChatComponent.error (snd (ChatComponent.handleSubmit h st)) = None)
    /\ (forall err,
           Command.outcome (ViewSpec.submitRun h st) = Throw err ->
           ChatComponent.messages (snd (ChatComponent.handleSubmit h st))
           = ChatComponent.messages st
               ++ [ViewSpec.userChatMessage h (ChatComponent.inputText st)]
           /\ exists banner,
                ChatComponent.error (snd (ChatComponent.handleSubmit h st)) = Some banner
                /\ banner <> []
                /\ (message err <> [] -> banner = message err)
                /\ (message err = [] -> banner = ChatComponent.fallbackError)).
Proof.
  intros h st Htrim Hload.
  rewrite (handleSubmit_started h st Htrim Hload). cbn [snd].
  destruct (Command.outcome (ViewSpec.submitRun h st)) as [text|err];
    cbn [ChatComponent.inputText ChatComponent.loading ChatComponent.promptStyle
         ChatComponent.isMinimized ChatComponent.messages ChatComponent.error].
  - split; [reflexivity|]. split; [reflexivity|]. split; [reflexivity|].
    split; [reflexivity|]. split.
    + intros text' Hout. inversion Hout; subst. rewrite <- app_assoc.
      split; reflexivity.
    + intros err Hout. discriminate.
  - split; [reflexivity|]. split; [reflexivity|]. split; [reflexivity|].
    split; [reflexivity|]. split.
    + intros text Hout. discriminate.
    + intros err' Hout. inversion Hout; subst. split; [reflexivity|].
      eexists. split; [reflexivity|].
      destruct (message err') as [|c m]; cbn [truthyStr isEmpty negb].
      * split; [discriminate|]. split; [|reflexivity].
        intro Hc. contradiction Hc. reflexivity.
      * split; [discriminate|]. split; [reflexivity|]. discriminate.
Qed.

(** X16 on a turn the model answers and on a turn where it fails. *)
Lemma submit_appends_the_turn_witness :
  ChatComponent.messages
    (snd (ChatComponent.handleSubmit (Fixture.chatHost TestDouble.happyHost)
            (Fixture.typed (lit "what now?"))))
  = Fixture.earlier
      ++ [ViewSpec.userChatMessage (Fixture.chatHost TestDouble.happyHost) (lit "what now?");
          ViewSpec.assistantChatMessage (Fixture.chatHost TestDouble.happyHost) (lit "Sure.")]
  /\ ChatComponent.messages
       (snd (ChatComponent.handleSubmit
               (Fixture.chatHost (Fixture.failingHost (lit "Failed to fetch")))
               (Fixture.typed (lit "what now?"))))
     = Fixture.earlier
         ++ [ViewSpec.userChatMessage
               (Fixture.chatHost (Fixture.failingHost (lit "Failed to fetch")))
               (lit "what now?")].
Proof.
  split.
  - exact (proj1 (proj1 (proj2 (proj2 (proj2 (proj2
             (submit_appends_the_turn (Fixture.chatHost TestDouble.happyHost)
                (Fixture.typed (lit "what now?"))
                ltac:(vm_compute; discriminate) eq_refl)))))
             (lit "Sure.") eq_refl)).
  - exact (proj1 (proj2 (proj2 (proj2 (proj2 (proj2
             (submit_appends_the_turn
                (Fixture.chatHost (Fixture.failingHost (lit "Failed to fetch")))
                (Fixture.typed (lit "what now?"))
                ltac:(vm_compute; discriminate) eq_refl)))))
             (mkError (lit "Failed to fetch")) eq_refl)).
Defined.

(** X17.  On a chat turn the model is sent the conversation exactly as
    the view shows it once the user's message is appended: the prompt of
    the selected style, every earlier message once and in order, and the
    typed text once, last, as a user message. *)
Theorem submit_sends_the_conversation_once :
  forall (h : ChatComponent.Host) (st : ChatComponent.State),
    trim (ChatComponent.inputText st) <> [] ->
    ChatComponent.loading st = false ->
    Spec.isCommandInput (ChatComponent.inputText st) = false ->
    fst (ChatComponent.handleSubmit h st)
    = [Command.ChatCall (ChatComponent.systemPrompt (ChatComponent.promptStyle st))
         (List.map ChatComponent.toLLMMessage
            (ChatComponent.messages st
               ++ [ViewSpec.userChatMessage h (ChatComponent.inputText st)]))].
Proof.
  intros h st Htrim Hload Hchat.
  rewrite (handleSubmit_started h st Htrim Hload). cbn [fst].
  unfold ViewSpec.submitRun. rewrite (chat_run _ _ _ Hchat).
  rewrite map_app. reflexivity.
Qed.

(** X17 on the text ["what now?"] after two earlier messages. *)
Lemma submit_sends_the_conversation_once_witness :
  fst (ChatComponent.handleSubmit (Fixture.chatHost TestDouble.happyHost)
         (Fixture.typed (lit "what now?")))
  = [Command.ChatCall (ChatComponent.systemPrompt ChatComponent.Brief)
       [Llm.mkMessage Llm.RoleUser (lit "hi");
        Llm.mkMessage Llm.RoleAssistant (lit "Hello!");
        Llm.mkMessage Llm.RoleUser (lit "what now?")]].
Proof.
  exact (submit_sends_the_conversation_once (Fixture.chatHost TestDouble.happyHost)
           (Fixture.typed (lit "what now?")) ltac:(vm_compute; discriminate)
           eq_refl eq_refl).
Defined.

(** X18.  The view never sends the model a blank turn: in every
    model-client call a submit makes, the system prompt is the prompt of
    the selected style and the last message is a user message whose text
    is not blank. *)
Theorem submit_never_sends_a_blank_turn :
  forall (h : ChatComponent.Host) (st : ChatComponent.State) system msgs,
    In (Command.ChatCall system msgs) (fst (ChatComponent.handleSubmit h st)) ->
    system = ChatComponent.systemPrompt (ChatComponent.promptStyle st)
    /\ exists before text,
         msgs = before ++ [Spec.userMessage text] /\ trim text <> [].
Proof.
  intros h st system msgs Hin.
  destruct (trim (ChatComponent.inputText st)) as [|c0 t0] eqn:Htrim.
  { rewrite (handleSubmit_guarded h st (or_introl Htrim)) in Hin. contradiction. }
  destruct (ChatComponent.loading st) eqn:Hload.
  { rewrite (handleSubmit_guarded h st (or_intror Hload)) in Hin. contradiction. }
  assert (Hne : trim (ChatComponent.inputText st) <> []) by (rewrite Htrim; discriminate).
  rewrite (handleSubmit_started h st Hne Hload) in Hin. cbn [fst] in Hin.
  unfold ViewSpec.submitRun in Hin.
  destruct (Spec.isCommandInput (ChatComponent.inputText st)) eqn:Hcmd.
  - destruct (command_run_shape (ChatComponent.router h) (ChatComponent.inputText st)
                (Command.mkContext
                   (ChatComponent.systemPrompt (ChatComponent.promptStyle st))
                   (List.map ChatComponent.toLLMMessage (ChatComponent.messages st)))
                Hcmd)
      as (t & Ht & [(text & _ & Hrun)|(_ & _ & c & s & Hc & _ & Hrun)]);
      rewrite Hrun in Hin; cbn [Command.trace fst] in Hin.
    + destruct Ht as [Ht|[[_ Ht]|[(_ & _ & Ht)|[_ Ht]]]]; subst t; cbn [In] in Hin;
        try contradiction; destruct Hin as [Hin|[]]; discriminate.
    + cbn [In Command.system] in Hin. destruct Hin as [Hin|[Hin|[]]]; [discriminate|].
      inversion Hin; subst. split; [reflexivity|].
      exists [], (Command.summaryPrompt c). split; [reflexivity|].
      apply trim_head_nonblank. reflexivity.
  - rewrite (chat_run _ _ _ Hcmd) in Hin.
    cbn [Command.trace fst In Command.system Command.history] in Hin.
    destruct Hin as [Hin|[]]. inversion Hin; subst. split; [reflexivity|].
    eexists _, _. split; [reflexivity|]. exact Hne.
Qed.

(** X18 on [/clipboard] submitted: the one call carries the summary
    prompt. *)
Lemma submit_never_sends_a_blank_turn_witness :
  ChatComponent.systemPrompt ChatComponent.Brief
  = ChatComponent.systemPrompt (ChatComponent.promptStyle (Fixture.typed (lit "/clipboard")))
  /\ exists before text,
       [Spec.userMessage (Command.summaryPrompt (lit "meeting at noon"))]
       = before ++ [Spec.userMessage text]
       /\ trim text <> [].
Proof.
  exact (submit_never_sends_a_blank_turn (Fixture.chatHost TestDouble.happyHost)
           (Fixture.typed (lit "/clipboard"))
           (ChatComponent.systemPrompt ChatComponent.Brief)
           [Spec.userMessage (Command.summaryPrompt (lit "meeting at noon"))]
           (or_intror (or_introl eq_refl))).
Defined.

(** X19.  The [Help] button is safe although it runs outside any [try]:
    it calls no host, is never rejected, and appends the user's ["/help"]
    and the assistant's reference text, leaving the rest of the state as
    it was. *)
Theorem help_button_appends_the_reference :
  forall (h : ChatComponent.Host) (st : ChatComponent.State),
    SpecArith.AsciiLowerCase (ChatComponent.router h) ->
    ChatComponent.helpClicked h st
    = ([],
       ChatComponent.mkState
         (ChatComponent.messages st
            ++ [ViewSpec.userChatMessage h (lit "/help");
                ViewSpec.assistantChatMessage h Command.helpText])
         (ChatComponent.inputText st) (ChatComponent.loading st)
         (ChatComponent.error st) (ChatComponent.promptStyle st)
         (ChatComponent.isMinimized st),
       Normal tt).
Proof.
  intros h st Hlower. unfold ChatComponent.helpClicked. cbv zeta.
  assert (Htok : Spec.commandToken (ChatComponent.router h) (lit "/help") = lit "help").
  { rewrite (commandToken_ascii _ Hlower) by reflexivity. reflexivity. }
  rewrite (help_run (ChatComponent.router h) (lit "/help") _ eq_refl Htok).
  cbn [ChatComponent.messages]. rewrite <- app_assoc. reflexivity.
Qed.

(** X19 on the view with two messages. *)
Lemma help_button_appends_the_reference_witness :
  ChatComponent.helpClicked (Fixture.chatHost TestDouble.happyHost) (Fixture.typed [])
  = ([],
     ChatComponent.mkState
       (Fixture.earlier
          ++ [ViewSpec.userChatMessage (Fixture.chatHost TestDouble.happyHost) (lit "/help");
              ViewSpec.assistantChatMessage (Fixture.chatHost TestDouble.happyHost)
                Command.helpText])
       [] false None ChatComponent.Brief false,
     Normal tt).
Proof.
  exact (help_button_appends_the_reference (Fixture.chatHost TestDouble.happyHost)
           (Fixture.typed []) (asciiLowerCase_testDouble _ _ _)).
Defined.

(** X20.  The two preferences survive a restart: what the effects store
    for a style and for the size is restored by the mount effect from the
    initial state, for each of the four styles and both sizes; a stored
    text that names no style, or no stored text, leaves the style as it
    is. *)
Theorem preferences_survive_a_restart :
  (forall style,
      ChatComponent.restoreStyle (Some (ChatComponent.storedStyle style))
        (ChatComponent.promptStyle ChatComponent.initialState) = style)
  /\ (forall b,
         ChatComponent.restoreMinimized (Some (ChatComponent.storedMinimized b))
           (ChatComponent.isMinimized ChatComponent.initialState) = b)
  /\ (forall saved current,
         (forall style, saved <> Some (ChatComponent.storedStyle style)) ->
         ChatComponent.restoreStyle saved current = current).
Proof.
  split; [|split].
  - intros []; reflexivity.
  - intros []; reflexivity.
  - intros [s|] current Hnone; [|reflexivity]. unfold ChatComponent.restoreStyle.
    destruct (strEqb s (lit "Balanced")) eqn:E1.
    { apply strEqb_eq in E1. subst.
      exfalso. exact (Hnone ChatComponent.Balanced eq_refl). }
    destruct (strEqb s (lit "Brief")) eqn:E2.
    { apply strEqb_eq in E2. subst.
      exfalso. exact (Hnone ChatComponent.Brief eq_refl). }
    destruct (strEqb s (lit "Creative")) eqn:E3.
    { apply strEqb_eq in E3. subst.
      exfalso. exact (Hnone ChatComponent.Creative eq_refl). }
    destruct (strEqb s (lit "Professional")) eqn:E4.
    { apply strEqb_eq in E4. subst.
      exfalso. exact (Hnone ChatComponent.Professional eq_refl). }
    reflexivity.
Qed.

Lemma toggle_state : forall (h : ChatComponent.Host) (st : ChatComponent.State),
  snd (ChatComponent.toggleMinimized h st)
  = ChatComponent.mkState (ChatComponent.messages st) (ChatComponent.inputText st)
      (ChatComponent.loading st) (ChatComponent.error st) (ChatComponent.promptStyle st)
      (negb (ChatComponent.isMinimized st)).
Proof.
  intros h st. unfold ChatComponent.toggleMinimized. cbv zeta.
  destruct (ChatComponent.electronAPI h); reflexivity.
Qed.

(** X21.  Toggling the size twice gives back the state it started from.
    In Electron, with a window, a toggle resizes it once: to 180 by 60 when
    the view becomes compact and to 420 by 560 when it becomes full,
    whether or not the resize succeeds; outside Electron it calls
    nothing. *)
Theorem toggling_twice_restores_the_view :
  forall (h : ChatComponent.Host) (st : ChatComponent.State),
    snd (ChatComponent.toggleMinimized h (snd (ChatComponent.toggleMinimized h st))) = st
    /\ (forall mh rejection setSize,
           ChatComponent.electronAPI h = Some (Preload.overMain mh rejection) ->
           Main.mainWindow mh = Some setSize ->
           fst (ChatComponent.toggleMinimized h st)
           = [if ChatComponent.isMinimized st then Main.SetSize 420 560
              else Main.SetSize 180 60])
    /\ (ChatComponent.electronAPI h = None ->
        fst (ChatComponent.toggleMinimized h st) = []).
Proof.
  intros h st. split; [|split].
  - rewrite !toggle_state. destruct st as [m i l e p z].
    cbn [ChatComponent.messages ChatComponent.inputText ChatComponent.loading
         ChatComponent.error ChatComponent.promptStyle ChatComponent.isMinimized].
    rewrite negb_involutive. reflexivity.
  - intros mh rejection setSize Hapi Hwin.
    unfold ChatComponent.toggleMinimized. cbv zeta. rewrite Hapi. cbn [fst].
    destruct (ChatComponent.isMinimized st); cbn [negb].
    + unfold Preload.expandWindow. rewrite run_tryCatch_normal.
      change (Preload.invoke (Preload.overMain mh rejection) (lit "window.expand")
                Main.ArgOther)
        with (Run.tryCatch (Main.expandHandler mh Main.ArgOther)
              (fun e => Run.throw (rejection (lit "window.expand") (Some e)))).
      unfold Main.expandHandler. rewrite Hwin, run_tryCatch_normal.
      destruct (setSize 420%N 560%N); reflexivity.
    + unfold Preload.minimizeWindow. rewrite run_tryCatch_normal.
      change (Preload.invoke (Preload.overMain mh rejection) (lit "window.minimize")
                Main.ArgOther)
        with (Run.tryCatch (Main.minimizeHandler mh Main.ArgOther)
              (fun e => Run.throw (rejection (lit "window.minimize") (Some e)))).
      unfold Main.minimizeHandler. rewrite Hwin, run_tryCatch_normal.
      destruct (setSize 180%N 60%N); reflexivity.
  - intro Hapi. unfold ChatComponent.toggleMinimized. cbv zeta. rewrite Hapi. reflexivity.
Qed.

(** X21 in Electron: the first toggle makes the window compact, the
    second makes it full again. *)
Lemma toggling_twice_restores_the_view_witness :
  fst (ChatComponent.toggleMinimized (Fixture.chatHost TestDouble.happyHost)
         (Fixture.typed []))
  = [Main.SetSize 180 60]
  /\ fst (ChatComponent.toggleMinimized (Fixture.chatHost TestDouble.happyHost)
            (snd (ChatComponent.toggleMinimized (Fixture.chatHost TestDouble.happyHost)
                    (Fixture.typed []))))
     = [Main.SetSize 420 560].
Proof.
  split.
  - exact (proj1 (proj2 (toggling_twice_restores_the_view
                           (Fixture.chatHost TestDouble.happyHost) (Fixture.typed [])))
                 Fixture.mainHost Fixture.electronRejection
                 (fun _ _ => Normal tt) eq_refl eq_refl).
  - exact (proj1 (proj2 (toggling_twice_restores_the_view
                           (Fixture.chatHost TestDouble.happyHost)
                           (snd (ChatComponent.toggleMinimized
                                   (Fixture.chatHost TestDouble.happyHost)
                                   (Fixture.typed [])))))
                 Fixture.mainHost Fixture.electronRejection
                 (fun _ _ => Normal tt) eq_refl eq_refl).
Defined.

(* ------------------------------------------------------------------ *)
(** * Which command may call what *)

Lemma run_trace_shape :
  forall (h : Command.Host) (input : jsstring) (ctx : Command.ChatContext),
    (Spec.isCommandInput input = false
     /\ exists s m,
          Command.trace (Command.runCommandOrChat h input ctx) = [Command.ChatCall s m])
    \/ (Spec.isCommandInput input = true
        /\ exists t,
             RouterSpec.commandTrace (Spec.commandToken h input) (Spec.commandArgs input) t
             /\ (Command.trace (Command.runCommandOrChat h input ctx) = t
                 \/ (Spec.commandToken h input = lit "clipboard"
                     /\ exists s m,
                          Command.trace (Command.runCommandOrChat h input ctx)
                          = [Command.ClipboardRead; Command.ChatCall s m]))).
Proof.
  intros h input ctx. destruct (Spec.isCommandInput input) eqn:Hcmd.
  - right. split; [reflexivity|].
    destruct (command_run_shape h input ctx Hcmd)
      as (t & Ht & [(text & _ & Hrun)|(Htok & _ & c & s & _ & _ & Hrun)]);
      exists t; (split; [exact Ht|]); rewrite Hrun; cbn [Command.trace fst].
    + left. reflexivity.
    + right. split; [exact Htok|]. eexists _, _. reflexivity.
  - left. split; [reflexivity|]. rewrite (chat_run h input ctx Hcmd).
    eexists _, _. reflexivity.
Qed.

(** X22.  Each capability is reached through its own command only.  A
    run reads the clipboard only for [/clipboard], opens a window only for
    [/open], and calls [Function] only for [/calc] or [/calculate], and
    then on the joined arguments, in parentheses behind [return], after
    they passed the whitelist: text that fails the whitelist is never
    evaluated, and ordinary chat touches none of the three. *)
Theorem capabilities_belong_to_their_commands :
  forall (h : Command.Host) (input : jsstring) (ctx : Command.ChatContext),
    (In Command.ClipboardRead (Command.trace (Command.runCommandOrChat h input ctx)) ->
     Spec.isCommandInput input = true
     /\ Spec.commandToken h input = lit "clipboard")
    /\ (forall url target,
           In (Command.WindowOpen url target)
              (Command.trace (Command.runCommandOrChat h input ctx)) ->
           Spec.isCommandInput input = true
           /\ Spec.commandToken h input = lit "open")
    /\ (forall src,
           In (Command.FunctionEval src)
              (Command.trace (Command.runCommandOrChat h input ctx)) ->
           Spec.isCommandInput input = true
           /\ (Spec.commandToken h input = lit "calc"
               \/ Spec.commandToken h input = lit "calculate")
           /\ Command.whitelisted (join (lit " ") (Spec.commandArgs input)) = true
           /\ src = Command.functionBody (join (lit " ") (Spec.commandArgs input))).
Proof.
  intros h input ctx.
  destruct (run_trace_shape h input ctx)
    as [(Hcmd & s & m & Htr)|(Hcmd & t & Ht & [Htr|(Htok & s & m & Htr)])];
    rewrite Htr.
  - split; [|split]; cbn [In].
    + intros [H|[]]; discriminate.
    + intros url target [H|[]]; discriminate.
    + intros src [H|[]]; discriminate.
  - destruct Ht as [Ht|[[Ho Ht]|[(Hc & Hw & Ht)|[Hc Ht]]]]; subst t; cbn [In].
    + split; [|split]; intros; contradiction.
    + split; [|split].
      * intros [H|[]]; discriminate.
      * intros url target _. split; assumption.
      * intros src [H|[]]; discriminate.
    + split; [|split].
      * intros [H|[]]; discriminate.
      * intros url target [H|[]]; discriminate.
      * intros src [H|[]]. inversion H; subst.
        split; [exact Hcmd|]. split; [exact Hc|]. split; [exact Hw|reflexivity].
    + split; [|split].
      * intros _. split; assumption.
      * intros url target [H|[]]; discriminate.
      * intros src [H|[]]; discriminate.
  - split; [|split]; cbn [In].
    + intros _. split; assumption.
    + intros url target [H|[H|[]]]; discriminate.
    + intros src [H|[H|[]]]; discriminate.
Qed.

(** X22 on [/calc 6 * 7]: what is evaluated is the whitelisted text. *)
Lemma capabilities_belong_to_their_commands_witness :
  Spec.isCommandInput (lit "/calc 6 * 7") = true
  /\ (Spec.commandToken TestDouble.happyHost (lit "/calc 6 * 7") = lit "calc"
      \/ Spec.commandToken TestDouble.happyHost (lit "/calc 6 * 7") = lit "calculate")
  /\ Command.whitelisted (join (lit " ") (Spec.commandArgs (lit "/calc 6 * 7"))) = true
  /\ Command.functionBody (lit "6 * 7")
     = Command.functionBody (join (lit " ") (Spec.commandArgs (lit "/calc 6 * 7"))).
Proof.
  exact (proj2 (proj2 (capabilities_belong_to_their_commands TestDouble.happyHost
                         (lit "/calc 6 * 7") TestDouble.context))
               (Command.functionBody (lit "6 * 7")) (or_introl eq_refl)).
Defined.
